(* ===================================================================== *)
(* cloud-provider-onmetal: the load balancer provider                    *)
(*   pkg/cloudprovider/onmetal/load_balancer.go, constants.go            *)
(*                                                                       *)
(* A shallow embedding of the provider and proofs about it.  The Go code *)
(* talks to a Kubernetes API server through client.Client; here that     *)
(* interface is a record of operations over an abstract server state,    *)
(* and every provider function is written in a state monad over it that  *)
(* also keeps a journal of the calls made and the answers received.      *)
(* ===================================================================== *)

From Stdlib Require Import ZArith Lia Ascii String Sorting.Sorted Sorting.Permutation.
From stdpp Require Import gmap strings list fin_maps pretty.

Local Open Scope string_scope.

(* --------------------------------------------------------------------- *)
(* Strings: the little of package strings and fmt that the code uses      *)
(* --------------------------------------------------------------------- *)

Module GoStrings.

(* strings.Split(s, sep) for a one byte separator: the pieces of [s]
   between occurrences of [sep]; never empty, Split of the empty string
   is the one-element slice holding the empty string. *)
Fixpoint Split (s : string) (sep : ascii) : list string :=
  match s with
  | EmptyString => [EmptyString]
  | String c rest =>
      if Ascii.eqb c sep then EmptyString :: Split rest sep
      else match Split rest sep with
           | piece :: pieces => String c piece :: pieces
           | [] => [String c EmptyString]
           end
  end.

(* xs[0] on a slice of strings; Split never returns an empty slice, so
   the default is never taken where the code indexes. *)
Definition first (xs : list string) : string := hd EmptyString xs.

(* true when the byte occurs in the string *)
Fixpoint contains (s : string) (c : ascii) : bool :=
  match s with
  | EmptyString => false
  | String d rest => Ascii.eqb d c || contains rest c
  end.

(* strings.LastIndex(s, sep) for a one byte separator, as an option:
   None is Go's -1. *)
Fixpoint LastIndex (s : string) (sep : ascii) : option nat :=
  match s with
  | EmptyString => None
  | String c rest =>
      match LastIndex rest sep with
      | Some i => Some (S i)
      | None => if Ascii.eqb c sep then Some 0 else None
      end
  end.

(* s[i:] *)
Fixpoint from (i : nat) (s : string) : string :=
  match i, s with
  | 0, _ => s
  | S j, String _ rest => from j rest
  | S _, EmptyString => EmptyString
  end.

(* strings.ReplaceAll(s, old, new) for one byte old and new *)
Fixpoint ReplaceAll (s : string) (old new : ascii) : string :=
  match s with
  | EmptyString => EmptyString
  | String c rest =>
      String (if Ascii.eqb c old then new else c) (ReplaceAll rest old new)
  end.

(* strings.TrimSuffix(s, suffix) for a one byte suffix *)
Fixpoint TrimSuffix (s : string) (suffix : ascii) : string :=
  match s with
  | EmptyString => EmptyString
  | String c EmptyString => if Ascii.eqb c suffix then EmptyString else s
  | String c rest => String c (TrimSuffix rest suffix)
  end.

End GoStrings.

Definition dash : ascii := "-"%char.
Definition slash : ascii := "/"%char.

(* --------------------------------------------------------------------- *)
(* constants.go                                                           *)
(* --------------------------------------------------------------------- *)

Definition InternalLoadBalancerAnnotation : string :=
  "service.beta.kubernetes.io/onmetal-load-balancer-internal".
Definition AnnotationKeyClusterName : string := "cluster-name".
Definition AnnotationKeyServiceName : string := "service-name".
Definition AnnotationKeyServiceNamespace : string := "service-namespace".
Definition AnnotationKeyServiceUID : string := "service-uid".
Definition LabeKeylClusterName : string := "kubernetes.io/cluster".

(* --------------------------------------------------------------------- *)
(* The objects of the API, with the fields the provider reads or writes   *)
(* --------------------------------------------------------------------- *)

(* client.ObjectKey *)
Record ObjectKey := mkKey { keyNamespace : string; keyName : string }.

(* what %s prints for an ObjectKey: namespace/name *)
Definition keyString (k : ObjectKey) : string :=
  keyNamespace k ++ "/" ++ keyName k.

(* networkingv1alpha1.LoadBalancerType is a string type *)
Definition LoadBalancerType := string.
Definition LoadBalancerTypePublic : LoadBalancerType := "Public".
Definition LoadBalancerTypeInternal : LoadBalancerType := "Internal".

(* commonv1alpha1.LocalUIDReference *)
Record LocalUIDReference := mkRef { refName : string; refUID : string }.

(* v1.ServicePort and networkingv1alpha1.LoadBalancerPort: protocol, port *)
Record ServicePort := { spName : string; spProtocol : string; spPort : Z }.
Record LoadBalancerPort := { lbpProtocol : string; lbpPort : Z }.

(* networkingv1alpha1.IPSource: a fixed value or an ephemeral prefix
   carved from a parent prefix *)
Inductive IPSource :=
| IPValue (ip : string)
| IPEphemeral (ipFamily : string) (parentRef : string).

(* v1.LoadBalancerIngress, v1.LoadBalancerStatus *)
Record LoadBalancerIngress := { ingIP : string; ingHostname : string }.
Record LoadBalancerStatus := { Ingress : list LoadBalancerIngress }.

Record Service := {
  svcName : string;
  svcNamespace : string;
  svcUID : string;
  svcAnnotations : gmap string string;
  svcPorts : list ServicePort;
  svcIPFamilies : list string;
  svcStatusLoadBalancer : LoadBalancerStatus
}.

Record Node := { nodeName : string; nodeProviderID : string }.

Record LoadBalancerSpec := {
  lbType : LoadBalancerType;
  lbIPFamilies : list string;
  lbNetworkRef : string;
  lbPorts : list LoadBalancerPort;
  lbIPs : list IPSource
}.

(* commonv1alpha1.IP is kept by its textual form, what ip.String() prints *)
Record LoadBalancer := {
  lbName : string;
  lbNamespace : string;
  lbUID : string;
  lbAnnotations : gmap string string;
  lbFinalizers : list string;
  lbDeleting : bool;               (* a deletion timestamp is set *)
  lbSpec : LoadBalancerSpec;
  lbStatusIPs : list string
}.

Record OwnerReference := {
  orAPIVersion : string; orKind : string; orName : string; orUID : string
}.

Record LoadBalancerRouting := {
  lbrName : string;
  lbrNamespace : string;
  lbrLabels : gmap string string;
  lbrOwnerReferences : list OwnerReference;
  lbrNetworkRef : LocalUIDReference;
  lbrDestinations : list LocalUIDReference
}.

(* computev1alpha1.NetworkInterface inside a Machine spec: an attachment
   with a name and, optionally, an explicit reference *)
Record MachineNIC := { mnName : string; mnNetworkInterfaceRef : option string }.

Record Machine := {
  mName : string; mNamespace : string; mNetworkInterfaces : list MachineNIC
}.

Record NetworkInterface := {
  nicName : string; nicNamespace : string; nicUID : string;
  nicNetworkRef : string
}.

Record Network := { netName : string; netNamespace : string; netUID : string }.

Record CloudConfig := { NetworkName : string; PrefixName : string }.

(* --------------------------------------------------------------------- *)
(* IdentityNamer                                                          *)
(* --------------------------------------------------------------------- *)

(* func getLoadBalancerNameForService(clusterName string, service *v1.Service) string *)
Definition getLoadBalancerNameForService (clusterName : string) (service : Service) : string :=
  let nameSuffix := GoStrings.first (GoStrings.Split (svcUID service) dash) in
  clusterName ++ "-" ++ svcName service ++ "-" ++ nameSuffix.


(* --------------------------------------------------------------------- *)
(* Errors                                                                 *)
(* --------------------------------------------------------------------- *)

(* Go's error values, with the structure the provider inspects: the
   API server's NotFound status, the two context errors, the timeout of
   package wait, any other error, and fmt.Errorf("...: %w", cause). *)
Inductive Error :=
| ErrNotFound (what : string)
| ErrContextCanceled
| ErrDeadlineExceeded
| ErrWaitTimeout
| ErrPlain (msg : string)
| Errorf (msg : string) (cause : Error).

(* apierrors.IsNotFound: looks through wrapping *)
Fixpoint IsNotFound (e : Error) : bool :=
  match e with
  | ErrNotFound _ => true
  | Errorf _ cause => IsNotFound cause
  | _ => false
  end.

(* wait.Interrupted: errors.Is against the wait timeout, context.Canceled
   and context.DeadlineExceeded *)
Fixpoint Interrupted (e : Error) : bool :=
  match e with
  | ErrContextCanceled | ErrDeadlineExceeded | ErrWaitTimeout => true
  | Errorf _ cause => Interrupted cause
  | _ => false
  end.

(* client.IgnoreNotFound *)
Definition IgnoreNotFound (e : option Error) : option Error :=
  match e with
  | Some err => if IsNotFound err then None else Some err
  | None => None
  end.

(* a value or an error, for calls that fill in an object *)
Inductive result (T : Type) :=
| Ok (v : T)
| Err (e : Error).
Arguments Ok {T} v.
Arguments Err {T} e.

Definition errOf {T} (r : result T) : option Error :=
  match r with Ok _ => None | Err e => Some e end.

(* ctx.Err() once the context is done *)
Inductive CtxErr := Canceled | DeadlineExceeded.
Definition ctxError (c : CtxErr) : Error :=
  match c with Canceled => ErrContextCanceled | DeadlineExceeded => ErrDeadlineExceeded end.

(* --------------------------------------------------------------------- *)
(* The journal and the client interface                                   *)
(* --------------------------------------------------------------------- *)

(* One entry per call the provider makes on its surroundings, with the
   answer it got. *)
Inductive Call :=
| CGetLoadBalancer (k : ObjectKey) (r : result LoadBalancer)
| CGetLoadBalancerRouting (k : ObjectKey) (r : result LoadBalancerRouting)
| CGetMachine (k : ObjectKey) (r : result Machine)
| CGetNetworkInterface (k : ObjectKey) (r : result NetworkInterface)
| CGetNetwork (k : ObjectKey) (r : result Network)
| CApplyLoadBalancer (lb : LoadBalancer) (r : result LoadBalancer)
| CApplyLoadBalancerRouting (lbr : LoadBalancerRouting) (r : result LoadBalancerRouting)
| CMergePatchLoadBalancerRouting (lbr base : LoadBalancerRouting) (r : result LoadBalancerRouting)
| CUpdateLoadBalancerRouting (lbr : LoadBalancerRouting) (r : result LoadBalancerRouting)
| CDeleteLoadBalancer (k : ObjectKey) (r : option Error)
| CContextDone (r : option CtxErr)
| CSleep (d : Z) (r : option CtxErr)
| CTimeNow (rfc3339 : string).

Definition Journal := list Call.

(* client.Client, the context and the clock, over a state [W] of the
   world outside the provider.  Get fills in an object or fails; Patch
   with client.Apply and Update answer with the object as stored; Delete
   answers with an error or nothing.  [ctxDone] is the non-blocking
   receive on ctx.Done(), [sleep d] the select between ctx.Done() and
   time.After(d), [timeNow] is time.Now().Format(time.RFC3339). *)
Record Client (W : Type) := {
  clGetLoadBalancer : ObjectKey -> W -> result LoadBalancer * W;
  clGetLoadBalancerRouting : ObjectKey -> W -> result LoadBalancerRouting * W;
  clGetMachine : ObjectKey -> W -> result Machine * W;
  clGetNetworkInterface : ObjectKey -> W -> result NetworkInterface * W;
  clGetNetwork : ObjectKey -> W -> result Network * W;
  clApplyLoadBalancer : LoadBalancer -> W -> result LoadBalancer * W;
  clApplyLoadBalancerRouting : LoadBalancerRouting -> W -> result LoadBalancerRouting * W;
  clMergePatchLoadBalancerRouting :
    LoadBalancerRouting -> LoadBalancerRouting -> W -> result LoadBalancerRouting * W;
  clUpdateLoadBalancerRouting : LoadBalancerRouting -> W -> result LoadBalancerRouting * W;
  clDeleteLoadBalancer : ObjectKey -> W -> option Error * W;
  clContextDone : W -> option CtxErr * W;
  clSleep : Z -> W -> option CtxErr * W;
  clTimeNow : W -> string * W
}.
Arguments clGetLoadBalancer {W}.
Arguments clGetLoadBalancerRouting {W}.
Arguments clGetMachine {W}.
Arguments clGetNetworkInterface {W}.
Arguments clGetNetwork {W}.
Arguments clApplyLoadBalancer {W}.
Arguments clApplyLoadBalancerRouting {W}.
Arguments clMergePatchLoadBalancerRouting {W}.
Arguments clUpdateLoadBalancerRouting {W}.
Arguments clDeleteLoadBalancer {W}.
Arguments clContextDone {W}.
Arguments clSleep {W}.
Arguments clTimeNow {W}.

(* A computation: from the state of the world to a value, the new state
   and the calls made on the way. *)
Definition M (W A : Type) : Type := W -> A * W * Journal.

Definition ret {W A} (a : A) : M W A := fun s => (a, s, []).

Definition bind {W A B} (m : M W A) (f : A -> M W B) : M W B :=
  fun s =>
    let '(a, s1, j1) := m s in
    let '(b, s2, j2) := f a s1 in
    (b, s2, (j1 ++ j2)%list).

Notation "x <- m ;; k" := (bind m (fun x => k))
  (at level 100, m at next level, right associativity).

(* a call on the client, entered in the journal *)
Definition call {W A} (op : W -> A * W) (entry : A -> Call) : M W A :=
  fun s => let '(a, s1) := op s in (a, s1, [entry a]).

(* --------------------------------------------------------------------- *)
(* Library functions the provider calls                                   *)
(* --------------------------------------------------------------------- *)

(** Modelled from the spec: servicehelper.LoadBalancerStatusEqual belongs
    to k8s.io/cloud-provider and is not under src/.  The spec only says
    that the computed ingress "equals" the reported status; here the two
    ingress slices are equal when they have the same length and agree,
    position by position, on IP and Hostname. *)
Definition ingressEqual (l r : LoadBalancerIngress) : bool :=
  String.eqb (ingIP l) (ingIP r) && String.eqb (ingHostname l) (ingHostname r).

Fixpoint ingressSliceEqual (lhs rhs : list LoadBalancerIngress) : bool :=
  match lhs, rhs with
  | [], [] => true
  | l :: lhs', r :: rhs' => ingressEqual l r && ingressSliceEqual lhs' rhs'
  | _, _ => false
  end.

Definition LoadBalancerStatusEqual (l r : LoadBalancerStatus) : bool :=
  ingressSliceEqual (Ingress l) (Ingress r).

(** Modelled from the spec: sort.Slice is Go's standard library and not
    under src/; the call is
    sort.Slice(networkInterfaces, func(i, j) bool { return a[i].UID < a[j].UID }),
    "sort the accumulated set ascending by endpoint identifier".  Go
    compares strings byte by byte.  The library's sort is not stable; the
    model is an insertion sort, and the theorems below use of it only
    that the result is ordered and a permutation of the input. *)
Definition uidLess (a b : LocalUIDReference) : bool :=
  String.ltb (refUID a) (refUID b).

Fixpoint insertByUID (x : LocalUIDReference) (l : list LocalUIDReference) : list LocalUIDReference :=
  match l with
  | [] => [x]
  | y :: l' => if uidLess x y then x :: y :: l' else y :: insertByUID x l'
  end.

Definition sortSliceByUID (l : list LocalUIDReference) : list LocalUIDReference :=
  foldr insertByUID [] l.

(** Modelled from the spec: controllerutil.SetOwnerReference belongs to
    controller-runtime and is not under src/; the spec has the routing
    object carry ownerReferences [{kind=LoadBalancer, name, id}] and
    states no refusal.  The error the caller handles is the library's
    check of the owner, [validateOwner]: an owner that has a namespace is
    refused for an object without a namespace or in another namespace; an
    owner without a namespace is accepted for every object.  An accepted
    owner replaces the reference to the same owner (same API group, kind
    and name) or is appended as a new one. *)
Definition networkingAPIVersion : string := "networking.api.onmetal.de/v1alpha1".

Definition sameOwner (a b : OwnerReference) : bool :=
  String.eqb (orAPIVersion a) (orAPIVersion b) && String.eqb (orKind a) (orKind b)
  && String.eqb (orName a) (orName b).

Fixpoint upsertOwnerRef (ref : OwnerReference) (refs : list OwnerReference) : list OwnerReference :=
  match refs with
  | [] => [ref]
  | r :: refs' => if sameOwner r ref then ref :: refs' else r :: upsertOwnerRef ref refs'
  end.

Definition validateOwner (owner : LoadBalancer) (object : LoadBalancerRouting) : option Error :=
  if String.eqb (lbNamespace owner) "" then None
  else if String.eqb (lbrNamespace object) "" then
    Some (ErrPlain ("cluster-scoped resource must not have a namespace-scoped owner, "
                    ++ "owner's namespace " ++ lbNamespace owner))
  else if negb (String.eqb (lbNamespace owner) (lbrNamespace object)) then
    Some (ErrPlain ("cross-namespace owner references are disallowed, owner's namespace "
                    ++ lbNamespace owner ++ ", obj's namespace " ++ lbrNamespace object))
  else None.

Definition SetOwnerReference (owner : LoadBalancer) (object : LoadBalancerRouting)
  : result LoadBalancerRouting :=
  match validateOwner owner object with
  | Some err => Err err
  | None =>
      let ref := {| orAPIVersion := networkingAPIVersion; orKind := "LoadBalancer";
                    orName := lbName owner; orUID := lbUID owner |} in
      Ok {| lbrName := lbrName object; lbrNamespace := lbrNamespace object;
            lbrLabels := lbrLabels object;
            lbrOwnerReferences := upsertOwnerRef ref (lbrOwnerReferences object);
            lbrNetworkRef := lbrNetworkRef object;
            lbrDestinations := lbrDestinations object |}
  end.

(** Modelled from the spec: wait.Backoff belongs to k8s.io/apimachinery
    and is not under src/; the spec's backoff has an initial delay, a
    multiplicative factor and a maximum number of attempts.  The fields
    the provider sets: Duration in nanoseconds, Factor as a fraction (1.2
    is 6/5), Steps.  Jitter and Cap are left at zero by the provider. *)
Record Backoff := {
  Duration : Z;
  FactorNum : Z;
  FactorDen : Z;
  Steps : nat
}.

(* Backoff.Step: the delay to wait now, and the backoff for the next
   round, with one step fewer and the duration multiplied by the factor
   (the conversion back to an integer duration truncates). *)
Definition Step (b : Backoff) : Z * Backoff :=
  match Steps b with
  | O => (Duration b, b)
  | S n =>
      (Duration b,
       {| Duration := if (FactorNum b =? 0)%Z then Duration b
                      else (Duration b * FactorNum b / FactorDen b)%Z;
          FactorNum := FactorNum b; FactorDen := FactorDen b; Steps := n |})
  end.

Definition second : Z := 1000000000.
Definition waitLoadbalancerInitDelay : Z := 1 * second.
Definition waitLoadbalancerFactorNum : Z := 6.
Definition waitLoadbalancerFactorDen : Z := 5.
Definition waitLoadbalancerActiveSteps : nat := 19.

(* --------------------------------------------------------------------- *)
(* The provider                                                           *)
(* --------------------------------------------------------------------- *)

(* type onmetalLoadBalancer struct: the namespace of the onmetal cluster
   and the cloud configuration; the onmetal client is the section's. *)
Record onmetalLoadBalancer := {
  onmetalNamespace : string;
  cloudConfig : CloudConfig
}.

(* func extractMachineNameFromProviderID(providerID string) string *)
Definition extractMachineNameFromProviderID (providerID : string) : string :=
  match GoStrings.LastIndex providerID slash with
  | None => ""
  | Some lastSlash =>
      if (String.length providerID <=? lastSlash + 1)%nat then ""
      else GoStrings.from (lastSlash + 1)%nat providerID
  end.

Definition serviceKey (service : Service) : ObjectKey :=
  mkKey (svcNamespace service) (svcName service).
Definition loadBalancerKey (lb : LoadBalancer) : ObjectKey :=
  mkKey (lbNamespace lb) (lbName lb).
Definition routingKey (lbr : LoadBalancerRouting) : ObjectKey :=
  mkKey (lbrNamespace lbr) (lbrName lbr).
Definition machineKey (m : Machine) : ObjectKey :=
  mkKey (mNamespace m) (mName m).
Definition nicKey (n : NetworkInterface) : ObjectKey :=
  mkKey (nicNamespace n) (nicName n).

(* the zero values Go allocates before a Get *)
Definition emptySpec : LoadBalancerSpec :=
  {| lbType := ""; lbIPFamilies := []; lbNetworkRef := ""; lbPorts := []; lbIPs := [] |}.
Definition emptyLoadBalancer : LoadBalancer :=
  {| lbName := ""; lbNamespace := ""; lbUID := ""; lbAnnotations := ∅;
     lbFinalizers := []; lbDeleting := false; lbSpec := emptySpec; lbStatusIPs := [] |}.
Definition emptyMachine : Machine :=
  {| mName := ""; mNamespace := ""; mNetworkInterfaces := [] |}.
Definition emptyNetworkInterface : NetworkInterface :=
  {| nicName := ""; nicNamespace := ""; nicUID := ""; nicNetworkRef := "" |}.

Definition withName (lb : LoadBalancer) (ns name : string) : LoadBalancer :=
  {| lbName := name; lbNamespace := ns; lbUID := lbUID lb;
     lbAnnotations := lbAnnotations lb; lbFinalizers := lbFinalizers lb;
     lbDeleting := lbDeleting lb; lbSpec := lbSpec lb; lbStatusIPs := lbStatusIPs lb |}.

Section Provider.

Context {W : Type} (onmetalClient : Client W).

(* the client's operations as journalled computations *)
Definition getLoadBalancer (k : ObjectKey) : M W (result LoadBalancer) :=
  call (clGetLoadBalancer onmetalClient k) (CGetLoadBalancer k).
Definition getLoadBalancerRouting (k : ObjectKey) : M W (result LoadBalancerRouting) :=
  call (clGetLoadBalancerRouting onmetalClient k) (CGetLoadBalancerRouting k).
Definition getMachine (k : ObjectKey) : M W (result Machine) :=
  call (clGetMachine onmetalClient k) (CGetMachine k).
Definition getNetworkInterface (k : ObjectKey) : M W (result NetworkInterface) :=
  call (clGetNetworkInterface onmetalClient k) (CGetNetworkInterface k).
Definition getNetwork (k : ObjectKey) : M W (result Network) :=
  call (clGetNetwork onmetalClient k) (CGetNetwork k).
Definition applyLoadBalancer (lb : LoadBalancer) : M W (result LoadBalancer) :=
  call (clApplyLoadBalancer onmetalClient lb) (CApplyLoadBalancer lb).
Definition applyLoadBalancerRouting (lbr : LoadBalancerRouting) : M W (result LoadBalancerRouting) :=
  call (clApplyLoadBalancerRouting onmetalClient lbr) (CApplyLoadBalancerRouting lbr).
Definition mergePatchLoadBalancerRouting (lbr base : LoadBalancerRouting)
  : M W (result LoadBalancerRouting) :=
  call (clMergePatchLoadBalancerRouting onmetalClient lbr base)
       (CMergePatchLoadBalancerRouting lbr base).
Definition updateLoadBalancerRouting (lbr : LoadBalancerRouting) : M W (result LoadBalancerRouting) :=
  call (clUpdateLoadBalancerRouting onmetalClient lbr) (CUpdateLoadBalancerRouting lbr).
Definition deleteLoadBalancer (k : ObjectKey) : M W (option Error) :=
  call (clDeleteLoadBalancer onmetalClient k) (CDeleteLoadBalancer k).
Definition contextDone : M W (option CtxErr) :=
  call (clContextDone onmetalClient) CContextDone.
Definition sleep (d : Z) : M W (option CtxErr) :=
  call (clSleep onmetalClient d) (CSleep d).
Definition timeNow : M W string :=
  call (clTimeNow onmetalClient) CTimeNow.

(** Modelled from the spec: wait.ExponentialBackoffWithContext(ctx,
    backoff, condition) belongs to k8s.io/apimachinery and is not under
    src/.  The spec: bounded exponential backoff, each attempt runs the
    condition, an error of the condition aborts the wait, exhausting the
    budget yields a timeout, and the wait aborts promptly when the context
    is cancelled.  While steps remain: give up if the context is done, run
    the condition and stop on its error or success, stop after the last
    step, otherwise wait for the next delay (or the context) and go round
    again; out of steps, the wait timeout.  The condition's captured
    variables are the local state [L] threaded through. *)
Fixpoint backoffLoop {L : Type} (steps : nat) (duration : Z) (num den : Z)
    (condition : L -> M W (L * bool * option Error)) (l : L) : M W (L * option Error) :=
  match steps with
  | O => ret (l, Some ErrWaitTimeout)
  | S remaining =>
      done <- contextDone ;;
      match done with
      | Some c => ret (l, Some (ctxError c))
      | None =>
          r <- condition l ;;
          let '(l1, ok, err) := r in
          match err with
          | Some e => ret (l1, Some e)
          | None =>
              if ok then ret (l1, None)
              else
                match remaining with
                | O => ret (l1, Some ErrWaitTimeout)
                | S _ =>
                    let '(waitBeforeRetry, next) :=
                      Step {| Duration := duration; FactorNum := num;
                              FactorDen := den; Steps := steps |} in
                    woken <- sleep waitBeforeRetry ;;
                    match woken with
                    | Some c => ret (l1, Some (ctxError c))
                    | None => backoffLoop remaining (Duration next) num den condition l1
                    end
                end
          end
      end
  end.

Definition ExponentialBackoffWithContext {L : Type} (backoff : Backoff)
    (condition : L -> M W (L * bool * option Error)) (l : L) : M W (L * option Error) :=
  backoffLoop (Steps backoff) (Duration backoff) (FactorNum backoff) (FactorDen backoff)
              condition l.

Definition waitBackoff : Backoff :=
  {| Duration := waitLoadbalancerInitDelay;
     FactorNum := waitLoadbalancerFactorNum;
     FactorDen := waitLoadbalancerFactorDen;
     Steps := waitLoadbalancerActiveSteps |}.

Variable o : onmetalLoadBalancer.

(* func (o *onmetalLoadBalancer) GetLoadBalancerName(ctx, clusterName, service) string *)
Definition GetLoadBalancerName (clusterName : string) (service : Service) : string :=
  getLoadBalancerNameForService clusterName service.

(* the ingress entries for the allocated addresses, one per address *)
Definition ingressOf (ips : list string) : list LoadBalancerIngress :=
  map (fun ip => {| ingIP := ip; ingHostname := "" |}) ips.

(* func (o *onmetalLoadBalancer) GetLoadBalancer(ctx, clusterName, service)
     (status *v1.LoadBalancerStatus, exists bool, err error) *)
Definition GetLoadBalancer (clusterName : string) (service : Service)
  : M W (option LoadBalancerStatus * bool * option Error) :=
  let loadBalancerName := GetLoadBalancerName clusterName service in
  r <- getLoadBalancer (mkKey (onmetalNamespace o) loadBalancerName) ;;
  match r with
  | Err err =>
      ret (None, false,
           Some (Errorf ("failed to get LoadBalancer " ++ loadBalancerName
                         ++ " for Service " ++ keyString (serviceKey service)) err))
  | Ok loadBalancer =>
      ret (Some {| Ingress := ingressOf (lbStatusIPs loadBalancer) |}, true, None)
  end.

(* the inner loop of getNetworkInterfacesForNodes, over the interfaces
   a machine declares; [networkInterfaces] is the slice built so far *)
Fixpoint machineNetworkInterfaces (machine : Machine) (machineNICs : list MachineNIC)
    (networkName : string) (networkInterfaces : list LocalUIDReference)
  : M W (result (list LocalUIDReference)) :=
  match machineNICs with
  | [] => ret (Ok networkInterfaces)
  | machineNIC :: rest =>
      let networkInterfaceName :=
        match mnNetworkInterfaceRef machineNIC with
        | Some name => name
        | None => mName machine ++ "-" ++ mnName machineNIC
        end in
      r <- getNetworkInterface (mkKey (onmetalNamespace o) networkInterfaceName) ;;
      match r with
      | Err err =>
          ret (Err (Errorf ("failed to get network interface "
                            ++ keyString (nicKey emptyNetworkInterface)
                            ++ " for machine " ++ keyString (machineKey machine)) err))
      | Ok networkInterface =>
          machineNetworkInterfaces machine rest networkName
            (if String.eqb (nicNetworkRef networkInterface) networkName
             then networkInterfaces
                  ++ [ {| refName := nicName networkInterface;
                          refUID := nicUID networkInterface |} ]
             else networkInterfaces)
      end
  end.

(* the outer loop, over the nodes *)
Fixpoint nodesNetworkInterfaces (nodes : list Node) (networkName : string)
    (networkInterfaces : list LocalUIDReference) : M W (result (list LocalUIDReference)) :=
  match nodes with
  | [] => ret (Ok networkInterfaces)
  | node :: rest =>
      let machineName := extractMachineNameFromProviderID (nodeProviderID node) in
      r <- getMachine (mkKey (onmetalNamespace o) machineName) ;;
      match IgnoreNotFound (errOf r) with
      | Some err =>
          ret (Err (Errorf ("failed to get machine object for node " ++ nodeName node) err))
      | None =>
          let machine := match r with Ok m => m | Err _ => emptyMachine end in
          inner <- machineNetworkInterfaces machine (mNetworkInterfaces machine)
                     networkName networkInterfaces ;;
          match inner with
          | Err err => ret (Err err)
          | Ok networkInterfaces' => nodesNetworkInterfaces rest networkName networkInterfaces'
          end
      end
  end.

(* func (o *onmetalLoadBalancer) getNetworkInterfacesForNodes(ctx, nodes, networkName)
     ([]commonv1alpha1.LocalUIDReference, error) *)
Definition getNetworkInterfacesForNodes (nodes : list Node) (networkName : string)
  : M W (result (list LocalUIDReference)) :=
  nodesNetworkInterfaces nodes networkName [].

(* func (o *onmetalLoadBalancer) applyLoadBalancerRoutingForLoadBalancer(ctx, loadBalancer, nodes) error *)
Definition applyLoadBalancerRoutingForLoadBalancer (loadBalancer : LoadBalancer)
    (nodes : list Node) : M W (option Error) :=
  r <- getNetworkInterfacesForNodes nodes (lbNetworkRef (lbSpec loadBalancer)) ;;
  match r with
  | Err err => ret (Some (Errorf "failed to get NetworkInterfaces for Nodes" err))
  | Ok networkInterfaces =>
      let networkInterfaces := sortSliceByUID networkInterfaces in
      let networkKey := mkKey (onmetalNamespace o) (lbNetworkRef (lbSpec loadBalancer)) in
      rn <- getNetwork networkKey ;;
      match rn with
      | Err err =>
          ret (Some (Errorf ("failed to get Network " ++ NetworkName (cloudConfig o)) err))
      | Ok network =>
          let loadBalancerRouting :=
            {| lbrName := lbName loadBalancer;
               lbrNamespace := onmetalNamespace o;
               lbrLabels := ∅;
               lbrOwnerReferences := [];
               lbrNetworkRef := {| refName := netName network; refUID := netUID network |};
               lbrDestinations := networkInterfaces |} in
          match SetOwnerReference loadBalancer loadBalancerRouting with
          | Err err =>
              ret (Some (Errorf ("failed to set owner reference for load balancer routing "
                                 ++ keyString (routingKey loadBalancerRouting)) err))
          | Ok loadBalancerRouting =>
              ra <- applyLoadBalancerRouting loadBalancerRouting ;;
              match ra with
              | Err err =>
                  ret (Some (Errorf ("failed to apply LoadBalancerRouting "
                                     ++ keyString (routingKey loadBalancerRouting)
                                     ++ " for LoadBalancer "
                                     ++ keyString (loadBalancerKey loadBalancer)) err))
              | Ok _ => ret None
              end
          end
      end
  end.

(* the condition polled by waitLoadBalancerActive; the captured
   variables are the load balancer (overwritten by each Get) and the
   status being built *)
Definition activeCondition (existingLoadBalancerType : LoadBalancerType) (service : Service)
    (captured : LoadBalancer * LoadBalancerStatus)
  : M W (LoadBalancer * LoadBalancerStatus * bool * option Error) :=
  let '(loadBalancer, loadBalancerStatus) := captured in
  r <- getLoadBalancer (loadBalancerKey loadBalancer) ;;
  match r with
  | Err err => ret (loadBalancer, loadBalancerStatus, false, Some err)
  | Ok loadBalancer =>
      if (length (lbStatusIPs loadBalancer) =? 0)%nat then
        ret (loadBalancer, loadBalancerStatus, false, None)
      else
        let lbIngress := ingressOf (lbStatusIPs loadBalancer) in
        let loadBalancerStatus := {| Ingress := lbIngress |} in
        if negb (String.eqb (lbType (lbSpec loadBalancer)) existingLoadBalancerType)
           && LoadBalancerStatusEqual (svcStatusLoadBalancer service) loadBalancerStatus
        then ret (loadBalancer, loadBalancerStatus, false, None)
        else ret (loadBalancer, loadBalancerStatus, true, None)
  end.

(* func waitLoadBalancerActive(ctx, onmetalClient, existingLoadBalancerType, service, loadBalancer)
     (v1.LoadBalancerStatus, error) *)
Definition waitLoadBalancerActive (existingLoadBalancerType : LoadBalancerType)
    (service : Service) (loadBalancer : LoadBalancer)
  : M W (LoadBalancerStatus * option Error) :=
  w <- ExponentialBackoffWithContext waitBackoff
         (activeCondition existingLoadBalancerType service)
         (loadBalancer, {| Ingress := [] |}) ;;
  let '(loadBalancer, loadBalancerStatus, err) := w in
  if match err with Some e => Interrupted e | None => false end then
    ret (loadBalancerStatus,
         Some (ErrPlain ("timeout waiting for the LoadBalancer "
                         ++ keyString (loadBalancerKey loadBalancer) ++ " to become ready")))
  else
    (* workaround for refresh issues on the machinepoollet *)
    r <- getLoadBalancerRouting (loadBalancerKey loadBalancer) ;;
    match r with
    | Err err => ret (loadBalancerStatus, Some err)
    | Ok lbr =>
        now <- timeNow ;;
        let formattedTime := GoStrings.ReplaceAll now ":"%char "-"%char in
        let formattedTime := GoStrings.TrimSuffix formattedTime "Z"%char in
        let lbr :=
          {| lbrName := lbrName lbr; lbrNamespace := lbrNamespace lbr;
             lbrLabels := <["updated" := formattedTime]> (lbrLabels lbr);
             lbrOwnerReferences := lbrOwnerReferences lbr;
             lbrNetworkRef := lbrNetworkRef lbr;
             lbrDestinations := lbrDestinations lbr |} in
        u <- updateLoadBalancerRouting lbr ;;
        match u with
        | Err err => ret (loadBalancerStatus, Some err)
        | Ok _ => ret (loadBalancerStatus, None)
        end
    end.

(* the condition polled by waitForDeletingLoadBalancer *)
Definition deletedCondition (loadBalancer : LoadBalancer)
  : M W (LoadBalancer * bool * option Error) :=
  r <- getLoadBalancer (loadBalancerKey loadBalancer) ;;
  match r with
  | Ok loadBalancer => ret (loadBalancer, false, None)
  | Err err =>
      if negb (IsNotFound err) then ret (loadBalancer, false, Some err)
      else ret (loadBalancer, true, None)
  end.

(* func waitForDeletingLoadBalancer(ctx, service, onmetalClient, loadBalancer) error *)
Definition waitForDeletingLoadBalancer (service : Service) (loadBalancer : LoadBalancer)
  : M W (option Error) :=
  w <- ExponentialBackoffWithContext waitBackoff deletedCondition loadBalancer ;;
  let '(loadBalancer, err) := w in
  if match err with Some e => Interrupted e | None => false end then
    ret (Some (ErrPlain ("timeout waiting for the LoadBalancer "
                         ++ keyString (loadBalancerKey loadBalancer) ++ " to be deleted")))
  else ret None.

(* func (o *onmetalLoadBalancer) EnsureLoadBalancerDeleted(ctx, clusterName, service) error *)
Definition EnsureLoadBalancerDeleted (clusterName : string) (service : Service)
  : M W (option Error) :=
  let loadBalancerName := GetLoadBalancerName clusterName service in
  let loadBalancer := withName emptyLoadBalancer (onmetalNamespace o) loadBalancerName in
  d <- deleteLoadBalancer (loadBalancerKey loadBalancer) ;;
  match d with
  | Some err =>
      if IsNotFound err then ret None
      else ret (Some (Errorf ("failed to delete loadbalancer "
                              ++ keyString (loadBalancerKey loadBalancer)) err))
  | None =>
      e <- waitForDeletingLoadBalancer service loadBalancer ;;
      match e with
      | Some err => ret (Some err)
      | None => ret None
      end
  end.

(* func (o *onmetalLoadBalancer) UpdateLoadBalancer(ctx, clusterName, service, nodes) error *)
Definition UpdateLoadBalancer (clusterName : string) (service : Service) (nodes : list Node)
  : M W (option Error) :=
  if (length nodes =? 0)%nat then
    ret (Some (ErrPlain ("no Nodes available for LoadBalancer Service "
                         ++ keyString (serviceKey service))))
  else
    let loadBalancerName := GetLoadBalancerName clusterName service in
    let loadBalancerKey' := mkKey (onmetalNamespace o) loadBalancerName in
    r <- getLoadBalancer loadBalancerKey' ;;
    match r with
    | Err err =>
        ret (Some (Errorf ("failed to get LoadBalancer "
                           ++ keyString (loadBalancerKey emptyLoadBalancer)) err))
    | Ok loadBalancer =>
        let loadBalancerRoutingKey := mkKey (onmetalNamespace o) loadBalancerName in
        rr <- getLoadBalancerRouting loadBalancerRoutingKey ;;
        match rr with
        | Err err =>
            ret (Some (Errorf ("failed to get LoadBalancerRouting "
                               ++ keyString (loadBalancerKey loadBalancer)
                               ++ " for LoadBalancer " ++ keyString (mkKey "" "")) err))
        | Ok loadBalancerRouting =>
            rn <- getNetworkInterfacesForNodes nodes (lbNetworkRef (lbSpec loadBalancer)) ;;
            match rn with
            | Err err =>
                ret (Some (Errorf ("failed to get NetworkInterfaces for LoadBalancer "
                                   ++ keyString (loadBalancerKey loadBalancer)) err))
            | Ok networkInterfaces =>
                let loadBalancerRoutingBase := loadBalancerRouting in
                let loadBalancerRouting :=
                  {| lbrName := lbrName loadBalancerRouting;
                     lbrNamespace := lbrNamespace loadBalancerRouting;
                     lbrLabels := lbrLabels loadBalancerRouting;
                     lbrOwnerReferences := lbrOwnerReferences loadBalancerRouting;
                     lbrNetworkRef := lbrNetworkRef loadBalancerRouting;
                     lbrDestinations := networkInterfaces |} in
                rp <- mergePatchLoadBalancerRouting loadBalancerRouting loadBalancerRoutingBase ;;
                match rp with
                | Err err =>
                    ret (Some (Errorf ("failed to patch LoadBalancerRouting "
                                       ++ keyString (routingKey loadBalancerRouting)
                                       ++ " for LoadBalancer "
                                       ++ keyString (loadBalancerKey loadBalancer)) err))
                | Ok _ => ret None
                end
            end
        end
    end.

(* the load balancer type the service asks for *)
Definition desiredTypeOf (service : Service) : LoadBalancerType :=
  if bool_decide (svcAnnotations service !! InternalLoadBalancerAnnotation = Some "true")
  then LoadBalancerTypeInternal
  else LoadBalancerTypePublic.

(* the object EnsureLoadBalancer builds before the Internal case adds
   its IP source *)
Definition desiredLoadBalancer (clusterName : string) (service : Service)
    (desiredLoadBalancerType : LoadBalancerType) (ips : list IPSource) : LoadBalancer :=
  {| lbName := getLoadBalancerNameForService clusterName service;
     lbNamespace := onmetalNamespace o;
     lbUID := "";
     lbAnnotations :=
       <[AnnotationKeyClusterName := clusterName]>
       (<[AnnotationKeyServiceName := svcName service]>
        (<[AnnotationKeyServiceNamespace := svcNamespace service]>
         (<[AnnotationKeyServiceUID := svcUID service]> ∅)));
     lbFinalizers := [];
     lbDeleting := false;
     lbSpec :=
       {| lbType := desiredLoadBalancerType;
          lbIPFamilies := svcIPFamilies service;
          lbNetworkRef := NetworkName (cloudConfig o);
          lbPorts := map (fun svcPort => {| lbpProtocol := spProtocol svcPort;
                                            lbpPort := spPort svcPort |})
                         (svcPorts service);
          lbIPs := ips |};
     lbStatusIPs := [] |}.

(* func (o *onmetalLoadBalancer) EnsureLoadBalancer(ctx, clusterName, service, nodes)
     returning a pointer to v1.LoadBalancerStatus and an error *)
Definition EnsureLoadBalancer (clusterName : string) (service : Service) (nodes : list Node)
  : M W (option LoadBalancerStatus * option Error) :=
  let desiredLoadBalancerType := desiredTypeOf service in
  let loadBalancerName := getLoadBalancerNameForService clusterName service in
  (* get existing load balancer type *)
  existing <- getLoadBalancer (mkKey (onmetalNamespace o) loadBalancerName) ;;
  deleted <-
    match existing with
    | Ok existingLoadBalancer =>
        let existingLoadBalancerType := lbType (lbSpec existingLoadBalancer) in
        if negb (String.eqb existingLoadBalancerType desiredLoadBalancerType) then
          e <- EnsureLoadBalancerDeleted clusterName service ;;
          ret (existingLoadBalancerType, e)
        else ret (existingLoadBalancerType, None)
    | Err _ => ret ("", None)
    end ;;
  let '(existingLoadBalancerType, deletionErr) := deleted in
  match deletionErr with
  | Some err =>
      ret (None, Some (Errorf ("failed deleting existing loadbalancer " ++ loadBalancerName) err))
  | None =>
      (* if load balancer type is Internal then update IPSource with valid prefix template *)
      if String.eqb desiredLoadBalancerType LoadBalancerTypeInternal
         && String.eqb (PrefixName (cloudConfig o)) "" then
        ret (None, Some (ErrPlain "prefixName is not defined in config"))
      else
        let ips :=
          if String.eqb desiredLoadBalancerType LoadBalancerTypeInternal
          then [IPEphemeral "IPv4" (PrefixName (cloudConfig o))]
          else [] in
        let loadBalancer := desiredLoadBalancer clusterName service desiredLoadBalancerType ips in
        applied <- applyLoadBalancer loadBalancer ;;
        match applied with
        | Err err =>
            ret (None, Some (Errorf ("failed to apply LoadBalancer "
                                     ++ keyString (loadBalancerKey loadBalancer)
                                     ++ " for Service " ++ keyString (serviceKey service)) err))
        | Ok loadBalancer =>
            routed <- applyLoadBalancerRoutingForLoadBalancer loadBalancer nodes ;;
            match routed with
            | Some err => ret (None, Some err)
            | None =>
                waited <- waitLoadBalancerActive existingLoadBalancerType service loadBalancer ;;
                let '(lbStatus, err) := waited in
                match err with
                | Some err => ret (None, Some err)
                | None => ret (Some lbStatus, None)
                end
            end
        end
  end.

End Provider.

Arguments getNetworkInterfacesForNodes {W} onmetalClient o nodes networkName.

(* --------------------------------------------------------------------- *)
(* An API server in memory                                                *)
(* --------------------------------------------------------------------- *)

(** Modelled from the spec: the API server behind client.Client is not
    part of the repository; the spec names its capabilities get, forced
    apply, merge patch and delete, with NotFound as a distinguished
    answer.  This is one implementation of the client interface, used to
    run the provider on concrete clusters: the objects by namespace and
    name, a script of what the outside world does after each call of the
    client (a fault to answer that call with, a change to the objects
    made by other actors), a clock and the deadline of the context. *)
Module MemStore.

#[global] Instance LocalUIDReference_eq_dec : EqDecision LocalUIDReference.
Proof. solve_decision. Defined.

Record Store := {
  loadBalancers : gmap (string * string) LoadBalancer;
  routings : gmap (string * string) LoadBalancerRouting;
  machines : gmap (string * string) Machine;
  networkInterfaces : gmap (string * string) NetworkInterface;
  networks : gmap (string * string) Network
}.

Record Tick := {
  fault : option Error;          (* fail the call with this error *)
  interfere : Store -> Store     (* what others do to the store after it *)
}.

Definition quiet : Tick := {| fault := None; interfere := fun st => st |}.
Definition failing (e : Error) : Tick := {| fault := Some e; interfere := fun st => st |}.

Record World := {
  store : Store;
  future : list Tick;
  clock : Z;
  deadline : option Z;
  created : nat;                 (* objects created so far, for fresh UIDs *)
  wallClock : string             (* the current time in RFC 3339 *)
}.

Definition at_ (k : ObjectKey) : string * string := (keyNamespace k, keyName k).

Definition withStore (w : World) (st : Store) (rest : list Tick) (n : nat) : World :=
  {| store := st; future := rest; clock := clock w; deadline := deadline w;
     created := n; wallClock := wallClock w |}.

(* a call of the client: the next tick of the script decides whether it
   fails, and what happens to the store right after it *)
Definition serve {A : Type} (failed : Error -> A) (action : World -> A * Store * nat)
    (w : World) : A * World :=
  match future w with
  | [] => let '(a, st, n) := action w in (a, withStore w st [] n)
  | t :: rest =>
      match fault t with
      | Some e => (failed e, withStore w (interfere t (store w)) rest (created w))
      | None => let '(a, st, n) := action w in (a, withStore w (interfere t st) rest n)
      end
  end.

Definition notFound {T} (kind : string) (k : ObjectKey) : result T :=
  Err (ErrNotFound (kind ++ " " ++ keyName k ++ " not found")).

Definition get {T} (kind : string) (objects : Store -> gmap (string * string) T)
    (k : ObjectKey) : World -> result T * World :=
  serve Err (fun w =>
    (match objects (store w) !! at_ k with
     | Some x => Ok x
     | None => notFound kind k
     end, store w, created w)).

Definition setLoadBalancers (st : Store) (m : gmap (string * string) LoadBalancer) : Store :=
  {| loadBalancers := m; routings := routings st; machines := machines st;
     networkInterfaces := networkInterfaces st; networks := networks st |}.

Definition setRoutings (st : Store) (m : gmap (string * string) LoadBalancerRouting) : Store :=
  {| loadBalancers := loadBalancers st; routings := m; machines := machines st;
     networkInterfaces := networkInterfaces st; networks := networks st |}.

Definition freshUID (n : nat) : string := "uid-" ++ pretty n.

(* Patch with client.Apply and forced ownership: creates the object
   when there is none (the server assigns the UID), otherwise
   overwrites the fields the provider sends (spec and its annotations)
   and keeps everything else of the stored object: UID, finalizers,
   deletion mark, status. *)
Definition applyLB (lb : LoadBalancer) : World -> result LoadBalancer * World :=
  serve Err (fun w =>
    let k := (lbNamespace lb, lbName lb) in
    let stored :=
      match loadBalancers (store w) !! k with
      | None =>
          {| lbName := lbName lb; lbNamespace := lbNamespace lb;
             lbUID := freshUID (created w); lbAnnotations := lbAnnotations lb;
             lbFinalizers := []; lbDeleting := false;
             lbSpec := lbSpec lb; lbStatusIPs := [] |}
      | Some old =>
          {| lbName := lbName old; lbNamespace := lbNamespace old;
             lbUID := lbUID old;
             lbAnnotations := lbAnnotations lb ∪ lbAnnotations old;
             lbFinalizers := lbFinalizers old; lbDeleting := lbDeleting old;
             lbSpec := lbSpec lb; lbStatusIPs := lbStatusIPs old |}
      end in
    (Ok stored,
     setLoadBalancers (store w) (<[k := stored]> (loadBalancers (store w))),
     match loadBalancers (store w) !! k with None => S (created w) | Some _ => created w end)).

Definition applyLBR (lbr : LoadBalancerRouting) : World -> result LoadBalancerRouting * World :=
  serve Err (fun w =>
    let k := (lbrNamespace lbr, lbrName lbr) in
    let stored :=
      match routings (store w) !! k with
      | None => lbr
      | Some old =>
          {| lbrName := lbrName old; lbrNamespace := lbrNamespace old;
             lbrLabels := lbrLabels old;
             lbrOwnerReferences :=
               foldr upsertOwnerRef (lbrOwnerReferences old) (lbrOwnerReferences lbr);
             lbrNetworkRef := lbrNetworkRef lbr;
             lbrDestinations := lbrDestinations lbr |}
      end in
    (Ok stored, setRoutings (store w) (<[k := stored]> (routings (store w))), created w)).

(* Patch with client.MergeFrom(base): the difference between the
   object and its base is sent; the provider only ever changes the
   destinations. *)
Definition mergePatchLBR (lbr base : LoadBalancerRouting)
  : World -> result LoadBalancerRouting * World :=
  serve Err (fun w =>
    let k := (lbrNamespace lbr, lbrName lbr) in
    match routings (store w) !! k with
    | None => (notFound "LoadBalancerRouting" (routingKey lbr), store w, created w)
    | Some old =>
        let stored :=
          if decide (lbrDestinations lbr = lbrDestinations base) then old
          else {| lbrName := lbrName old; lbrNamespace := lbrNamespace old;
                  lbrLabels := lbrLabels old;
                  lbrOwnerReferences := lbrOwnerReferences old;
                  lbrNetworkRef := lbrNetworkRef old;
                  lbrDestinations := lbrDestinations lbr |} in
        (Ok stored, setRoutings (store w) (<[k := stored]> (routings (store w))), created w)
    end).

Definition updateLBR (lbr : LoadBalancerRouting) : World -> result LoadBalancerRouting * World :=
  serve Err (fun w =>
    let k := (lbrNamespace lbr, lbrName lbr) in
    match routings (store w) !! k with
    | None => (notFound "LoadBalancerRouting" (routingKey lbr), store w, created w)
    | Some _ => (Ok lbr, setRoutings (store w) (<[k := lbr]> (routings (store w))), created w)
    end).

(* Delete: an object with finalizers is only marked and stays until
   its finalizers are removed by their controllers. *)
Definition deleteLB (k : ObjectKey) : World -> option Error * World :=
  serve Some (fun w =>
    match loadBalancers (store w) !! at_ k with
    | None => (Some (ErrNotFound ("LoadBalancer " ++ keyName k ++ " not found")),
               store w, created w)
    | Some old =>
        match lbFinalizers old with
        | [] => (None, setLoadBalancers (store w) (delete (at_ k) (loadBalancers (store w))),
                 created w)
        | _ :: _ =>
            (None,
             setLoadBalancers (store w)
               (<[at_ k := {| lbName := lbName old; lbNamespace := lbNamespace old;
                              lbUID := lbUID old; lbAnnotations := lbAnnotations old;
                              lbFinalizers := lbFinalizers old; lbDeleting := true;
                              lbSpec := lbSpec old; lbStatusIPs := lbStatusIPs old |}]>
                  (loadBalancers (store w))),
             created w)
        end
    end).

Definition expired (w : World) (t : Z) : bool :=
  match deadline w with Some d => (d <=? t)%Z | None => false end.

Definition ctxDone (w : World) : option CtxErr * World :=
  (if expired w (clock w) then Some DeadlineExceeded else None, w).

Definition sleepFor (d : Z) (w : World) : option CtxErr * World :=
  if expired w (clock w + d)%Z then
    (Some DeadlineExceeded,
     {| store := store w; future := future w;
        clock := match deadline w with Some t => Z.max t (clock w) | None => clock w end;
        deadline := deadline w; created := created w; wallClock := wallClock w |})
  else
    (None,
     {| store := store w; future := future w; clock := (clock w + d)%Z;
        deadline := deadline w; created := created w; wallClock := wallClock w |}).

Definition client : Client World :=
  {| clGetLoadBalancer := get "LoadBalancer" loadBalancers;
     clGetLoadBalancerRouting := get "LoadBalancerRouting" routings;
     clGetMachine := get "Machine" machines;
     clGetNetworkInterface := get "NetworkInterface" networkInterfaces;
     clGetNetwork := get "Network" networks;
     clApplyLoadBalancer := applyLB;
     clApplyLoadBalancerRouting := applyLBR;
     clMergePatchLoadBalancerRouting := mergePatchLBR;
     clUpdateLoadBalancerRouting := updateLBR;
     clDeleteLoadBalancer := deleteLB;
     clContextDone := ctxDone;
     clSleep := sleepFor;
     clTimeNow := fun w => (wallClock w, w) |}.

End MemStore.

(* the service as far as naming goes *)
Definition namedService (name uid : string) : Service :=
  {| svcName := name; svcNamespace := "default"; svcUID := uid;
     svcAnnotations := ∅; svcPorts := []; svcIPFamilies := [];
     svcStatusLoadBalancer := {| Ingress := [] |} |}.

(* --------------------------------------------------------------------- *)
(* A small cluster to run the provider on                                 *)
(* --------------------------------------------------------------------- *)

Module Cluster.
Import MemStore.

Definition provider : onmetalLoadBalancer :=
  {| onmetalNamespace := "ns";
     cloudConfig := {| NetworkName := "net"; PrefixName := "pfx" |} |}.

Definition service : Service :=
  {| svcName := "web"; svcNamespace := "default";
     svcUID := "2f5a9c1e-77aa-4b1c-9d10-0123456789ab";
     svcAnnotations := ∅;
     svcPorts := [ {| spName := "https"; spProtocol := "TCP"; spPort := 443 |} ];
     svcIPFamilies := [];
     svcStatusLoadBalancer := {| Ingress := [] |} |}.

Definition lbKey : ObjectKey := mkKey "ns" "shoot-web-2f5a9c1e".

Definition machine (name : string) (nics : list MachineNIC) : Machine :=
  {| mName := name; mNamespace := "ns"; mNetworkInterfaces := nics |}.

Definition nic (name uid network : string) : NetworkInterface :=
  {| nicName := name; nicNamespace := "ns"; nicUID := uid; nicNetworkRef := network |}.

Definition attach (name target : string) : MachineNIC :=
  {| mnName := name; mnNetworkInterfaceRef := Some target |}.

Definition node (name : string) : Node :=
  {| nodeName := name; nodeProviderID := "onmetal://ns/" ++ name |}.

(* two machines with one interface each on the load balancer's network,
   the first with a second interface on another network *)
Definition objects : Store :=
  {| loadBalancers := ∅;
     routings := ∅;
     machines :=
       {[ ("ns", "m1") := machine "m1" [attach "primary" "m1-nic"; attach "secondary" "m1-foo"];
          ("ns", "m2") := machine "m2" [attach "primary" "m2-nic"] ]};
     networkInterfaces :=
       {[ ("ns", "m1-nic") := nic "m1-nic" "uid-b" "net";
          ("ns", "m1-foo") := nic "m1-foo" "uid-c" "foo";
          ("ns", "m2-nic") := nic "m2-nic" "uid-a" "net" ]};
     networks := {[ ("ns", "net") := {| netName := "net"; netNamespace := "ns"; netUID := "uid-net" |} ]} |}.

Definition world (st : Store) (script : list Tick) (limit : option Z) : World :=
  {| store := st; future := script; clock := 0; deadline := limit;
     created := 0; wallClock := "2023-06-01T10:00:00Z" |}.

End Cluster.

Module Scenario.
Import MemStore.

(* the load balancer of Cluster.service as the server holds it *)
Definition stored (type : LoadBalancerType) (finalizers : list string) (ips : list string)
  : LoadBalancer :=
  {| lbName := "shoot-web-2f5a9c1e"; lbNamespace := "ns"; lbUID := "uid-lb";
     lbAnnotations := ∅; lbFinalizers := finalizers; lbDeleting := false;
     lbSpec := {| lbType := type; lbIPFamilies := []; lbNetworkRef := "net";
                  lbPorts := [ {| lbpProtocol := "TCP"; lbpPort := 443 |} ];
                  lbIPs := [] |};
     lbStatusIPs := ips |}.

Definition holding (lb : LoadBalancer) : Store :=
  setLoadBalancers Cluster.objects {[ ("ns", "shoot-web-2f5a9c1e") := lb ]}.

(* the service after an address was reported for it *)
Definition reported (ips : list string) : Service :=
  {| svcName := "web"; svcNamespace := "default";
     svcUID := "2f5a9c1e-77aa-4b1c-9d10-0123456789ab";
     svcAnnotations := ∅;
     svcPorts := [ {| spName := "https"; spProtocol := "TCP"; spPort := 443 |} ];
     svcIPFamilies := [];
     svcStatusLoadBalancer :=
       {| Ingress := map (fun ip => {| ingIP := ip; ingHostname := "" |}) ips |} |}.

End Scenario.

(* --------------------------------------------------------------------- *)
(* Reading a journal                                                      *)
(* --------------------------------------------------------------------- *)

(* a call of the resolver that does not stop it: anything but a failed
   fetch of a network interface or a machine lookup that failed with
   something else than not-found *)
Definition passes (c : Call) : Prop :=
  match c with
  | CGetNetworkInterface _ (Err _) => False
  | CGetMachine _ (Err e) => IsNotFound e = true
  | _ => True
  end.

(* how a run of the resolver can end: with the references and only
   passing calls, or with the error of a failed interface fetch or of a
   failed machine lookup as its last call *)
Definition resolved (r : result (list LocalUIDReference)) (j : Journal) : Prop :=
  (exists l, r = Ok l /\ Forall passes j)
  \/ (exists j1 k e msg,
        j = (j1 ++ [CGetNetworkInterface k (Err e)])%list
        /\ Forall passes j1 /\ r = Err (Errorf msg e))
  \/ (exists j1 k e msg,
        j = (j1 ++ [CGetMachine k (Err e)])%list
        /\ IsNotFound e = false /\ Forall passes j1 /\ r = Err (Errorf msg e)).

(* ascending by UID: the order of Go's < on strings, byte by byte *)
Definition uidLe (a b : LocalUIDReference) : Prop :=
  String.leb (refUID a) (refUID b) = true.

(* two outcomes of the resolver that agree up to the order of the
   references: both fail, or both succeed with the same references the
   same number of times *)
Definition sameReferences (r r' : result (list LocalUIDReference)) : Prop :=
  match r, r' with
  | Ok l, Ok l' => Permutation l l'
  | Err _, Err _ => True
  | _, _ => False
  end.

(* what one node adds, and what a list of nodes adds, when the client's
   answers to reads do not change: the resolver run on each node alone *)
Definition nodeReferences {W : Type} (cl : Client W) (o : onmetalLoadBalancer)
    (networkName : string) (w : W) (node : Node) : result (list LocalUIDReference) :=
  fst (fst (nodesNetworkInterfaces cl o [node] networkName [] w)).

Fixpoint gatherReferences {W : Type} (cl : Client W) (o : onmetalLoadBalancer)
    (networkName : string) (w : W) (nodes : list Node) : result (list LocalUIDReference) :=
  match nodes with
  | [] => Ok []
  | node :: rest =>
      match nodeReferences cl o networkName w node with
      | Err e => Err e
      | Ok l =>
          match gatherReferences cl o networkName w rest with
          | Err e => Err e
          | Ok l' => Ok (l ++ l')%list
          end
      end
  end.

(* the resolver only reads machines and network interfaces *)
Definition resolverCall (c : Call) : Prop :=
  match c with
  | CGetMachine _ _ | CGetNetworkInterface _ _ => True
  | _ => False
  end.

(* the destination lists a run wrote: with Patch/Apply in the ensure
   path, with the merge patch in the update path *)
Definition appliedDestinations (j : Journal) : list (list LocalUIDReference) :=
  flat_map (fun c => match c with
                     | CApplyLoadBalancerRouting lbr _ => [lbrDestinations lbr]
                     | _ => []
                     end) j.

Definition patchedDestinations (j : Journal) : list (list LocalUIDReference) :=
  flat_map (fun c => match c with
                     | CMergePatchLoadBalancerRouting lbr _ _ => [lbrDestinations lbr]
                     | _ => []
                     end) j.

(* the calls of the routing write: the fetch of the network and the
   apply of the routing object *)
Definition routingStep (c : Call) : bool :=
  match c with
  | CGetNetwork _ _ | CApplyLoadBalancerRouting _ _ => true
  | _ => false
  end.

Definition routingSteps (j : Journal) : Journal := List.filter routingStep j.

(* a journal without calls of the kind [p] *)
Definition without (p : Call -> bool) (j : Journal) : Prop := List.filter p j = [].

(* the reference to a network that the routing object carries *)
Definition networkReference (network : Network) : LocalUIDReference :=
  {| refName := netName network; refUID := netUID network |}.

(* how the routing write of a run went, read off the calls [steps] that
   belong to it: never reached or stopped before the network was
   fetched; stopped by the failed fetch of the network [key], with that
   error wrapped as the run's error; stopped after the fetch; or the
   network was fetched and, in the state the fetch left behind, the
   routing object was applied carrying that network's name and UID *)
Definition routingWrite {W : Type} (cl : Client W) (key : ObjectKey)
    (steps : Journal) (err : option Error) : Prop :=
  steps = []
  \/ (exists e msg, steps = [CGetNetwork key (Err e)] /\ err = Some (Errorf msg e))
  \/ (exists network e, steps = [CGetNetwork key (Ok network)] /\ err = Some e)
  \/ (exists network lbr r w1 w2 w3,
         steps = [CGetNetwork key (Ok network); CApplyLoadBalancerRouting lbr r]
         /\ clGetNetwork cl key w1 = (Ok network, w2)
         /\ clApplyLoadBalancerRouting cl lbr w2 = (r, w3)
         /\ lbrNetworkRef lbr = networkReference network
         /\ (err = None -> exists stored, r = Ok stored)).

(* --------------------------------------------------------------------- *)
(* Reading the journal of a wait                                          *)
(* --------------------------------------------------------------------- *)

(* the polling attempts: the fetches of the load balancer *)
Definition isPoll (c : Call) : bool :=
  match c with CGetLoadBalancer _ _ => true | _ => false end.

Definition polls (j : Journal) : nat := length (List.filter isPoll j).

(* the delays slept, in order *)
Definition sleeps (j : Journal) : list Z :=
  flat_map (fun c => match c with CSleep d _ => [d] | _ => [] end) j.

(* the context was found done, at a check or during a sleep *)
Definition interrupts (c : Call) : bool :=
  match c with
  | CContextDone (Some _) | CSleep _ (Some _) => true
  | _ => false
  end.

(* a fetch of the load balancer that finds it without addresses; calls
   of other kinds are not constrained *)
Definition pollFindsNoAddress (c : Call) : Prop :=
  match c with
  | CGetLoadBalancer _ r => exists lb, r = Ok lb /\ lbStatusIPs lb = []
  | _ => True
  end.

(* the delays of a backoff: [n] of them, from [duration], each the one
   before multiplied by num/den and truncated *)
Fixpoint backoffDelays (n : nat) (duration num den : Z) : list Z :=
  match n with
  | O => []
  | S n' => duration :: backoffDelays n' (duration * num / den)%Z num den
  end.

(* the error waitLoadBalancerActive returns when its wait is cut short *)
Definition activationTimeout (e : Error) : Prop :=
  exists key, e = ErrPlain ("timeout waiting for the LoadBalancer "
                            ++ keyString key ++ " to become ready").

(* what follows the apply of the load balancer in a journal *)
Fixpoint afterApply (j : Journal) : Journal :=
  match j with
  | [] => []
  | CApplyLoadBalancer _ _ :: rest => rest
  | _ :: rest => afterApply rest
  end.

Definition isApplyLoadBalancer (c : Call) : bool :=
  match c with CApplyLoadBalancer _ _ => true | _ => false end.

(* the calls of the routing write and of the resolver inside it *)
Definition routingCall (c : Call) : Prop :=
  match c with
  | CGetMachine _ _ | CGetNetworkInterface _ _
  | CGetNetwork _ _ | CApplyLoadBalancerRouting _ _ => True
  | _ => False
  end.

(* the backoff of both waits: 19 steps, hence 18 delays, from one second *)
Definition waitDelays : list Z :=
  backoffDelays (pred waitLoadbalancerActiveSteps) waitLoadbalancerInitDelay
    waitLoadbalancerFactorNum waitLoadbalancerFactorDen.

(* the same as a test *)
Definition findsNoAddress (c : Call) : bool :=
  match c with
  | CGetLoadBalancer _ (Ok lb) => match lbStatusIPs lb with [] => true | _ :: _ => false end
  | CGetLoadBalancer _ (Err _) => false
  | _ => true
  end.

(* the calls on the load balancer object itself, in order *)
Definition loadBalancerCall (c : Call) : bool :=
  match c with
  | CGetLoadBalancer _ _ | CDeleteLoadBalancer _ _ | CApplyLoadBalancer _ _ => true
  | _ => false
  end.

Module TypeFlip.
Import MemStore.

(* an Internal load balancer with an address, held by a finalizer of its
   controller, for a service that no longer has the internal annotation *)
Definition before : LoadBalancer :=
  Scenario.stored "Internal" ["networking.api.onmetal.de/loadbalancer"] ["100.0.0.10"].

(* the server answers the first poll of the deletion wait with an error
   that is neither not-found nor a timeout *)
Definition unavailable : Error := ErrPlain "etcdserver: request timed out".

Definition script : list Tick := [quiet; quiet; failing unavailable].

Definition start : World := Cluster.world (Scenario.holding before) script None.

Definition run :=
  EnsureLoadBalancer client Cluster.provider "shoot" Cluster.service [Cluster.node "m1"] start.

(* the same object after the run *)
Definition after : LoadBalancer :=
  {| lbName := "shoot-web-2f5a9c1e"; lbNamespace := "ns"; lbUID := "uid-lb";
     lbAnnotations :=
       {[ "cluster-name" := "shoot"; "service-name" := "web";
          "service-namespace" := "default";
          "service-uid" := "2f5a9c1e-77aa-4b1c-9d10-0123456789ab" ]};
     lbFinalizers := ["networking.api.onmetal.de/loadbalancer"];
     lbDeleting := true;
     lbSpec := {| lbType := "Public"; lbIPFamilies := []; lbNetworkRef := "net";
                  lbPorts := [ {| lbpProtocol := "TCP"; lbpPort := 443 |} ];
                  lbIPs := [] |};
     lbStatusIPs := ["100.0.0.10"] |}.

End TypeFlip.

(* the call after which EnsureLoadBalancerDeleted reports success: the
   deletion or a poll was answered with not-found, or a poll failed with
   an error that is not an interruption *)
Definition endsDeletion (c : Call) : Prop :=
  match c with
  | CDeleteLoadBalancer _ (Some e) => IsNotFound e = true
  | CGetLoadBalancer _ (Err e) => IsNotFound e = true \/ Interrupted e = false
  | _ => False
  end.

(* a fetch of the load balancer that finds it; calls of other kinds are
   not constrained *)
Definition pollFindsObject (c : Call) : Prop :=
  match c with
  | CGetLoadBalancer _ r => exists lb, r = Ok lb
  | _ => True
  end.

(* the same as a test *)
Definition findsObject (c : Call) : bool :=
  match c with
  | CGetLoadBalancer _ (Err _) => false
  | _ => true
  end.

(* the error waitForDeletingLoadBalancer returns when its wait is cut
   short *)
Definition deletionTimeout (e : Error) : Prop :=
  exists key, e = ErrPlain ("timeout waiting for the LoadBalancer "
                            ++ keyString key ++ " to be deleted").

(* the calls that change the store *)
Definition isWrite (c : Call) : bool :=
  match c with
  | CDeleteLoadBalancer _ _ | CApplyLoadBalancer _ _ | CApplyLoadBalancerRouting _ _
  | CMergePatchLoadBalancerRouting _ _ _ | CUpdateLoadBalancerRouting _ _ => true
  | _ => false
  end.

Definition writes (j : Journal) : Journal := List.filter isWrite j.

(* the IP sources EnsureLoadBalancer puts into the spec *)
Definition desiredIPs (o : onmetalLoadBalancer) (service : Service) : list IPSource :=
  if String.eqb (desiredTypeOf service) LoadBalancerTypeInternal
  then [IPEphemeral "IPv4" (PrefixName (cloudConfig o))]
  else [].

Module Internal.

(* Cluster.service with the internal annotation *)
Definition service : Service :=
  {| svcName := "web"; svcNamespace := "default";
     svcUID := "2f5a9c1e-77aa-4b1c-9d10-0123456789ab";
     svcAnnotations := {[ InternalLoadBalancerAnnotation := "true" ]};
     svcPorts := [ {| spName := "https"; spProtocol := "TCP"; spPort := 443 |} ];
     svcIPFamilies := [];
     svcStatusLoadBalancer := {| Ingress := [] |} |}.

(* a provider whose configuration names no prefix *)
Definition unconfigured : onmetalLoadBalancer :=
  {| onmetalNamespace := "ns";
     cloudConfig := {| NetworkName := "net"; PrefixName := "" |} |}.

End Internal.

(* the routing object as waitLoadBalancerActive writes it back: the
   label "updated" set to the time, with ":" replaced and a final "Z"
   cut off *)
Definition touchLabel (now : string) : string :=
  GoStrings.TrimSuffix (GoStrings.ReplaceAll now ":"%char "-"%char) "Z"%char.

Definition touched (lbr : LoadBalancerRouting) (now : string) : LoadBalancerRouting :=
  {| lbrName := lbrName lbr; lbrNamespace := lbrNamespace lbr;
     lbrLabels := <["updated" := touchLabel now]> (lbrLabels lbr);
     lbrOwnerReferences := lbrOwnerReferences lbr;
     lbrNetworkRef := lbrNetworkRef lbr;
     lbrDestinations := lbrDestinations lbr |}.

(* the last poll of an activation wait that did not end in an
   interruption: it found addresses and was not deferred, and the status
   is made of them, or it failed with an error that is no interruption *)
Definition endsActivation (existing : LoadBalancerType) (service : Service)
    (status : LoadBalancerStatus) (c : Call) : Prop :=
  match c with
  | CGetLoadBalancer _ (Ok fetched) =>
      lbStatusIPs fetched <> []
      /\ status = {| Ingress := ingressOf (lbStatusIPs fetched) |}
      /\ ~ (lbType (lbSpec fetched) <> existing /\ svcStatusLoadBalancer service = status)
  | CGetLoadBalancer _ (Err e) => Interrupted e = false
  | _ => False
  end.

(* what a poll that fetched the load balancer leaves in the captured
   status, and whether it reports ready *)
Definition pollResult (existing : LoadBalancerType) (service : Service)
    (st : LoadBalancerStatus) (fetched : LoadBalancer) : LoadBalancerStatus * bool :=
  if (length (lbStatusIPs fetched) =? 0)%nat then (st, false)
  else
    let computed := {| Ingress := ingressOf (lbStatusIPs fetched) |} in
    if negb (String.eqb (lbType (lbSpec fetched)) existing)
       && LoadBalancerStatusEqual (svcStatusLoadBalancer service) computed
    then (computed, false)
    else (computed, true).

(* the type EnsureLoadBalancer records from its first fetch: the zero
   value when the fetch failed *)
Definition recordedType (first : result LoadBalancer) : LoadBalancerType :=
  match first with
  | Ok existingLoadBalancer => lbType (lbSpec existingLoadBalancer)
  | Err _ => ""
  end.

(* --------------------------------------------------------------------- *)
(* instances_v2.go                                                        *)
(* --------------------------------------------------------------------- *)

Module InstancesV2.

(* computev1alpha1.NetworkInterfaceStatus: what a machine reports for one
   interface; addresses are kept by their textual form *)
Record NetworkInterfaceStatus := {
  nisName : string;
  nisVirtualIP : option string;
  nisIPs : list string
}.

(* computev1alpha1.Machine with the further fields instances_v2.go reads
   or writes: the labels, the class and pool references and the status *)
Record MachineObject := {
  moMachine : Machine;
  moLabels : gmap string string;
  moMachineClassRef : string;
  moMachinePoolRef : option string;
  moState : string;
  moStatusNetworkInterfaces : list NetworkInterfaceStatus
}.

(* networkingv1alpha1.NetworkInterface with its labels *)
Record NetworkInterfaceObject := {
  nioInterface : NetworkInterface;
  nioLabels : gmap string string
}.

(* corev1.NodeAddress and the two address types the code uses *)
Record NodeAddress := { naType : string; naAddress : string }.
Definition NodeExternalIP : string := "ExternalIP".
Definition NodeInternalIP : string := "InternalIP".

(* computev1alpha1.MachineStateShutdown *)
Definition MachineStateShutdown : string := "Shutdown".

(* cloudprovider.InstanceMetadata; the method of the same name keeps the
   name *)
Record CloudInstanceMetadata := {
  ProviderID : string;
  InstanceType : string;
  NodeAddresses : list NodeAddress;
  Zone : string;
  Region : string
}.

(* cloudprovider.InstanceNotFound, the sentinel of k8s.io/cloud-provider:
   errors.New("instance not found") *)
Definition InstanceNotFound : Error := ErrPlain "instance not found".

(* the calls instances_v2.go makes on the onmetal client, with their
   answers *)
Inductive Call :=
| CGetMachine (k : ObjectKey) (r : result MachineObject)
| CMergePatchMachine (machine base : MachineObject) (r : result MachineObject)
| CGetNetworkInterface (k : ObjectKey) (r : result NetworkInterfaceObject)
| CMergePatchNetworkInterface (nic base : NetworkInterfaceObject)
    (r : result NetworkInterfaceObject).

(* the part of client.Client instances_v2.go uses.  Patch answers with
   the object as the server holds it afterwards, which the caller's
   variable then holds. *)
Record Client (W : Type) := {
  clGetMachine : ObjectKey -> W -> result MachineObject * W;
  clMergePatchMachine : MachineObject -> MachineObject -> W -> result MachineObject * W;
  clGetNetworkInterface : ObjectKey -> W -> result NetworkInterfaceObject * W;
  clMergePatchNetworkInterface :
    NetworkInterfaceObject -> NetworkInterfaceObject -> W -> result NetworkInterfaceObject * W
}.
Arguments clGetMachine {W}.
Arguments clMergePatchMachine {W}.
Arguments clGetNetworkInterface {W}.
Arguments clMergePatchNetworkInterface {W}.

(* computations over the state of the world, with the journal of calls *)
Definition M (W A : Type) : Type := W -> A * W * list Call.

Definition ret {W A} (a : A) : M W A := fun s => (a, s, []).

Definition bind {W A B} (m : M W A) (f : A -> M W B) : M W B :=
  fun s =>
    let '(a, s1, j1) := m s in
    let '(b, s2, j2) := f a s1 in
    (b, s2, (j1 ++ j2)%list).

#[warnings="-notation-overridden"]
Notation "x <- m ;; k" := (bind m (fun x => k))
  (at level 100, m at next level, right associativity).

Definition call {W A} (op : W -> A * W) (entry : A -> Call) : M W A :=
  fun s => let '(a, s1) := op s in (a, s1, [entry a]).

(* type onmetalInstancesV2 struct: the target client is not used by the
   three methods *)
Record onmetalInstancesV2 := {
  onmetalNamespace : string;
  clusterName : string
}.

Definition machineObjectKey (machine : MachineObject) : ObjectKey :=
  machineKey (moMachine machine).

Definition networkInterfaceObjectKey (nic : NetworkInterfaceObject) : ObjectKey :=
  nicKey (nioInterface nic).

(* machine.Labels[LabeKeylClusterName] = o.clusterName *)
Definition labelMachine (cluster : string) (machine : MachineObject) : MachineObject :=
  {| moMachine := moMachine machine;
     moLabels := <[LabeKeylClusterName := cluster]> (moLabels machine);
     moMachineClassRef := moMachineClassRef machine;
     moMachinePoolRef := moMachinePoolRef machine;
     moState := moState machine;
     moStatusNetworkInterfaces := moStatusNetworkInterfaces machine |}.

(* nic.Labels[LabeKeylClusterName] = o.clusterName *)
Definition labelNetworkInterface (cluster : string) (nic : NetworkInterfaceObject)
  : NetworkInterfaceObject :=
  {| nioInterface := nioInterface nic;
     nioLabels := <[LabeKeylClusterName := cluster]> (nioLabels nic) |}.

(* the inner loop over iface.IPs *)
Fixpoint appendInternal (addresses : list NodeAddress) (ips : list string)
  : list NodeAddress :=
  match ips with
  | [] => addresses
  | ip :: rest =>
      appendInternal (addresses ++ [{| naType := NodeInternalIP; naAddress := ip |}])%list rest
  end.

(* the loop over machine.Status.NetworkInterfaces *)
Fixpoint appendAddresses (addresses : list NodeAddress)
    (ifaces : list NetworkInterfaceStatus) : list NodeAddress :=
  match ifaces with
  | [] => addresses
  | iface :: rest =>
      let addresses :=
        match nisVirtualIP iface with
        | Some virtualIP =>
            (addresses ++ [{| naType := NodeExternalIP; naAddress := virtualIP |}])%list
        | None => addresses
        end in
      appendAddresses (appendInternal addresses (nisIPs iface)) rest
  end.

Section Methods.

Context {W : Type} (onmetalClient : Client W).

(* the constant ProviderName is declared in a file of the package that is
   not at hand; the methods are read for any value of it *)
Variable ProviderName : string.

Variable o : onmetalInstancesV2.

Definition getMachine (k : ObjectKey) : M W (result MachineObject) :=
  call (clGetMachine onmetalClient k) (CGetMachine k).

Definition mergePatchMachine (machine base : MachineObject) : M W (result MachineObject) :=
  call (clMergePatchMachine onmetalClient machine base) (CMergePatchMachine machine base).

Definition getNetworkInterface (k : ObjectKey) : M W (result NetworkInterfaceObject) :=
  call (clGetNetworkInterface onmetalClient k) (CGetNetworkInterface k).

Definition mergePatchNetworkInterface (nic base : NetworkInterfaceObject)
  : M W (result NetworkInterfaceObject) :=
  call (clMergePatchNetworkInterface onmetalClient nic base)
       (CMergePatchNetworkInterface nic base).

(* the error branch the three methods share after the Get of the machine *)
Definition lookupError (node : Node) (err : Error) : Error :=
  if IsNotFound err then InstanceNotFound
  else Errorf ("failed to get machine object for node " ++ nodeName node) err.

(* func (o *onmetalInstancesV2) InstanceExists(ctx, node) (bool, error);
   a nil node is None *)
Definition InstanceExists (node : option Node) : M W (bool * option Error) :=
  match node with
  | None => ret (false, None)
  | Some node =>
      r <- getMachine (mkKey (onmetalNamespace o) (nodeName node)) ;;
      match r with
      | Err err => ret (false, Some (lookupError node err))
      | Ok _ => ret (true, None)
      end
  end.

(* func (o *onmetalInstancesV2) InstanceShutdown(ctx, node) (bool, error) *)
Definition InstanceShutdown (node : option Node) : M W (bool * option Error) :=
  match node with
  | None => ret (false, None)
  | Some node =>
      r <- getMachine (mkKey (onmetalNamespace o) (nodeName node)) ;;
      match r with
      | Err err => ret (false, Some (lookupError node err))
      | Ok machine =>
          let nodeShutDownStatus := String.eqb (moState machine) MachineStateShutdown in
          ret (nodeShutDownStatus, None)
      end
  end.

(* the loop of InstanceMetadata over machine.Spec.NetworkInterfaces *)
Fixpoint labelNetworkInterfaces (node : Node) (machine : MachineObject)
    (networkInterfaces : list MachineNIC) : M W (option Error) :=
  match networkInterfaces with
  | [] => ret None
  | networkInterface :: rest =>
      let nicName := mName (moMachine machine) ++ "-" ++ mnName networkInterface in
      r <- getNetworkInterface (mkKey (onmetalNamespace o) nicName) ;;
      match r with
      | Err err =>
          ret (Some (Errorf ("failed to get network interface " ++ keyString (mkKey "" "")
                             ++ " for machine " ++ mName (moMachine machine)) err))
      | Ok nic =>
          let nicBase := nic in
          let nic := labelNetworkInterface (clusterName o) nic in
          p <- mergePatchNetworkInterface nic nicBase ;;
          match p with
          | Err err =>
              ret (Some (Errorf ("failed to patch NetworkInterface "
                                 ++ keyString (networkInterfaceObjectKey nic)
                                 ++ " for Node " ++ nodeName node) err))
          | Ok _ => labelNetworkInterfaces node machine rest
          end
      end
  end.

(* func (o *onmetalInstancesV2) InstanceMetadata(ctx, node), which returns
   a pointer to a cloudprovider.InstanceMetadata, here an option, and an
   error *)
Definition InstanceMetadata (node : option Node)
  : M W (option CloudInstanceMetadata * option Error) :=
  match node with
  | None => ret (None, None)
  | Some node =>
      r <- getMachine (mkKey (onmetalNamespace o) (nodeName node)) ;;
      match r with
      | Err err => ret (None, Some (lookupError node err))
      | Ok machine =>
          (* add label for clusterName to machine object *)
          let machineBase := machine in
          let machine := labelMachine (clusterName o) machine in
          p <- mergePatchMachine machine machineBase ;;
          match p with
          | Err err =>
              ret (None,
                   Some (Errorf ("failed to patch Machine " ++ keyString (machineObjectKey machine)
                                 ++ " for Node " ++ nodeName node) err))
          | Ok machine =>
              l <- labelNetworkInterfaces node machine (mNetworkInterfaces (moMachine machine)) ;;
              match l with
              | Some err => ret (None, Some err)
              | None =>
                  let addresses :=
                    appendAddresses [] (moStatusNetworkInterfaces machine) in
                  let providerID :=
                    if String.eqb (nodeProviderID node) ""
                    then ProviderName ++ "://" ++ onmetalNamespace o ++ "/"
                         ++ mName (moMachine machine)
                    else nodeProviderID node in
                  let zone :=
                    match moMachinePoolRef machine with
                    | Some machinePoolRef => machinePoolRef
                    | None => ""
                    end in
                  ret (Some {| ProviderID := providerID;
                               InstanceType := moMachineClassRef machine;
                               NodeAddresses := addresses;
                               Zone := zone;
                               Region := "" |},
                       None)
              end
          end
      end
  end.

End Methods.

End InstancesV2.

(* an in-memory server for instances_v2.go: the machines and network
   interfaces stored under namespace and name, and a script that says for
   each coming call whether it fails *)
Module MemInstances.

Record World := {
  machines : gmap (string * string) InstancesV2.MachineObject;
  networkInterfaces : gmap (string * string) InstancesV2.NetworkInterfaceObject;
  future : list (option Error)
}.

Definition at_ (k : ObjectKey) : string * string := (keyNamespace k, keyName k).

Definition after (w : World) : World :=
  {| machines := machines w; networkInterfaces := networkInterfaces w;
     future := tl (future w) |}.

(* the fault the script holds for the next call *)
Definition fault (w : World) : option Error :=
  match future w with
  | Some e :: _ => Some e
  | _ => None
  end.

Definition getMachine (k : ObjectKey) (w : World)
  : result InstancesV2.MachineObject * World :=
  match fault w with
  | Some e => (Err e, after w)
  | None =>
      (match machines w !! at_ k with
       | Some machine => Ok machine
       | None => Err (ErrNotFound ("Machine " ++ keyName k ++ " not found"))
       end, after w)
  end.

Definition getNetworkInterface (k : ObjectKey) (w : World)
  : result InstancesV2.NetworkInterfaceObject * World :=
  match fault w with
  | Some e => (Err e, after w)
  | None =>
      (match networkInterfaces w !! at_ k with
       | Some nic => Ok nic
       | None => Err (ErrNotFound ("NetworkInterface " ++ keyName k ++ " not found"))
       end, after w)
  end.

(* a merge patch of labels: the labels of the object sent are laid over
   the stored ones; nothing else of the stored object changes *)
Definition mergePatchMachine (machine base : InstancesV2.MachineObject) (w : World)
  : result InstancesV2.MachineObject * World :=
  let k := at_ (InstancesV2.machineObjectKey machine) in
  match fault w with
  | Some e => (Err e, after w)
  | None =>
      match machines w !! k with
      | None => (Err (ErrNotFound ("Machine " ++ snd k ++ " not found")), after w)
      | Some stored =>
          let merged :=
            {| InstancesV2.moMachine := InstancesV2.moMachine stored;
               InstancesV2.moLabels :=
                 InstancesV2.moLabels machine ∪ InstancesV2.moLabels stored;
               InstancesV2.moMachineClassRef := InstancesV2.moMachineClassRef stored;
               InstancesV2.moMachinePoolRef := InstancesV2.moMachinePoolRef stored;
               InstancesV2.moState := InstancesV2.moState stored;
               InstancesV2.moStatusNetworkInterfaces :=
                 InstancesV2.moStatusNetworkInterfaces stored |} in
          (Ok merged,
           {| machines := <[k := merged]> (machines w);
              networkInterfaces := networkInterfaces w;
              future := tl (future w) |})
      end
  end.

Definition mergePatchNetworkInterface (nic base : InstancesV2.NetworkInterfaceObject)
    (w : World) : result InstancesV2.NetworkInterfaceObject * World :=
  let k := at_ (InstancesV2.networkInterfaceObjectKey nic) in
  match fault w with
  | Some e => (Err e, after w)
  | None =>
      match networkInterfaces w !! k with
      | None => (Err (ErrNotFound ("NetworkInterface " ++ snd k ++ " not found")), after w)
      | Some stored =>
          let merged :=
            {| InstancesV2.nioInterface := InstancesV2.nioInterface stored;
               InstancesV2.nioLabels :=
                 InstancesV2.nioLabels nic ∪ InstancesV2.nioLabels stored |} in
          (Ok merged,
           {| machines := machines w;
              networkInterfaces := <[k := merged]> (networkInterfaces w);
              future := tl (future w) |})
      end
  end.

Definition client : InstancesV2.Client World :=
  {| InstancesV2.clGetMachine := getMachine;
     InstancesV2.clMergePatchMachine := mergePatchMachine;
     InstancesV2.clGetNetworkInterface := getNetworkInterface;
     InstancesV2.clMergePatchNetworkInterface := mergePatchNetworkInterface |}.

(* a machine "m1" in namespace "ns" with two attachments, the second with
   an explicit reference, a virtual IP on the first interface, and the
   two network interfaces the naming scheme gives *)
Definition provider : InstancesV2.onmetalInstancesV2 :=
  {| InstancesV2.onmetalNamespace := "ns"; InstancesV2.clusterName := "shoot" |}.

Definition machine : InstancesV2.MachineObject :=
  {| InstancesV2.moMachine :=
       {| mName := "m1"; mNamespace := "ns";
          mNetworkInterfaces :=
            [ {| mnName := "primary"; mnNetworkInterfaceRef := None |};
              {| mnName := "storage"; mnNetworkInterfaceRef := Some "shared-nic" |} ] |};
     InstancesV2.moLabels := {[ "team" := "a" ]};
     InstancesV2.moMachineClassRef := "x3-small";
     InstancesV2.moMachinePoolRef := Some "zone-a";
     InstancesV2.moState := "Running";
     InstancesV2.moStatusNetworkInterfaces :=
       [ {| InstancesV2.nisName := "primary";
            InstancesV2.nisVirtualIP := Some "45.86.152.88";
            InstancesV2.nisIPs := ["10.0.0.1"; "fd00::1"] |};
         {| InstancesV2.nisName := "storage";
            InstancesV2.nisVirtualIP := None;
            InstancesV2.nisIPs := ["10.0.1.1"] |} ] |}.

Definition nic (name : string) : InstancesV2.NetworkInterfaceObject :=
  {| InstancesV2.nioInterface :=
       {| nicName := name; nicNamespace := "ns"; nicUID := "uid-" ++ name;
          nicNetworkRef := "my-network" |};
     InstancesV2.nioLabels := ∅ |}.

Definition world (script : list (option Error)) : World :=
  {| machines := {[ ("ns", "m1") := machine ]};
     networkInterfaces :=
       {[ ("ns", "m1-primary") := nic "m1-primary";
          ("ns", "m1-storage") := nic "m1-storage";
          ("ns", "shared-nic") := nic "shared-nic" ]};
     future := script |}.

Definition node : Node := {| nodeName := "m1"; nodeProviderID := "" |}.

End MemInstances.

(* the calls of instances_v2.go that were answered without an error *)
Definition answered (c : InstancesV2.Call) : Prop :=
  match c with
  | InstancesV2.CGetMachine _ (Ok _)
  | InstancesV2.CMergePatchMachine _ _ (Ok _)
  | InstancesV2.CGetNetworkInterface _ (Ok _)
  | InstancesV2.CMergePatchNetworkInterface _ _ (Ok _) => True
  | _ => False
  end.

(* the error a call was answered with *)
Definition refusal (c : InstancesV2.Call) : option Error :=
  match c with
  | InstancesV2.CGetMachine _ (Err e)
  | InstancesV2.CMergePatchMachine _ _ (Err e)
  | InstancesV2.CGetNetworkInterface _ (Err e)
  | InstancesV2.CMergePatchNetworkInterface _ _ (Err e) => Some e
  | _ => None
  end.

(* the two calls InstanceMetadata makes for one attachment of the
   machine when both succeed: the network interface is fetched under the
   machine's name, a dash and the attachment's name, and patched with the
   cluster label added to what was fetched *)
Definition labelStep (o : InstancesV2.onmetalInstancesV2) (machineName : string)
    (networkInterface : MachineNIC)
    (answer : InstancesV2.NetworkInterfaceObject * InstancesV2.NetworkInterfaceObject)
  : list InstancesV2.Call :=
  [ InstancesV2.CGetNetworkInterface
      (mkKey (InstancesV2.onmetalNamespace o) (machineName ++ "-" ++ mnName networkInterface))
      (Ok (fst answer));
    InstancesV2.CMergePatchNetworkInterface
      (InstancesV2.labelNetworkInterface (InstancesV2.clusterName o) (fst answer))
      (fst answer) (Ok (snd answer)) ].

Fixpoint labelSteps (o : InstancesV2.onmetalInstancesV2) (machineName : string)
    (networkInterfaces : list MachineNIC)
    (answers : list (InstancesV2.NetworkInterfaceObject * InstancesV2.NetworkInterfaceObject))
  : list InstancesV2.Call :=
  match networkInterfaces, answers with
  | networkInterface :: rest, answer :: more =>
      (labelStep o machineName networkInterface answer
       ++ labelSteps o machineName rest more)%list
  | _, _ => []
  end.

(* the metadata InstanceMetadata builds from a node and a machine *)
Definition metadataOf (ProviderName : string) (o : InstancesV2.onmetalInstancesV2)
    (node : Node) (machine : InstancesV2.MachineObject) : InstancesV2.CloudInstanceMetadata :=
  {| InstancesV2.ProviderID :=
       if String.eqb (nodeProviderID node) ""
       then ProviderName ++ "://" ++ InstancesV2.onmetalNamespace o ++ "/"
            ++ mName (InstancesV2.moMachine machine)
       else nodeProviderID node;
     InstancesV2.InstanceType := InstancesV2.moMachineClassRef machine;
     InstancesV2.NodeAddresses :=
       InstancesV2.appendAddresses [] (InstancesV2.moStatusNetworkInterfaces machine);
     InstancesV2.Zone := default "" (InstancesV2.moMachinePoolRef machine);
     InstancesV2.Region := "" |}.

(* the addresses one reported interface contributes: its virtual IP as
   an external address, then its IPs as internal addresses *)
Definition interfaceAddresses (iface : InstancesV2.NetworkInterfaceStatus)
  : list InstancesV2.NodeAddress :=
  (match InstancesV2.nisVirtualIP iface with
   | Some virtualIP =>
       [ {| InstancesV2.naType := InstancesV2.NodeExternalIP;
            InstancesV2.naAddress := virtualIP |} ]
   | None => []
   end
   ++ map (fun ip => {| InstancesV2.naType := InstancesV2.NodeInternalIP;
                        InstancesV2.naAddress := ip |})
          (InstancesV2.nisIPs iface))%list.

(* the addresses of one type, as text *)
Definition addressesOfType (type : string) (addresses : list InstancesV2.NodeAddress)
  : list string :=
  map InstancesV2.naAddress
      (List.filter (fun a => String.eqb (InstancesV2.naType a) type) addresses).

(* the references a journal of the resolver holds: of every network
   interface that was fetched and sits on the network, its name and UID
   as answered, in the order of the fetches *)
Definition fetchedReferences (networkName : string) (j : Journal) : list LocalUIDReference :=
  flat_map (fun c => match c with
                     | CGetNetworkInterface _ (Ok networkInterface) =>
                         if String.eqb (nicNetworkRef networkInterface) networkName
                         then [ {| refName := nicName networkInterface;
                                   refUID := nicUID networkInterface |} ]
                         else []
                     | _ => []
                     end) j.

(* the namespace a read of the resolver is made in *)
Definition readNamespace (c : Call) : option string :=
  match c with
  | CGetMachine k _ | CGetNetworkInterface k _ => Some (keyNamespace k)
  | _ => None
  end.

(* the status the polls of a journal leave in the variable the activation
   wait captures, starting from [status]: a fetch of the load balancer
   that finds addresses overwrites it with them, every other call leaves
   it as it is *)
Definition gatheredStatus (status : LoadBalancerStatus) (j : Journal) : LoadBalancerStatus :=
  List.fold_left
    (fun st c =>
       match c with
       | CGetLoadBalancer _ (Ok fetched) =>
           if (length (lbStatusIPs fetched) =? 0)%nat then st
           else {| Ingress := ingressOf (lbStatusIPs fetched) |}
       | _ => st
       end) j status.

(* the routing object was applied with success in a journal *)
Definition routingApplied (j : Journal) : Prop :=
  exists lbr stored, In (CApplyLoadBalancerRouting lbr (Ok stored)) j.

Module LostPoll.
Import MemStore.

(* the server answers the first poll of the activation wait, its eighth
   call, with an error that is neither not-found nor a timeout *)
Definition unavailable : Error := ErrPlain "etcdserver: request timed out".

Definition script : list Tick :=
  [quiet; quiet; quiet; quiet; quiet; quiet; quiet; failing unavailable].

(* no load balancer is stored for the service *)
Definition start : World := Cluster.world Cluster.objects script None.

Definition run :=
  EnsureLoadBalancer client Cluster.provider "shoot" Cluster.service [Cluster.node "m1"] start.

End LostPoll.

(* ===================================================================== *)
(* Theorems                                                               *)
(* ===================================================================== *)

(* --------------------------------------------------------------------- *)
(* IdentityNamer                                                          *)
(* --------------------------------------------------------------------- *)

(* the name of a service of cluster shoot *)
Example name_example :
  getLoadBalancerNameForService "shoot"
    {| svcName := "web"; svcNamespace := "default";
       svcUID := "2f5a9c1e-77aa-4b1c-9d10-0123456789ab";
       svcAnnotations := ∅; svcPorts := []; svcIPFamilies := [];
       svcStatusLoadBalancer := {| Ingress := [] |} |}
  = "shoot-web-2f5a9c1e".
Proof. reflexivity. Qed.

Section Naming.

Lemma append_nil (b : string) : "" ++ b = b.
Proof. reflexivity. Qed.

Lemma append_cons (x : ascii) (a b : string) : String x a ++ b = String x (a ++ b).
Proof. reflexivity. Qed.

Lemma append_assoc (a b c : string) : (a ++ b) ++ c = a ++ (b ++ c).
Proof.
  induction a as [|x a IH]; [reflexivity|].
  rewrite !append_cons. f_equal. exact IH.
Qed.

Lemma Split_nonempty (s : string) (sep : ascii) : GoStrings.Split s sep <> [].
Proof.
  destruct s as [|c s]; simpl; [discriminate|].
  destruct (Ascii.eqb c sep); [discriminate|].
  destruct (GoStrings.Split s sep); discriminate.
Qed.

Lemma first_Split_contains (s : string) (sep : ascii) :
  GoStrings.contains (GoStrings.first (GoStrings.Split s sep)) sep = false.
Proof.
  induction s as [|c s IH]; simpl; [reflexivity|].
  destruct (Ascii.eqb c sep) eqn:E; simpl; [reflexivity|].
  destruct (GoStrings.Split s sep) as [|p ps]; simpl in *; rewrite E; simpl; auto.
Qed.

(* the first piece is what stands before the first separator *)
Lemma first_Split_prefix (s : string) (sep : ascii) :
  s = GoStrings.first (GoStrings.Split s sep)
  \/ exists rest, s = GoStrings.first (GoStrings.Split s sep) ++ String sep rest.
Proof.
  induction s as [|c s IH]; simpl; [now left|].
  destruct (Ascii.eqb c sep) eqn:E; simpl.
  - apply Ascii.eqb_eq in E; subst. right; now exists s.
  - pose proof (Split_nonempty s sep) as NE.
    destruct (GoStrings.Split s sep) as [|p ps]; [contradiction|]; simpl in *.
    destruct IH as [-> | [rest ->]]; [now left | right; now exists rest].
Qed.

Lemma append_sep_inj (sep : ascii) (a b x y : string) :
  GoStrings.contains x sep = false ->
  GoStrings.contains y sep = false ->
  a ++ String sep x = b ++ String sep y ->
  a = b /\ x = y.
Proof.
  intros Hx Hy. revert b.
  assert (nosep : forall u v, GoStrings.contains (u ++ String sep v) sep = true).
  { induction u as [|c u IH]; intros v; rewrite ?append_nil, ?append_cons; simpl.
    - now rewrite Ascii.eqb_refl.
    - rewrite IH. now rewrite orb_true_r. }
  induction a as [|c a IH]; intros [|d b]; rewrite ?append_nil, ?append_cons; intros E.
  - injection E as ->. now split.
  - injection E as <- ->. rewrite nosep in Hx. discriminate.
  - injection E as -> <-. rewrite nosep in Hy. discriminate.
  - injection E as -> E. destruct (IH _ E) as [-> ->]. now split.
Qed.

End Naming.

(** C5, as stated, fails: two different (cluster, service, UID) triples
    with the same load balancer name, since only the first segment of the
    UID enters the name. *)
Lemma C5_distinct_triples_same_name :
  ~ (forall (c1 c2 : string) (s1 s2 : Service),
        (c1, svcName s1, svcUID s1) <> (c2, svcName s2, svcUID s2) ->
        getLoadBalancerNameForService c1 s1 <> getLoadBalancerNameForService c2 s2).
Proof.
  intros H.
  apply (H "shoot" "shoot" (namedService "web" "2f5a9c1e-77aa") (namedService "web" "2f5a9c1e-88bb")).
  - discriminate.
  - reflexivity.
Qed.

(** C5, amended: the name is clusterName, "-", the service name, "-" and
    the first "-"-separated segment of the UID (the part of the UID before
    its first "-", the whole UID when it has none); the same inputs give
    the same name; and two triples get the same name exactly when their
    "cluster-service" strings are equal and their first UID segments are
    equal. *)
Theorem C5_name_formula_and_collisions :
  forall (c1 c2 : string) (s1 s2 : Service),
    let seg1 := GoStrings.first (GoStrings.Split (svcUID s1) dash) in
    let seg2 := GoStrings.first (GoStrings.Split (svcUID s2) dash) in
    getLoadBalancerNameForService c1 s1 = c1 ++ "-" ++ svcName s1 ++ "-" ++ seg1
    /\ GoStrings.contains seg1 dash = false
    /\ (svcUID s1 = seg1 \/ exists rest, svcUID s1 = seg1 ++ "-" ++ rest)
    /\ (c1 = c2 -> svcName s1 = svcName s2 -> svcUID s1 = svcUID s2 ->
        getLoadBalancerNameForService c1 s1 = getLoadBalancerNameForService c2 s2)
    /\ (getLoadBalancerNameForService c1 s1 = getLoadBalancerNameForService c2 s2
        <-> c1 ++ "-" ++ svcName s1 = c2 ++ "-" ++ svcName s2 /\ seg1 = seg2).
Proof.
  intros c1 c2 s1 s2 seg1 seg2.
  split; [reflexivity|].
  split; [apply first_Split_contains|].
  split; [apply first_Split_prefix|].
  split.
  - intros -> E1 E2. unfold getLoadBalancerNameForService. now rewrite E1, E2.
  - unfold getLoadBalancerNameForService. fold seg1 seg2.
    assert (regroup : forall c n seg : string,
               c ++ "-" ++ n ++ "-" ++ seg = (c ++ "-" ++ n) ++ String dash seg).
    { intros c n seg. rewrite !append_assoc. reflexivity. }
    rewrite !regroup. split.
    + intros E. apply (append_sep_inj dash) in E; auto; apply first_Split_contains.
    + intros [-> ->]. reflexivity.
Qed.

(* --------------------------------------------------------------------- *)
(* Update, deletion and lookup: the short paths                           *)
(* --------------------------------------------------------------------- *)

(** C6: UpdateLoadBalancer with an empty node list returns an error
    without a single call on the client: the journal is empty and the
    state of the world, routing object included, is the one it started
    from.  This holds for every client and every service. *)
Theorem C6_update_without_nodes_is_an_error :
  forall (W : Type) (onmetalClient : Client W) (o : onmetalLoadBalancer)
         (clusterName : string) (service : Service) (w : W),
    UpdateLoadBalancer onmetalClient o clusterName service [] w
    = (Some (ErrPlain ("no Nodes available for LoadBalancer Service "
                       ++ keyString (serviceKey service))), w, []).
Proof. reflexivity. Qed.

(** C7: when the server answers the deletion of the derived load balancer
    with not-found, EnsureLoadBalancerDeleted returns success, and the
    deletion is the only call it makes: the wait for the deletion is not
    entered. *)
Theorem C7_delete_of_absent_succeeds :
  forall (W : Type) (onmetalClient : Client W) (o : onmetalLoadBalancer)
         (clusterName : string) (service : Service) (w w' : W) (e : Error),
    let key := mkKey (onmetalNamespace o) (getLoadBalancerNameForService clusterName service) in
    clDeleteLoadBalancer onmetalClient key w = (Some e, w') ->
    IsNotFound e = true ->
    EnsureLoadBalancerDeleted onmetalClient o clusterName service w
    = (None, w', [CDeleteLoadBalancer key (Some e)]).
Proof.
  intros W cl o c svc w w' e key Hdel Hnf.
  unfold EnsureLoadBalancerDeleted, bind, deleteLoadBalancer, call, GetLoadBalancerName.
  change (loadBalancerKey (withName emptyLoadBalancer (onmetalNamespace o)
            (getLoadBalancerNameForService c svc))) with key.
  rewrite Hdel, Hnf. reflexivity.
Qed.

(* the in-memory server answers not-found for an object it does not hold *)
Lemma MemStore_delete_absent (w : MemStore.World) (k : ObjectKey) :
  MemStore.loadBalancers (MemStore.store w) !! MemStore.at_ k = None ->
  MemStore.future w = [] ->
  exists e, MemStore.deleteLB k w = (Some e, w) /\ IsNotFound e = true.
Proof.
  intros Habs Hfut. unfold MemStore.deleteLB, MemStore.serve. rewrite Hfut, Habs.
  exists (ErrNotFound ("LoadBalancer " ++ keyName k ++ " not found")).
  split; [|reflexivity].
  unfold MemStore.withStore. destruct w; simpl in *; subst; reflexivity.
Qed.

(** C9: when the lookup of the derived load balancer fails, as it does
    with not-found for an absent object, GetLoadBalancer returns no
    status, exists = false and an error that wraps the client's (so it is
    still a not-found error); it does not return absent without error. *)
Theorem C9_get_absent_reports_error :
  forall (W : Type) (onmetalClient : Client W) (o : onmetalLoadBalancer)
         (clusterName : string) (service : Service) (w w' : W) (e : Error),
    let name := getLoadBalancerNameForService clusterName service in
    let key := mkKey (onmetalNamespace o) name in
    clGetLoadBalancer onmetalClient key w = (Err e, w') ->
    exists err,
      GetLoadBalancer onmetalClient o clusterName service w
      = (None, false, Some err, w', [CGetLoadBalancer key (Err e)])
      /\ err = Errorf ("failed to get LoadBalancer " ++ name ++ " for Service "
                       ++ keyString (serviceKey service)) e
      /\ IsNotFound err = IsNotFound e.
Proof.
  intros W cl o c svc w w' e name key Hget.
  eexists. split; [|split; [reflexivity|reflexivity]].
  unfold GetLoadBalancer, bind, getLoadBalancer, call, GetLoadBalancerName.
  change (mkKey (onmetalNamespace o) (getLoadBalancerNameForService c svc)) with key.
  rewrite Hget. reflexivity.
Qed.

(* GetLoadBalancer has two outcomes only *)
Lemma GetLoadBalancer_outcomes (W : Type) (cl : Client W) (o : onmetalLoadBalancer)
    (c : string) (svc : Service) (w : W) :
  let '(status, found, err, _, _) := GetLoadBalancer cl o c svc w in
  (found = true /\ err = None /\ status <> None)
  \/ (found = false /\ err <> None /\ status = None).
Proof.
  unfold GetLoadBalancer, bind, getLoadBalancer, call.
  destruct (clGetLoadBalancer cl _ w) as [[lb|e] w1]; simpl; [left|right]; repeat split; discriminate.
Qed.

Lemma C7_delete_of_absent_succeeds_witness :
  let w := Cluster.world Cluster.objects [] None in
  let e := ErrNotFound "LoadBalancer shoot-web-2f5a9c1e not found" in
  MemStore.loadBalancers (MemStore.store w) !! ("ns", "shoot-web-2f5a9c1e") = None
  /\ IsNotFound e = true
  /\ EnsureLoadBalancerDeleted MemStore.client Cluster.provider "shoot" Cluster.service w
     = (None, w, [CDeleteLoadBalancer Cluster.lbKey (Some e)]).
Proof.
  intros w e. split; [reflexivity|]. split; [reflexivity|].
  apply (C7_delete_of_absent_succeeds MemStore.World MemStore.client Cluster.provider
           "shoot" Cluster.service w w e); reflexivity.
Defined.

Lemma C9_get_absent_reports_error_witness :
  let w := Cluster.world Cluster.objects [] None in
  MemStore.loadBalancers (MemStore.store w) !! ("ns", "shoot-web-2f5a9c1e") = None
  /\ exists err,
      GetLoadBalancer MemStore.client Cluster.provider "shoot" Cluster.service w
      = (None, false, Some err, w,
         [CGetLoadBalancer Cluster.lbKey (Err (ErrNotFound "LoadBalancer shoot-web-2f5a9c1e not found"))])
      /\ err = Errorf "failed to get LoadBalancer shoot-web-2f5a9c1e for Service default/web"
                 (ErrNotFound "LoadBalancer shoot-web-2f5a9c1e not found")
      /\ IsNotFound err = true.
Proof.
  intros w. split; [reflexivity|].
  apply (C9_get_absent_reports_error MemStore.World MemStore.client Cluster.provider
           "shoot" Cluster.service w w
           (ErrNotFound "LoadBalancer shoot-web-2f5a9c1e not found")).
  reflexivity.
Defined.

(* --------------------------------------------------------------------- *)
(* The activation wait: one polling attempt                               *)
(* --------------------------------------------------------------------- *)

Lemma ingressEqual_eq (l r : LoadBalancerIngress) : ingressEqual l r = true <-> l = r.
Proof.
  unfold ingressEqual. rewrite andb_true_iff, !String.eqb_eq.
  destruct l, r; simpl. split; [intros [-> ->]; reflexivity | intros E; now inversion E].
Qed.

Lemma ingressSliceEqual_eq (l r : list LoadBalancerIngress) :
  ingressSliceEqual l r = true <-> l = r.
Proof.
  revert r. induction l as [|x l IH]; intros [|y r]; simpl; try (split; congruence).
  rewrite andb_true_iff, ingressEqual_eq, IH. split; [intros [-> ->]; reflexivity|].
  intros E; now inversion E.
Qed.

Lemma LoadBalancerStatusEqual_eq (l r : LoadBalancerStatus) :
  LoadBalancerStatusEqual l r = true <-> l = r.
Proof.
  unfold LoadBalancerStatusEqual. rewrite ingressSliceEqual_eq.
  destruct l, r; simpl. split; [intros ->; reflexivity | intros E; now inversion E].
Qed.

(** C8: a polling attempt of the activation wait that fetches a load
    balancer with a non-empty status.ips computes the ingress from those
    addresses and reports not-ready, without error, exactly when the
    fetched spec type differs from the type recorded before the reconcile
    and the computed status equals the status the service reported
    before; in every other case it reports ready with the computed
    ingress. *)
Theorem C8_activation_guard :
  forall (W : Type) (onmetalClient : Client W) (existingLoadBalancerType : LoadBalancerType)
         (service : Service) (loadBalancer fetched : LoadBalancer)
         (loadBalancerStatus : LoadBalancerStatus) (w w' : W),
    clGetLoadBalancer onmetalClient (loadBalancerKey loadBalancer) w = (Ok fetched, w') ->
    lbStatusIPs fetched <> [] ->
    let computed := {| Ingress := ingressOf (lbStatusIPs fetched) |} in
    exists ready : bool,
      activeCondition onmetalClient existingLoadBalancerType service
        (loadBalancer, loadBalancerStatus) w
      = (fetched, computed, ready, None, w',
         [CGetLoadBalancer (loadBalancerKey loadBalancer) (Ok fetched)])
      /\ (ready = false <->
          lbType (lbSpec fetched) <> existingLoadBalancerType
          /\ svcStatusLoadBalancer service = computed).
Proof.
  intros W cl existing service lb fetched st w w' Hget Hips computed.
  unfold activeCondition, bind, getLoadBalancer, call. rewrite Hget.
  destruct (lbStatusIPs fetched) as [|ip ips] eqn:Eips; [contradiction|].
  cbn [length Nat.eqb]. fold computed.
  destruct (negb (String.eqb (lbType (lbSpec fetched)) existing)
            && LoadBalancerStatusEqual (svcStatusLoadBalancer service) computed) eqn:G.
  - exists false. split; [reflexivity|]. split; [intros _|reflexivity].
    apply andb_true_iff in G as [G1 G2].
    apply negb_true_iff, String.eqb_neq in G1.
    apply LoadBalancerStatusEqual_eq in G2. now split.
  - exists true. split; [reflexivity|]. split; [discriminate|].
    intros [G1 G2]. apply String.eqb_neq in G1.
    apply LoadBalancerStatusEqual_eq in G2. rewrite G1, G2 in G. discriminate.
Qed.

Lemma C8_activation_guard_witness :
  let lb := Scenario.stored "Public" [] ["10.0.0.1"] in
  let w := Cluster.world (Scenario.holding lb) [] None in
  let computed := {| Ingress := [ {| ingIP := "10.0.0.1"; ingHostname := "" |} ] |} in
  MemStore.get "LoadBalancer" MemStore.loadBalancers Cluster.lbKey w = (Ok lb, w)
  /\ lbStatusIPs lb <> []
  /\ exists ready : bool,
      activeCondition MemStore.client "Internal" (Scenario.reported ["10.0.0.1"])
        (Scenario.stored "" [] [], {| Ingress := [] |}) w
      = (lb, computed, ready, None, w, [CGetLoadBalancer Cluster.lbKey (Ok lb)])
      /\ (ready = false <->
          lbType (lbSpec lb) <> "Internal"
          /\ svcStatusLoadBalancer (Scenario.reported ["10.0.0.1"]) = computed).
Proof.
  intros lb w computed.
  split; [reflexivity|]. split; [discriminate|].
  apply (C8_activation_guard MemStore.World MemStore.client "Internal"
           (Scenario.reported ["10.0.0.1"]) (Scenario.stored "" [] []) lb
           {| Ingress := [] |} w w); [reflexivity | discriminate].
Defined.

(* on that input the attempt is deferred although the address is there *)
Example activation_deferred_after_type_flip :
  let lb := Scenario.stored "Public" [] ["10.0.0.1"] in
  let w := Cluster.world (Scenario.holding lb) [] None in
  fst (fst (activeCondition MemStore.client "Internal" (Scenario.reported ["10.0.0.1"])
              (Scenario.stored "" [] [], {| Ingress := [] |}) w))
  = (lb, {| Ingress := [ {| ingIP := "10.0.0.1"; ingHostname := "" |} ] |}, false, None).
Proof. reflexivity. Qed.

(* --------------------------------------------------------------------- *)
(* DestinationResolver: errors                                            *)
(* --------------------------------------------------------------------- *)

Section ResolverErrors.

Context {W : Type} (cl : Client W) (o : onmetalLoadBalancer).

Lemma machineNetworkInterfaces_resolved (m : Machine) (networkName : string)
    (nics : list MachineNIC) (acc : list LocalUIDReference) (w : W) :
  let '(r, _, j) := machineNetworkInterfaces cl o m nics networkName acc w in
  resolved r j /\ Forall (fun c => match c with CGetMachine _ _ => False | _ => True end) j.
Proof.
  revert acc w. induction nics as [|nic nics IH]; intros acc w.
  - simpl. split; [left; eauto | constructor].
  - cbn [machineNetworkInterfaces]. unfold bind, getNetworkInterface, call.
    destruct (clGetNetworkInterface cl _ w) as [[ni|e] w1].
    + match goal with |- context [machineNetworkInterfaces cl o m nics networkName ?a w1] =>
        specialize (IH a w1);
        destruct (machineNetworkInterfaces cl o m nics networkName a w1) as [[r w2] j2]
      end.
      destruct IH as [IH1 IH2]. split; [|constructor; [exact I | exact IH2]].
      destruct IH1 as [(l & -> & F) | [(j1 & k & e & msg & -> & F & ->) | (j1 & k & e & msg & -> & _ & F & ->)]].
      * left. exists l. split; [reflexivity|]. constructor; [exact I | exact F].
      * right; left. eexists (_ :: j1), k, e, msg. repeat split. constructor; [exact I | exact F].
      * exfalso. apply Forall_app in IH2 as [_ IH2]. inversion IH2; subst. assumption.
    + split; [|repeat constructor].
      right; left. eexists [], _, e, _. repeat split. constructor.
Qed.

Lemma nodesNetworkInterfaces_resolved (networkName : string) (nodes : list Node)
    (acc : list LocalUIDReference) (w : W) :
  let '(r, _, j) := nodesNetworkInterfaces cl o nodes networkName acc w in resolved r j.
Proof.
  revert acc w. induction nodes as [|node nodes IH]; intros acc w.
  - simpl. left; eauto.
  - cbn [nodesNetworkInterfaces]. unfold bind, getMachine, call.
    set (km := mkKey (onmetalNamespace o)
                 (extractMachineNameFromProviderID (nodeProviderID node))).
    destruct (clGetMachine cl km w) as [rm w1].
    destruct (IgnoreNotFound (errOf rm)) as [err|] eqn:Eign.
    + destruct rm as [m|e]; [discriminate|]. simpl in Eign.
      destruct (IsNotFound e) eqn:Enf; [discriminate|]. injection Eign as <-.
      right; right. eexists [], _, e, _. repeat split; [assumption | constructor].
    + assert (Hpass : passes (CGetMachine km rm)).
      { destruct rm as [m|e]; [exact I|]. simpl in *. destruct (IsNotFound e); [reflexivity|discriminate]. }
      match goal with |- context [machineNetworkInterfaces cl o ?m ?ns networkName acc w1] =>
        pose proof (machineNetworkInterfaces_resolved m networkName ns acc w1) as Hin;
        destruct (machineNetworkInterfaces cl o m ns networkName acc w1) as [[ri w2] ji]
      end.
      destruct Hin as [Hin _].
      destruct ri as [l|err].
      * specialize (IH l w2).
        destruct (nodesNetworkInterfaces cl o nodes networkName l w2) as [[r w3] j3].
        assert (Fi : Forall passes ji).
        { destruct Hin as [(l0 & _ & F) | [(? & ? & ? & ? & _ & _ & D) | (? & ? & ? & ? & _ & _ & _ & D)]];
            [exact F | discriminate | discriminate]. }
        destruct IH as [(l1 & -> & F) | [(j1 & k & e & msg & -> & F & ->) | (j1 & k & e & msg & -> & N & F & ->)]].
        -- left. exists l1. split; [reflexivity|].
           constructor; [exact Hpass|]. rewrite app_nil_r || idtac. apply Forall_app; split; assumption.
        -- right; left. exists (CGetMachine km rm :: ji ++ j1)%list, k, e, msg.
           split; [simpl; now rewrite <- app_assoc|]. split; [|reflexivity].
           constructor; [exact Hpass|]. apply Forall_app; split; assumption.
        -- right; right. exists (CGetMachine km rm :: ji ++ j1)%list, k, e, msg.
           split; [simpl; now rewrite <- app_assoc|]. split; [assumption|]. split; [|reflexivity].
           constructor; [exact Hpass|]. apply Forall_app; split; assumption.
      * destruct Hin as [(l0 & D & _) | [(j1 & k & e & msg & -> & F & E) | (j1 & k & e & msg & -> & N & F & E)]];
          [discriminate | |].
        -- injection E as ->. right; left.
           exists (CGetMachine km rm :: j1)%list, k, e, msg.
           split; [simpl; now rewrite app_nil_r|]. split; [|reflexivity].
           constructor; assumption.
        -- injection E as ->. right; right.
           exists (CGetMachine km rm :: j1)%list, k, e, msg.
           split; [simpl; now rewrite app_nil_r|]. repeat split; try assumption.
           constructor; assumption.
Qed.

End ResolverErrors.

Lemma LastIndex_without (s : string) (sep : ascii) :
  GoStrings.contains s sep = false -> GoStrings.LastIndex s sep = None.
Proof.
  induction s as [|c s IH]; simpl; [reflexivity|].
  intros H. apply orb_false_iff in H as [H1 H2]. now rewrite (IH H2), H1.
Qed.

Section ProviderIDs.

Lemma LastIndex_tail (s : string) (sep : ascii) (i : nat) :
  GoStrings.LastIndex s sep = Some i ->
  (i < String.length s)%nat
  /\ GoStrings.contains (GoStrings.from (S i) s) sep = false.
Proof.
  revert i. induction s as [|c s IH]; intros i; simpl; [discriminate|].
  destruct (GoStrings.LastIndex s sep) as [k|] eqn:E.
  - intros [= <-]. destruct (IH k eq_refl) as [Hlt Hc]. split; [lia|].
    exact Hc.
  - destruct (Ascii.eqb c sep); [|discriminate]. intros [= <-]. split; [lia|].
    destruct s as [|d s]; [reflexivity|].
    clear IH. revert E. generalize (String d s). clear. intros s.
    induction s as [|c s IH]; simpl; [reflexivity|].
    destruct (GoStrings.LastIndex s sep); [discriminate|].
    destruct (Ascii.eqb c sep); [discriminate|]. intros _. now apply IH.
Qed.

Lemma LastIndex_append (prefix name : string) (sep : ascii) :
  GoStrings.contains name sep = false ->
  GoStrings.LastIndex (prefix ++ String sep name) sep = Some (String.length prefix).
Proof.
  intros H. induction prefix as [|c p IH].
  - rewrite append_nil. simpl. rewrite (LastIndex_without name sep H).
    now rewrite Ascii.eqb_refl.
  - rewrite append_cons. simpl. now rewrite IH.
Qed.

Lemma from_append (prefix rest : string) :
  GoStrings.from (String.length prefix) (prefix ++ rest) = rest.
Proof.
  induction prefix as [|c p IH]; [rewrite append_nil; now destruct rest|].
  rewrite append_cons. simpl. exact IH.
Qed.

Lemma length_append (a b : string) :
  String.length (a ++ b) = (String.length a + String.length b)%nat.
Proof.
  induction a as [|c a IH]; [now rewrite append_nil|].
  rewrite append_cons. simpl. now rewrite IH.
Qed.

(* whatever stands before the last slash, the name after it is returned *)
Lemma machine_name_after_last_slash (prefix name : string) :
  GoStrings.contains name slash = false ->
  extractMachineNameFromProviderID (prefix ++ "/" ++ name) = name.
Proof.
  intros Hname. unfold extractMachineNameFromProviderID.
  change ("/" ++ name) with (String slash name).
  rewrite (LastIndex_append prefix name slash Hname).
  rewrite length_append.
  destruct name as [|c name]; cbn [String.length].
  + destruct (Nat.leb_spec (String.length prefix + 1) (String.length prefix + 1)); [reflexivity|lia].
  + destruct (Nat.leb_spec (String.length prefix + S (S (String.length name)))
                (String.length prefix + 1)); [lia|].
    replace (String.length prefix + 1)%nat with (String.length (prefix ++ String slash ""))
      by (rewrite length_append; reflexivity).
    replace (prefix ++ String slash (String c name))
      with ((prefix ++ String slash "") ++ String c name)
      by (rewrite append_assoc; reflexivity).
    apply from_append.
Qed.

End ProviderIDs.

(** C3, as stated, fails: a node whose provider ID holds no machine name
    is not skipped as such.  It is looked up under the empty name, and
    when that lookup is answered with an error other than not-found, as a
    client answers a Get without a name, the resolution aborts with that
    error wrapped: the second node, whose interface sits on the network,
    is never looked at, although alone it resolves to its interface. *)
Lemma C3_node_without_machine_name_aborts :
  let refused := ErrPlain "resource name may not be empty" in
  let unnamed := {| nodeName := "n0"; nodeProviderID := "onmetal-n0" |} in
  let w := Cluster.world Cluster.objects [MemStore.failing refused] None in
  extractMachineNameFromProviderID (nodeProviderID unnamed) = ""
  /\ IsNotFound refused = false
  /\ getNetworkInterfacesForNodes MemStore.client Cluster.provider
       [unnamed; Cluster.node "m2"] "net" w
     = (Err (Errorf "failed to get machine object for node n0" refused),
        Cluster.world Cluster.objects [] None,
        [CGetMachine (mkKey "ns" "") (Err refused)])
  /\ fst (fst (getNetworkInterfacesForNodes MemStore.client Cluster.provider
                 [Cluster.node "m2"] "net" (Cluster.world Cluster.objects [] None)))
     = Ok [ {| refName := "m2-nic"; refUID := "uid-a" |} ].
Proof. repeat split; vm_compute; reflexivity. Qed.

(** C3, amended: in the resolver, a node whose machine lookup is answered
    with not-found adds nothing and the resolution goes on with the
    remaining nodes from the references gathered so far; a node whose
    machine lookup fails with any other error aborts the resolution with
    that error wrapped, as its last call; a provider ID without "/" or
    with nothing after its last "/" gives the empty machine name, so that
    node is looked up under the empty name like any other node, skipped
    when the lookup is answered with not-found and aborting otherwise;
    and a run ends in one of three ways only: with the references, no
    interface fetch having failed and every failed machine lookup having
    been not-found, or with a wrapped error right after the first failed
    interface fetch, whatever its error, or right after the first machine
    lookup that failed otherwise.  An error comes without references. *)
Theorem C3_resolver_skips_and_aborts :
  forall (W : Type) (onmetalClient : Client W) (o : onmetalLoadBalancer) (networkName : string),
    (forall (node : Node) (rest : list Node) (gathered : list LocalUIDReference)
            (w w1 : W) (e : Error),
        let key := mkKey (onmetalNamespace o)
                     (extractMachineNameFromProviderID (nodeProviderID node)) in
        clGetMachine onmetalClient key w = (Err e, w1) ->
        IsNotFound e = true ->
        nodesNetworkInterfaces onmetalClient o (node :: rest) networkName gathered w
        = (let '(r, w2, j) :=
             nodesNetworkInterfaces onmetalClient o rest networkName gathered w1 in
           (r, w2, CGetMachine key (Err e) :: j)))
    /\ (forall (node : Node) (rest : list Node) (gathered : list LocalUIDReference)
               (w w1 : W) (e : Error),
          let key := mkKey (onmetalNamespace o)
                       (extractMachineNameFromProviderID (nodeProviderID node)) in
          clGetMachine onmetalClient key w = (Err e, w1) ->
          IsNotFound e = false ->
          nodesNetworkInterfaces onmetalClient o (node :: rest) networkName gathered w
          = (Err (Errorf ("failed to get machine object for node " ++ nodeName node) e), w1,
             [CGetMachine key (Err e)]))
    /\ (forall providerID : string,
          GoStrings.contains providerID slash = false
          \/ (exists prefix, providerID = prefix ++ "/") ->
          extractMachineNameFromProviderID providerID = "")
    /\ (forall (nodes : list Node) (w : W),
          let '(r, _, j) := getNetworkInterfacesForNodes onmetalClient o nodes networkName w in
          resolved r j).
Proof.
  intros W cl o net. split; [|split; [|split]].
  - intros node rest acc w w1 e key Hget Hnf.
    cbn [nodesNetworkInterfaces]. unfold bind at 1. unfold getMachine, call.
    fold key. rewrite Hget. cbn [errOf IgnoreNotFound]. rewrite Hnf.
    unfold bind at 1. cbn [emptyMachine mNetworkInterfaces machineNetworkInterfaces].
    unfold ret at 1.
    destruct (nodesNetworkInterfaces cl o rest net acc w1) as [[r w2] j]. reflexivity.
  - intros node rest acc w w1 e key Hget Hnf.
    cbn [nodesNetworkInterfaces]. unfold bind at 1. unfold getMachine, call.
    fold key. rewrite Hget. cbn [errOf IgnoreNotFound]. rewrite Hnf.
    reflexivity.
  - intros pid [H | [prefix ->]].
    + unfold extractMachineNameFromProviderID. now rewrite (LastIndex_without _ _ H).
    + exact (machine_name_after_last_slash prefix "" eq_refl).
  - intros nodes w. apply nodesNetworkInterfaces_resolved.
Qed.

Lemma C3_resolver_skips_and_aborts_witness :
  let w := Cluster.world Cluster.objects [] None in
  let unnamed := {| nodeName := "n0"; nodeProviderID := "onmetal://ns/" |} in
  let e := ErrNotFound "Machine  not found" in
  let refused := ErrPlain "resource name may not be empty" in
  let w' := Cluster.world Cluster.objects [MemStore.failing refused] None in
  extractMachineNameFromProviderID (nodeProviderID unnamed) = ""
  /\ clGetMachine MemStore.client (mkKey "ns" "") w = (Err e, w)
  /\ IsNotFound e = true
  /\ nodesNetworkInterfaces MemStore.client Cluster.provider [unnamed; Cluster.node "m2"] "net" [] w
     = (Ok [ {| refName := "m2-nic"; refUID := "uid-a" |} ], w,
        [ CGetMachine (mkKey "ns" "") (Err e);
          CGetMachine (mkKey "ns" "m2") (Ok (Cluster.machine "m2" [Cluster.attach "primary" "m2-nic"]));
          CGetNetworkInterface (mkKey "ns" "m2-nic") (Ok (Cluster.nic "m2-nic" "uid-a" "net")) ])
  /\ clGetMachine MemStore.client (mkKey "ns" "") w' = (Err refused, w)
  /\ IsNotFound refused = false
  /\ nodesNetworkInterfaces MemStore.client Cluster.provider [unnamed; Cluster.node "m2"] "net" [] w'
     = (Err (Errorf "failed to get machine object for node n0" refused), w,
        [CGetMachine (mkKey "ns" "") (Err refused)]).
Proof.
  intros w unnamed e refused w'.
  pose proof (C3_resolver_skips_and_aborts MemStore.World MemStore.client Cluster.provider "net")
    as [skip [abort [noname _]]].
  split; [apply noname; right; now exists "onmetal://ns"|].
  split; [reflexivity|]. split; [reflexivity|]. split.
  - rewrite (skip unnamed [Cluster.node "m2"] [] w w e); reflexivity.
  - split; [reflexivity|]. split; [reflexivity|].
    rewrite (abort unnamed [Cluster.node "m2"] [] w' w refused); reflexivity.
Defined.

(* an interface that cannot be fetched stops the resolution, also when it
   is only not found and sits on the second node *)
Example missing_interface_aborts :
  let st := MemStore.Build_Store ∅ ∅ (MemStore.machines Cluster.objects)
              (delete ("ns", "m1-foo") (MemStore.networkInterfaces Cluster.objects))
              (MemStore.networks Cluster.objects) in
  fst (fst (getNetworkInterfacesForNodes MemStore.client Cluster.provider
              [Cluster.node "m2"; Cluster.node "m1"] "net" (Cluster.world st [] None)))
  = Err (Errorf "failed to get network interface / for machine ns/m1"
           (ErrNotFound "NetworkInterface m1-foo not found")).
Proof. reflexivity. Qed.

(* --------------------------------------------------------------------- *)
(* DestinationResolver: order and duplicates                              *)
(* --------------------------------------------------------------------- *)

Section StringOrder.

Lemma ascii_compare_refl (a : ascii) : Ascii.compare a a = Eq.
Proof. unfold Ascii.compare. apply N.compare_refl. Qed.

Lemma ascii_compare_trans (a b c : ascii) (r : comparison) :
  Ascii.compare a b = r -> Ascii.compare b c = r -> Ascii.compare a c = r.
Proof.
  unfold Ascii.compare. destruct r; intros H1 H2.
  - apply N.compare_eq_iff in H1, H2. apply N.compare_eq_iff. congruence.
  - apply N.compare_lt_iff in H1, H2. apply N.compare_lt_iff. eapply N.lt_trans; eassumption.
  - apply N.compare_gt_iff in H1, H2. apply N.compare_gt_iff. eapply N.lt_trans; eassumption.
Qed.

Lemma string_compare_not_gt_trans (a b c : string) :
  String.compare a b <> Gt -> String.compare b c <> Gt -> String.compare a c <> Gt.
Proof.
  revert b c. induction a as [|x a IH]; intros [|y b] [|z c]; simpl; try congruence.
  destruct (Ascii.compare x y) eqn:Exy; destruct (Ascii.compare y z) eqn:Eyz;
    try congruence; intros H1 H2.
  - apply Ascii.compare_eq_iff in Exy, Eyz. subst. rewrite ascii_compare_refl. eauto.
  - apply Ascii.compare_eq_iff in Exy. subst. rewrite Eyz. congruence.
  - apply Ascii.compare_eq_iff in Eyz. subst. rewrite Exy. congruence.
  - rewrite (ascii_compare_trans x y z Lt Exy Eyz). congruence.
Qed.

Lemma string_leb_not_gt (a b : string) : String.leb a b = true <-> String.compare a b <> Gt.
Proof. unfold String.leb. destruct (String.compare a b); split; congruence. Qed.

Lemma string_leb_trans (a b c : string) :
  String.leb a b = true -> String.leb b c = true -> String.leb a c = true.
Proof. rewrite !string_leb_not_gt. apply string_compare_not_gt_trans. Qed.

Lemma string_ltb_leb (a b : string) : String.ltb a b = true -> String.leb a b = true.
Proof. unfold String.ltb, String.leb. destruct (String.compare a b); congruence. Qed.

Lemma string_not_ltb_leb (a b : string) : String.ltb a b = false -> String.leb b a = true.
Proof.
  unfold String.ltb, String.leb. rewrite (String.compare_antisym b a).
  destruct (String.compare a b); simpl; congruence.
Qed.

End StringOrder.

Section SortSlice.

Lemma uidLe_trans (a b c : LocalUIDReference) : uidLe a b -> uidLe b c -> uidLe a c.
Proof. apply string_leb_trans. Qed.

Lemma insertByUID_Permutation (x : LocalUIDReference) (l : list LocalUIDReference) :
  Permutation (insertByUID x l) (x :: l).
Proof.
  induction l as [|y l IH]; simpl; [reflexivity|].
  destruct (uidLess x y); [reflexivity|].
  rewrite IH. apply perm_swap.
Qed.

Lemma insertByUID_sorted (x : LocalUIDReference) (l : list LocalUIDReference) :
  StronglySorted uidLe l -> StronglySorted uidLe (insertByUID x l).
Proof.
  induction l as [|y l IH]; simpl; intros H.
  - repeat constructor.
  - inversion H as [|? ? Hl Hy]; subst.
    destruct (uidLess x y) eqn:E.
    + constructor; [exact H|].
      apply string_ltb_leb in E. constructor; [exact E|].
      eapply Forall_impl; [exact Hy|]. intros z Hz. eapply uidLe_trans; eassumption.
    + constructor; [apply IH; exact Hl|].
      rewrite (insertByUID_Permutation x l).
      constructor; [apply string_not_ltb_leb; exact E | exact Hy].
Qed.

Lemma sortSliceByUID_Permutation (l : list LocalUIDReference) :
  Permutation (sortSliceByUID l) l.
Proof.
  induction l as [|x l IH]; simpl; [reflexivity|].
  rewrite insertByUID_Permutation. now constructor.
Qed.

Lemma sortSliceByUID_sorted (l : list LocalUIDReference) :
  StronglySorted uidLe (sortSliceByUID l).
Proof.
  induction l as [|x l IH]; simpl; [constructor|]. now apply insertByUID_sorted.
Qed.

End SortSlice.

Section ResolverOrder.

Context {W : Type} (cl : Client W) (o : onmetalLoadBalancer) (networkName : string).

Lemma machineNetworkInterfaces_reads (m : Machine) (nics : list MachineNIC)
    (acc : list LocalUIDReference) (w : W) :
  Forall resolverCall (snd (machineNetworkInterfaces cl o m nics networkName acc w)).
Proof.
  revert acc w. induction nics as [|nic nics IH]; intros acc w; [constructor|].
  cbn [machineNetworkInterfaces]. unfold bind, getNetworkInterface, call.
  destruct (clGetNetworkInterface cl _ w) as [[ni|e] w1].
  - match goal with |- context [machineNetworkInterfaces cl o m nics networkName ?a w1] =>
      specialize (IH a w1);
      destruct (machineNetworkInterfaces cl o m nics networkName a w1) as [[r w2] j2]
    end.
    constructor; [exact I | exact IH].
  - repeat constructor.
Qed.

Lemma nodesNetworkInterfaces_reads (nodes : list Node) (acc : list LocalUIDReference) (w : W) :
  Forall resolverCall (snd (nodesNetworkInterfaces cl o nodes networkName acc w)).
Proof.
  revert acc w. induction nodes as [|node nodes IH]; intros acc w; [constructor|].
  cbn [nodesNetworkInterfaces]. unfold bind, getMachine, call.
  destruct (clGetMachine cl _ w) as [rm w1].
  destruct (IgnoreNotFound (errOf rm)); [repeat constructor|].
  match goal with |- context [machineNetworkInterfaces cl o ?m ?ns networkName acc w1] =>
    pose proof (machineNetworkInterfaces_reads m ns acc w1) as Hin;
    destruct (machineNetworkInterfaces cl o m ns networkName acc w1) as [[ri w2] ji]
  end.
  simpl in Hin. destruct ri as [l|err].
  - specialize (IH l w2).
    destruct (nodesNetworkInterfaces cl o nodes networkName l w2) as [[r w3] j3].
    constructor; [exact I|]. apply Forall_app; split; assumption.
  - constructor; [exact I|]. rewrite app_nil_r. exact Hin.
Qed.

(* the reads the resolver makes are answered the same way before and
   after, as far as the state goes *)
Variable w : W.
Hypothesis machines_stable : forall k, snd (clGetMachine cl k w) = w.
Hypothesis interfaces_stable : forall k, snd (clGetNetworkInterface cl k w) = w.

Lemma machineNetworkInterfaces_stable (m : Machine) (nics : list MachineNIC)
    (acc : list LocalUIDReference) :
  exists j,
    machineNetworkInterfaces cl o m nics networkName acc w
    = (match fst (fst (machineNetworkInterfaces cl o m nics networkName [] w)) with
       | Ok l => Ok (acc ++ l)%list
       | Err e => Err e
       end, w, j).
Proof.
  revert acc. induction nics as [|nic nics IH]; intros acc.
  - eexists. simpl. unfold ret. now rewrite app_nil_r.
  - cbn [machineNetworkInterfaces]. unfold bind, getNetworkInterface, call.
    specialize (interfaces_stable (mkKey (onmetalNamespace o)
      match mnNetworkInterfaceRef nic with
      | Some name => name
      | None => mName m ++ "-" ++ mnName nic
      end)).
    destruct (clGetNetworkInterface cl _ w) as [[ni|e] w1]; simpl in interfaces_stable; subst w1.
    + destruct (String.eqb (nicNetworkRef ni) networkName).
      * destruct (IH (acc ++ [ {| refName := nicName ni; refUID := nicUID ni |} ])%list) as [j1 E1].
        destruct (IH ([] ++ [ {| refName := nicName ni; refUID := nicUID ni |} ])%list) as [j2 E2].
        rewrite E1, E2. simpl.
        destruct (fst (fst (machineNetworkInterfaces cl o m nics networkName [] w)));
          eexists; rewrite <- ?app_assoc; reflexivity.
      * destruct (IH acc) as [j1 E1]. destruct (IH []) as [j2 E2].
        rewrite E1, E2. simpl.
        destruct (fst (fst (machineNetworkInterfaces cl o m nics networkName [] w)));
          eexists; reflexivity.
    + eexists. reflexivity.
Qed.

Lemma nodesNetworkInterfaces_stable (nodes : list Node) (acc : list LocalUIDReference) :
  exists j,
    nodesNetworkInterfaces cl o nodes networkName acc w
    = (match gatherReferences cl o networkName w nodes with
       | Ok l => Ok (acc ++ l)%list
       | Err e => Err e
       end, w, j).
Proof.
  revert acc. induction nodes as [|node nodes IH]; intros acc.
  - eexists. simpl. unfold ret. now rewrite app_nil_r.
  - cbn [gatherReferences]. unfold nodeReferences.
    cbn [nodesNetworkInterfaces]. unfold bind, getMachine, call.
    specialize (machines_stable (mkKey (onmetalNamespace o)
      (extractMachineNameFromProviderID (nodeProviderID node)))).
    destruct (clGetMachine cl _ w) as [rm w1]; simpl in machines_stable; subst w1.
    destruct (IgnoreNotFound (errOf rm)); [eexists; reflexivity|].
    match goal with |- context [machineNetworkInterfaces cl o ?m ?ns networkName acc w] =>
      destruct (machineNetworkInterfaces_stable m ns acc) as [j1 E1];
      destruct (machineNetworkInterfaces_stable m ns []) as [j2 E2];
      rewrite E1, E2;
      destruct (fst (fst (machineNetworkInterfaces cl o m ns networkName [] w))) as [l|e]
    end.
    + cbn [app fst snd]. unfold ret.
      destruct (IH (acc ++ l)%list) as [j3 E3]. rewrite E3.
      destruct (gatherReferences cl o networkName w nodes);
        eexists; rewrite <- ?app_assoc; reflexivity.
    + eexists. reflexivity.
Qed.

Lemma gatherReferences_Permutation (nodes nodes' : list Node) :
  Permutation nodes nodes' ->
  sameReferences (gatherReferences cl o networkName w nodes)
                 (gatherReferences cl o networkName w nodes').
Proof.
  induction 1 as [|x l l' _ IH|x y l|l l' l'' _ IH1 _ IH2].
  - simpl. constructor.
  - cbn [gatherReferences]. destruct (nodeReferences cl o networkName w x); [|exact I].
    destruct (gatherReferences cl o networkName w l), (gatherReferences cl o networkName w l');
      simpl in *; try contradiction; try exact I.
    now apply Permutation_app_head.
  - cbn [gatherReferences].
    destruct (nodeReferences cl o networkName w x), (nodeReferences cl o networkName w y),
      (gatherReferences cl o networkName w l); simpl; try exact I.
    rewrite !app_assoc. apply Permutation_app_tail, Permutation_app_comm.
  - destruct (gatherReferences cl o networkName w l), (gatherReferences cl o networkName w l'),
      (gatherReferences cl o networkName w l''); simpl in *; try contradiction; try exact I.
    etransitivity; eassumption.
Qed.

Lemma getNetworkInterfacesForNodes_Permutation (nodes nodes' : list Node) :
  Permutation nodes nodes' ->
  sameReferences (fst (fst (getNetworkInterfacesForNodes cl o nodes networkName w)))
                 (fst (fst (getNetworkInterfacesForNodes cl o nodes' networkName w))).
Proof.
  intros P. unfold getNetworkInterfacesForNodes.
  destruct (nodesNetworkInterfaces_stable nodes []) as [j E].
  destruct (nodesNetworkInterfaces_stable nodes' []) as [j' E'].
  rewrite E, E'. simpl.
  pose proof (gatherReferences_Permutation nodes nodes' P) as G.
  destruct (gatherReferences cl o networkName w nodes),
    (gatherReferences cl o networkName w nodes'); exact G.
Qed.

End ResolverOrder.

(* reduce the monadic plumbing of a run whose calls are all resolved *)
Ltac finish_run := unfold ret; cbv beta iota zeta; cbn [fst snd].

Lemma appliedDestinations_app (j1 j2 : Journal) :
  appliedDestinations (j1 ++ j2)%list = (appliedDestinations j1 ++ appliedDestinations j2)%list.
Proof. apply flat_map_app. Qed.

Lemma patchedDestinations_app (j1 j2 : Journal) :
  patchedDestinations (j1 ++ j2)%list = (patchedDestinations j1 ++ patchedDestinations j2)%list.
Proof. apply flat_map_app. Qed.

Lemma resolver_writes_nothing (j : Journal) :
  Forall resolverCall j -> appliedDestinations j = [] /\ patchedDestinations j = [].
Proof.
  induction 1 as [|c j Hc _ [IH1 IH2]]; [now split|].
  destruct c; try contradiction; simpl; now split.
Qed.

Lemma SetOwnerReference_destinations (owner : LoadBalancer) (lbr lbr' : LoadBalancerRouting) :
  SetOwnerReference owner lbr = Ok lbr' -> lbrDestinations lbr' = lbrDestinations lbr.
Proof.
  unfold SetOwnerReference. destruct (validateOwner _ _); [discriminate|]. now intros [= <-].
Qed.

(* the ensure path writes the resolver's references, sorted *)
Lemma applied_routing_destinations {W : Type} (cl : Client W) (o : onmetalLoadBalancer)
    (loadBalancer : LoadBalancer) (nodes : list Node) (w : W) :
  forall destinations,
    In destinations
       (appliedDestinations
          (snd (applyLoadBalancerRoutingForLoadBalancer cl o loadBalancer nodes w))) ->
    exists l,
      fst (fst (getNetworkInterfacesForNodes cl o nodes
                  (lbNetworkRef (lbSpec loadBalancer)) w)) = Ok l
      /\ destinations = sortSliceByUID l.
Proof.
  intros d. unfold applyLoadBalancerRoutingForLoadBalancer, bind.
  pose proof (nodesNetworkInterfaces_reads cl o (lbNetworkRef (lbSpec loadBalancer)) nodes [] w)
    as Hreads.
  unfold getNetworkInterfacesForNodes.
  destruct (nodesNetworkInterfaces cl o nodes (lbNetworkRef (lbSpec loadBalancer)) [] w)
    as [[r w1] j1].
  simpl in Hreads. apply resolver_writes_nothing in Hreads as [Hnone _].
  destruct r as [l|e]; cbn [snd fst].
  - unfold getNetwork, call.
    destruct (clGetNetwork cl _ w1) as [[network|e] w2].
    + destruct (SetOwnerReference loadBalancer _) as [lbr|e] eqn:Eown.
      * unfold applyLoadBalancerRouting, call.
        destruct (clApplyLoadBalancerRouting cl lbr w2) as [[stored|e] w3];
          finish_run; rewrite !appliedDestinations_app, Hnone; simpl;
          (intros [<-|[]]; exists l; split; [reflexivity|];
           now rewrite (SetOwnerReference_destinations _ _ _ Eown)).
      * finish_run. rewrite !appliedDestinations_app, Hnone. simpl. intros [].
    + finish_run. rewrite !appliedDestinations_app, Hnone. simpl. intros [].
  - finish_run. rewrite app_nil_r, Hnone. intros [].
Qed.

(* the update path writes the resolver's references as they come *)
Lemma patched_routing_destinations {W : Type} (cl : Client W) (o : onmetalLoadBalancer)
    (clusterName : string) (service : Service) (nodes : list Node) (w : W) :
  forall destinations,
    In destinations
       (patchedDestinations (snd (UpdateLoadBalancer cl o clusterName service nodes w))) ->
    exists (networkName : string) (w2 : W),
      fst (fst (getNetworkInterfacesForNodes cl o nodes networkName w2)) = Ok destinations.
Proof.
  intros d. unfold UpdateLoadBalancer.
  destruct (length nodes =? 0)%nat; [intros []|].
  unfold bind, getLoadBalancer, getLoadBalancerRouting, call.
  destruct (clGetLoadBalancer cl _ w) as [[lb|e] w1]; [|finish_run; intros [] ].
  destruct (clGetLoadBalancerRouting cl _ w1) as [[lbr|e] w2]; [|finish_run; intros [] ].
  pose proof (nodesNetworkInterfaces_reads cl o (lbNetworkRef (lbSpec lb)) nodes [] w2) as Hreads.
  unfold getNetworkInterfacesForNodes.
  destruct (nodesNetworkInterfaces cl o nodes (lbNetworkRef (lbSpec lb)) [] w2)
    as [[r w3] j3] eqn:Eres.
  simpl in Hreads. apply resolver_writes_nothing in Hreads as [_ Hnone].
  destruct r as [l|e]; cbn [snd fst].
  - unfold mergePatchLoadBalancerRouting, call.
    destruct (clMergePatchLoadBalancerRouting cl _ _ w3) as [[stored|e] w4];
      finish_run;
      rewrite !(patchedDestinations_app [_]), !patchedDestinations_app, Hnone; simpl;
      (intros [<-|[]]; exists (lbNetworkRef (lbSpec lb)), w2; now rewrite Eres).
  - finish_run.
    rewrite !(patchedDestinations_app [_]), !patchedDestinations_app, Hnone. intros [].
Qed.

(* with nothing left in its script, the in-memory server answers reads
   without changing *)
Lemma MemStore_get_stable {T : Type} (kind : string)
    (objects : MemStore.Store -> gmap (string * string) T) (w : MemStore.World) :
  MemStore.future w = [] -> forall k, snd (MemStore.get kind objects k w) = w.
Proof.
  intros Hfut k. unfold MemStore.get, MemStore.serve. rewrite Hfut. simpl.
  unfold MemStore.withStore. destruct w; simpl in *; now subst.
Qed.

(** C2, as stated, fails: two different nodes whose provider IDs end in
    the same machine name resolve to the same machine, and the routing
    object is applied with that machine's interface listed twice. *)
Lemma C2_same_interface_listed_twice :
  let nodes := [ {| nodeName := "a"; nodeProviderID := "onmetal://ns/m2" |};
                 {| nodeName := "b"; nodeProviderID := "onmetal://other/m2" |} ] in
  let reference := {| refName := "m2-nic"; refUID := "uid-a" |} in
  List.NoDup nodes
  /\ appliedDestinations
       (snd (applyLoadBalancerRoutingForLoadBalancer MemStore.client Cluster.provider
               (Scenario.stored "Public" [] []) nodes
               (Cluster.world Cluster.objects [] None)))
     = [[reference; reference]]
  /\ ~ List.NoDup [reference; reference].
Proof.
  intros nodes reference. split; [|split].
  - constructor; [intros [H|[]]; discriminate|]. constructor; [intros []|constructor].
  - reflexivity.
  - intros H. inversion H as [|? ? Hin _]; subst. apply Hin. now left.
Qed.

(** C2, amended: the destinations applied in the ensure path are the
    references the resolver returns for the node list, each as often as
    the resolver returns it (nothing is removed), sorted ascending by UID;
    the destinations patched in the update path are the references the
    resolver returns; and on a server whose answers to reads do not
    change, the resolver returns for a permutation of the node list the
    same references the same number of times, or fails for both, so the
    ensure path then applies the same references for both. *)
Theorem C2_destinations_sorted_and_permutation_invariant :
  forall (W : Type) (onmetalClient : Client W) (o : onmetalLoadBalancer),
    (forall (loadBalancer : LoadBalancer) (nodes : list Node) (w : W)
            (destinations : list LocalUIDReference),
        In destinations
           (appliedDestinations
              (snd (applyLoadBalancerRoutingForLoadBalancer onmetalClient o
                      loadBalancer nodes w))) ->
        StronglySorted uidLe destinations
        /\ exists l,
             fst (fst (getNetworkInterfacesForNodes onmetalClient o nodes
                         (lbNetworkRef (lbSpec loadBalancer)) w)) = Ok l
             /\ Permutation destinations l)
    /\ (forall (clusterName : string) (service : Service) (nodes : list Node) (w : W)
               (destinations : list LocalUIDReference),
          In destinations
             (patchedDestinations
                (snd (UpdateLoadBalancer onmetalClient o clusterName service nodes w))) ->
          exists (networkName : string) (w2 : W),
            fst (fst (getNetworkInterfacesForNodes onmetalClient o nodes networkName w2))
            = Ok destinations)
    /\ (forall (networkName : string) (w : W) (nodes nodes' : list Node),
          (forall k, snd (clGetMachine onmetalClient k w) = w) ->
          (forall k, snd (clGetNetworkInterface onmetalClient k w) = w) ->
          Permutation nodes nodes' ->
          sameReferences
            (fst (fst (getNetworkInterfacesForNodes onmetalClient o nodes networkName w)))
            (fst (fst (getNetworkInterfacesForNodes onmetalClient o nodes' networkName w))))
    /\ (forall (loadBalancer : LoadBalancer) (w : W) (nodes nodes' : list Node)
               (destinations destinations' : list LocalUIDReference),
          (forall k, snd (clGetMachine onmetalClient k w) = w) ->
          (forall k, snd (clGetNetworkInterface onmetalClient k w) = w) ->
          Permutation nodes nodes' ->
          In destinations
             (appliedDestinations
                (snd (applyLoadBalancerRoutingForLoadBalancer onmetalClient o
                        loadBalancer nodes w))) ->
          In destinations'
             (appliedDestinations
                (snd (applyLoadBalancerRoutingForLoadBalancer onmetalClient o
                        loadBalancer nodes' w))) ->
          Permutation destinations destinations').
Proof.
  intros W cl o. split; [|split; [|split]].
  - intros lb nodes w d Hin.
    destruct (applied_routing_destinations cl o lb nodes w d Hin) as (l & El & ->).
    split; [apply sortSliceByUID_sorted|].
    exists l. split; [exact El | apply sortSliceByUID_Permutation].
  - intros c svc nodes w d Hin.
    exact (patched_routing_destinations cl o c svc nodes w d Hin).
  - intros net w nodes nodes' Hm Hn P.
    now apply getNetworkInterfacesForNodes_Permutation.
  - intros lb w nodes nodes' d d' Hm Hn P Hin Hin'.
    destruct (applied_routing_destinations cl o lb nodes w d Hin) as (l & El & ->).
    destruct (applied_routing_destinations cl o lb nodes' w d' Hin') as (l' & El' & ->).
    pose proof (getNetworkInterfacesForNodes_Permutation cl o
                  (lbNetworkRef (lbSpec lb)) w Hm Hn nodes nodes' P) as S.
    rewrite El, El' in S. simpl in S.
    rewrite !sortSliceByUID_Permutation. exact S.
Qed.

Lemma C2_destinations_sorted_and_permutation_invariant_witness :
  let w := Cluster.world Cluster.objects [] None in
  let lb := Scenario.stored "Public" [] [] in
  let nodes := [Cluster.node "m1"; Cluster.node "m2"] in
  let nodes' := [Cluster.node "m2"; Cluster.node "m1"] in
  let sorted := [ {| refName := "m2-nic"; refUID := "uid-a" |};
                  {| refName := "m1-nic"; refUID := "uid-b" |} ] in
  (forall k, snd (MemStore.get "Machine" MemStore.machines k w) = w)
  /\ (forall k, snd (MemStore.get "NetworkInterface" MemStore.networkInterfaces k w) = w)
  /\ Permutation nodes nodes'
  /\ In sorted (appliedDestinations
                  (snd (applyLoadBalancerRoutingForLoadBalancer MemStore.client
                          Cluster.provider lb nodes w)))
  /\ In sorted (appliedDestinations
                  (snd (applyLoadBalancerRoutingForLoadBalancer MemStore.client
                          Cluster.provider lb nodes' w)))
  /\ StronglySorted uidLe sorted
  /\ Permutation sorted sorted
  /\ sameReferences
       (fst (fst (getNetworkInterfacesForNodes MemStore.client Cluster.provider nodes "net" w)))
       (fst (fst (getNetworkInterfacesForNodes MemStore.client Cluster.provider nodes' "net" w))).
Proof.
  intros w lb nodes nodes' sorted.
  assert (Hm : forall k, snd (MemStore.get "Machine" MemStore.machines k w) = w)
    by (apply MemStore_get_stable; reflexivity).
  assert (Hn : forall k, snd (MemStore.get "NetworkInterface" MemStore.networkInterfaces k w) = w)
    by (apply MemStore_get_stable; reflexivity).
  assert (P : Permutation nodes nodes') by apply perm_swap.
  assert (Hin : In sorted (appliedDestinations
                  (snd (applyLoadBalancerRoutingForLoadBalancer MemStore.client
                          Cluster.provider lb nodes w)))) by (left; reflexivity).
  assert (Hin' : In sorted (appliedDestinations
                  (snd (applyLoadBalancerRoutingForLoadBalancer MemStore.client
                          Cluster.provider lb nodes' w)))) by (left; reflexivity).
  destruct (C2_destinations_sorted_and_permutation_invariant MemStore.World MemStore.client
              Cluster.provider) as (ensure & _ & resolver & both).
  repeat (split; [assumption|]).
  split; [exact (proj1 (ensure lb nodes w sorted Hin))|].
  split; [exact (both lb w nodes nodes' sorted sorted Hm Hn P Hin Hin')|].
  exact (resolver "net" w nodes nodes' Hm Hn P).
Defined.

(* the update path patches the references in the order of the nodes: for
   the nodes m1, m2 the interface with the larger UID comes first *)
Example update_path_keeps_node_order :
  let routing := {| lbrName := "shoot-web-2f5a9c1e"; lbrNamespace := "ns"; lbrLabels := ∅;
                    lbrOwnerReferences := []; lbrNetworkRef := mkRef "net" "uid-net";
                    lbrDestinations := [] |} in
  let st := MemStore.setRoutings (Scenario.holding (Scenario.stored "Public" [] ["10.0.0.1"]))
              {[ ("ns", "shoot-web-2f5a9c1e") := routing ]} in
  patchedDestinations
    (snd (UpdateLoadBalancer MemStore.client Cluster.provider "shoot" Cluster.service
            [Cluster.node "m1"; Cluster.node "m2"] (Cluster.world st [] None)))
  = [[ {| refName := "m1-nic"; refUID := "uid-b" |};
       {| refName := "m2-nic"; refUID := "uid-a" |} ]].
Proof. reflexivity. Qed.

(* --------------------------------------------------------------------- *)
(* Which calls a function makes                                           *)
(* --------------------------------------------------------------------- *)

Section Journals.

Context {W : Type} (cl : Client W) (o : onmetalLoadBalancer).

Lemma without_app (p : Call -> bool) (j1 j2 : Journal) :
  without p j1 -> without p j2 -> without p (j1 ++ j2)%list.
Proof. unfold without. intros H1 H2. now rewrite List.filter_app, H1, H2. Qed.

Lemma without_Forall (p : Call -> bool) (P : Call -> Prop) (j : Journal) :
  (forall c, P c -> p c = false) -> Forall P j -> without p j.
Proof.
  intros HP. induction 1 as [|c j Hc _ IH]; [reflexivity|].
  unfold without in *. simpl. now rewrite (HP c Hc).
Qed.

Lemma without_ret {A : Type} (p : Call -> bool) (a : A) (w : W) :
  without p (snd (ret a w)).
Proof. reflexivity. Qed.

Lemma without_call {A : Type} (p : Call -> bool) (op : W -> A * W) (entry : A -> Call) (w : W) :
  (forall a, p (entry a) = false) -> without p (snd (call op entry w)).
Proof.
  intros H. unfold call. destruct (op w) as [a w1]. unfold without. simpl. now rewrite H.
Qed.

Lemma without_bind {A B : Type} (p : Call -> bool) (m : M W A) (f : A -> M W B) (w : W) :
  without p (snd (m w)) ->
  (forall a w1, without p (snd (f a w1))) ->
  without p (snd (bind m f w)).
Proof.
  intros Hm Hf. unfold bind. destruct (m w) as [[a w1] j1].
  specialize (Hf a w1). destruct (f a w1) as [[b w2] j2]. now apply without_app.
Qed.

End Journals.

(* split a goal about the calls of a computation along its structure *)
Ltac calls :=
  repeat match goal with
    | |- without _ (snd (ret _ _)) => apply without_ret
    | |- without _ (snd (call _ _ _)) => apply without_call; intros; reflexivity
    | |- without _ (snd (bind _ _ _)) => apply without_bind; [|intros ? ?]
    | |- without _ (snd (match ?x with _ => _ end _)) => destruct x
    end.

Section JournalsOfWaits.

Context {W : Type} (cl : Client W) (o : onmetalLoadBalancer).

(* the backoff loop adds context checks and sleeps to the calls of its
   condition *)
Lemma backoffLoop_without {L : Type} (p : Call -> bool)
    (condition : L -> M W (L * bool * option Error)) :
  (forall r, p (CContextDone r) = false) ->
  (forall d r, p (CSleep d r) = false) ->
  (forall l w, without p (snd (condition l w))) ->
  forall steps duration num den l w,
    without p (snd (backoffLoop cl steps duration num den condition l w)).
Proof.
  intros Hctx Hsleep Hcond. induction steps as [|n IH]; intros duration num den l w.
  - apply without_ret.
  - cbn [backoffLoop]. unfold contextDone, sleep.
    apply without_bind; [apply without_call; exact Hctx|]. intros [c|] w1; [apply without_ret|].
    apply without_bind; [apply Hcond|]. intros [[l1 ok] [e|]] w2; [apply without_ret|].
    destruct ok; [apply without_ret|]. destruct n as [|n']; [apply without_ret|].
    cbn [Step Steps Duration].
    apply without_bind; [apply without_call; apply Hsleep|]. intros [c|] w3; [apply without_ret|].
    apply IH.
Qed.

Lemma ExponentialBackoffWithContext_without {L : Type} (p : Call -> bool)
    (condition : L -> M W (L * bool * option Error)) (backoff : Backoff) (l : L) (w : W) :
  (forall r, p (CContextDone r) = false) ->
  (forall d r, p (CSleep d r) = false) ->
  (forall l w, without p (snd (condition l w))) ->
  without p (snd (ExponentialBackoffWithContext cl backoff condition l w)).
Proof. intros. now apply backoffLoop_without. Qed.

Lemma deletedCondition_routingSteps (l : LoadBalancer) (w : W) :
  without routingStep (snd (deletedCondition cl l w)).
Proof. unfold deletedCondition, getLoadBalancer. calls. Qed.

Lemma activeCondition_routingSteps (existing : LoadBalancerType) (service : Service)
    (l : LoadBalancer * LoadBalancerStatus) (w : W) :
  without routingStep (snd (activeCondition cl existing service l w)).
Proof. destruct l. unfold activeCondition, getLoadBalancer. calls. Qed.

Lemma EnsureLoadBalancerDeleted_routingSteps (clusterName : string) (service : Service) (w : W) :
  without routingStep (snd (EnsureLoadBalancerDeleted cl o clusterName service w)).
Proof.
  unfold EnsureLoadBalancerDeleted, deleteLoadBalancer, waitForDeletingLoadBalancer. calls.
  apply ExponentialBackoffWithContext_without;
    [reflexivity | reflexivity | apply deletedCondition_routingSteps].
Qed.

Lemma waitLoadBalancerActive_routingSteps (existing : LoadBalancerType) (service : Service)
    (loadBalancer : LoadBalancer) (w : W) :
  without routingStep (snd (waitLoadBalancerActive cl existing service loadBalancer w)).
Proof.
  unfold waitLoadBalancerActive, getLoadBalancerRouting, timeNow, updateLoadBalancerRouting.
  apply without_bind.
  - apply ExponentialBackoffWithContext_without;
      [reflexivity | reflexivity | apply activeCondition_routingSteps].
  - intros [[lb st] err] w1. calls.
Qed.

End JournalsOfWaits.

(* --------------------------------------------------------------------- *)
(* The routing write                                                      *)
(* --------------------------------------------------------------------- *)

Section RoutingWrite.

Context {W : Type} (cl : Client W) (o : onmetalLoadBalancer).

Lemma routingSteps_app (j1 j2 : Journal) :
  routingSteps (j1 ++ j2)%list = (routingSteps j1 ++ routingSteps j2)%list.
Proof. apply List.filter_app. Qed.

Lemma SetOwnerReference_networkRef (owner : LoadBalancer) (lbr lbr' : LoadBalancerRouting) :
  SetOwnerReference owner lbr = Ok lbr' -> lbrNetworkRef lbr' = lbrNetworkRef lbr.
Proof.
  unfold SetOwnerReference. destruct (validateOwner _ _); [discriminate|]. now intros [= <-].
Qed.

Lemma applyLoadBalancerRoutingForLoadBalancer_routingWrite
    (loadBalancer : LoadBalancer) (nodes : list Node) (w : W) :
  let '(err, _, j) := applyLoadBalancerRoutingForLoadBalancer cl o loadBalancer nodes w in
  routingWrite cl (mkKey (onmetalNamespace o) (lbNetworkRef (lbSpec loadBalancer)))
    (routingSteps j) err
  /\ (routingSteps j = [] -> err <> None).
Proof.
  unfold applyLoadBalancerRoutingForLoadBalancer, bind.
  pose proof (nodesNetworkInterfaces_reads cl o (lbNetworkRef (lbSpec loadBalancer)) nodes [] w)
    as Hreads.
  unfold getNetworkInterfacesForNodes.
  destruct (nodesNetworkInterfaces cl o nodes (lbNetworkRef (lbSpec loadBalancer)) [] w)
    as [[r w1] j1].
  simpl in Hreads.
  assert (Hnone : routingSteps j1 = []).
  { apply (without_Forall routingStep resolverCall); [|exact Hreads].
    intros []; simpl; intros; try contradiction; reflexivity. }
  destruct r as [l|e]; finish_run.
  - unfold getNetwork, call.
    set (key := mkKey (onmetalNamespace o) (lbNetworkRef (lbSpec loadBalancer))).
    destruct (clGetNetwork cl key w1) as [[network|e] w2] eqn:Enet; finish_run.
    + destruct (SetOwnerReference loadBalancer _) as [lbr|e] eqn:Eown; finish_run.
      * unfold applyLoadBalancerRouting, call.
        destruct (clApplyLoadBalancerRouting cl lbr w2) as [[stored|e] w3] eqn:Eapp; finish_run;
          rewrite routingSteps_app, Hnone; simpl; (split; [|discriminate]);
          right; right; right; eexists network, lbr, _, w1, w2, w3;
          (split; [reflexivity|]); (split; [exact Enet|]); (split; [exact Eapp|]);
          (split; [exact (SetOwnerReference_networkRef _ _ _ Eown)|]).
        -- eauto.
        -- discriminate.
      * rewrite routingSteps_app, Hnone. simpl. split; [|discriminate].
        right; right; left. eauto.
    + rewrite routingSteps_app, Hnone. simpl. split; [|discriminate].
      right; left. eauto.
  - rewrite app_nil_r, Hnone. split; [now left | discriminate].
Qed.

End RoutingWrite.

Section EnsureRouting.

Context {W : Type} (cl : Client W) (o : onmetalLoadBalancer).

Lemma bind_inv {A B : Type} (m : M W A) (f : A -> M W B) (w w2 : W) (b : B) (j : Journal) :
  bind m f w = (b, w2, j) ->
  exists a w1 j1 j2, m w = (a, w1, j1) /\ f a w1 = (b, w2, j2) /\ j = (j1 ++ j2)%list.
Proof.
  unfold bind. destruct (m w) as [[a w1] j1]. destruct (f a w1) as [[b' w2'] j2] eqn:E.
  intros [= <- <- <-]. now exists a, w1, j1, j2.
Qed.

Lemma ret_inv {A : Type} (a b : A) (w w' : W) (j : Journal) :
  ret a w = (b, w', j) -> b = a /\ w' = w /\ j = [].
Proof. unfold ret. now intros [= <- <- <-]. Qed.

(* the stage of EnsureLoadBalancer before the load balancer is applied *)
Lemma deletion_stage_routingSteps (clusterName : string) (service : Service)
    (existing : result LoadBalancer) (w : W) :
  without routingStep
    (snd (match existing with
          | Ok existingLoadBalancer =>
              if negb (String.eqb (lbType (lbSpec existingLoadBalancer)) (desiredTypeOf service))
              then e <- EnsureLoadBalancerDeleted cl o clusterName service ;;
                   ret (lbType (lbSpec existingLoadBalancer), e)
              else ret (lbType (lbSpec existingLoadBalancer), None)
          | Err _ => ret ("", None)
          end w)).
Proof.
  destruct existing as [lb|e]; [|apply without_ret].
  destruct (negb _); [|apply without_ret].
  apply without_bind; [apply EnsureLoadBalancerDeleted_routingSteps | intros; apply without_ret].
Qed.

Lemma EnsureLoadBalancer_routingWrite (clusterName : string) (service : Service)
    (nodes : list Node) (w : W) :
  let '(status, err, _, j) := EnsureLoadBalancer cl o clusterName service nodes w in
  (err <> None -> status = None)
  /\ (routingSteps j = []
      \/ exists request applied,
           In (CApplyLoadBalancer request (Ok applied)) j
           /\ routingWrite cl (mkKey (onmetalNamespace o) (lbNetworkRef (lbSpec applied)))
                (routingSteps j) err).
Proof.
  destruct (EnsureLoadBalancer cl o clusterName service nodes w) as [[[status err] w'] j] eqn:E.
  unfold EnsureLoadBalancer in E.
  apply bind_inv in E as (existing & w1 & j1 & j1' & E1 & E & ->).
  assert (H1 : routingSteps j1 = []).
  { pose proof (without_call routingStep (clGetLoadBalancer cl
        (mkKey (onmetalNamespace o) (getLoadBalancerNameForService clusterName service)))
        (CGetLoadBalancer (mkKey (onmetalNamespace o)
           (getLoadBalancerNameForService clusterName service))) w (fun _ => eq_refl)) as H.
    unfold getLoadBalancer in E1. rewrite E1 in H. exact H. }
  apply bind_inv in E as ([existingType deletionErr] & w2 & j2 & j2' & E2 & E & ->).
  assert (H2 : routingSteps j2 = []).
  { pose proof (deletion_stage_routingSteps clusterName service existing w1) as H.
    rewrite E2 in H. exact H. }
  rewrite !routingSteps_app, H1, H2. cbn [app].
  destruct deletionErr as [derr|].
  { apply ret_inv in E as ([= -> ->] & _ & ->). split; [reflexivity | now left]. }
  destruct (String.eqb (desiredTypeOf service) LoadBalancerTypeInternal
            && String.eqb (PrefixName (cloudConfig o)) "").
  { apply ret_inv in E as ([= -> ->] & _ & ->). split; [reflexivity | now left]. }
  apply bind_inv in E as (applied & w3 & j3 & j3' & E3 & E & ->).
  unfold applyLoadBalancer, call in E3.
  destruct (clApplyLoadBalancer cl _ w2) as [a3 w3'] eqn:Eapply. injection E3 as -> -> <-.
  destruct applied as [loadBalancer|e].
  2:{ apply ret_inv in E as ([= -> ->] & _ & ->). split; [reflexivity | now left]. }
  apply bind_inv in E as (routed & w4 & j4 & j4' & E4 & E & ->).
  pose proof (applyLoadBalancerRoutingForLoadBalancer_routingWrite cl o loadBalancer nodes w3)
    as Hr.
  rewrite E4 in Hr. destruct Hr as [Hr Hr0].
  destruct routed as [rerr|].
  { apply ret_inv in E as ([= -> ->] & _ & ->). split; [reflexivity|].
    right. eexists _, loadBalancer. split.
    - apply in_or_app. right. apply in_or_app. right. left. reflexivity.
    - rewrite (routingSteps_app [_]), routingSteps_app.
      change (routingSteps [CApplyLoadBalancer _ _]) with (@nil Call).
      change (routingSteps []) with (@nil Call).
      cbn [app]. rewrite app_nil_r. exact Hr. }
  apply bind_inv in E as ([lbStatus werr] & w5 & j5 & j5' & E5 & E & ->).
  assert (H5 : routingSteps j5 = []).
  { pose proof (waitLoadBalancerActive_routingSteps cl existingType service loadBalancer w4) as H.
    rewrite E5 in H. exact H. }
  assert (Hres : (err <> None -> status = None) /\ j5' = []).
  { destruct werr; apply ret_inv in E as ([= -> ->] & _ & ->); split; congruence. }
  destruct Hres as [Hres ->]. split; [exact Hres|].
  right. eexists _, loadBalancer. split.
  - apply in_or_app. right. apply in_or_app. right. left. reflexivity.
  - rewrite (routingSteps_app [_]), !routingSteps_app, H5.
    change (routingSteps [CApplyLoadBalancer _ _]) with (@nil Call).
    change (routingSteps []) with (@nil Call).
    cbn [app]. rewrite !app_nil_r.
    destruct Hr as [Hr | [Hr | [Hr | Hr]]].
    + exfalso. now apply Hr0.
    + destruct Hr as (e & msg & _ & D). discriminate.
    + destruct Hr as (network & e & _ & D). discriminate.
    + right; right; right.
      destruct Hr as (network & lbr & r & u1 & u2 & u3 & Hs & Hg & Ha & Hn & Hok).
      exists network, lbr, r, u1, u2, u3. repeat (split; [assumption|]).
      intros _. now apply Hok.
Qed.

End EnsureRouting.

(** C10: in every run of EnsureLoadBalancer the calls of the routing
    write are, in this order, the fetch of the Network named by the
    networkRef of the load balancer as the server returned it from the
    apply, and the apply of the routing object.  When that fetch fails,
    with not-found or anything else, it is the last of them, nothing is
    applied and the call returns the wrapped error and no status; when a
    routing object is applied, the fetch before it succeeded, the apply
    is executed in the state that fetch left behind, and the object's
    networkRef carries the name and UID of the network fetched. *)
Theorem C10_routing_applied_with_fetched_network :
  forall (W : Type) (onmetalClient : Client W) (o : onmetalLoadBalancer)
         (clusterName : string) (service : Service) (nodes : list Node) (w : W),
    let '(status, err, _, j) :=
      EnsureLoadBalancer onmetalClient o clusterName service nodes w in
    (err <> None -> status = None)
    /\ (routingSteps j = []
        \/ exists request applied,
             In (CApplyLoadBalancer request (Ok applied)) j
             /\ routingWrite onmetalClient
                  (mkKey (onmetalNamespace o) (lbNetworkRef (lbSpec applied)))
                  (routingSteps j) err).
Proof. intros. apply EnsureLoadBalancer_routingWrite. Qed.

(* on the in-memory server a network that was fetched is in the store
   the fetch leaves behind, unless others removed it meanwhile *)
Lemma MemStore_network_fetched (k : ObjectKey) (network : Network) (w1 w2 : MemStore.World) :
  MemStore.future w1 = [] ->
  clGetNetwork MemStore.client k w1 = (Ok network, w2) ->
  MemStore.networks (MemStore.store w2) !! MemStore.at_ k = Some network.
Proof.
  intros Hfut. simpl. unfold MemStore.get, MemStore.serve. rewrite Hfut.
  destruct (MemStore.networks (MemStore.store w1) !! MemStore.at_ k) eqn:E; [|discriminate].
  intros [= <- <-]. exact E.
Qed.

Lemma C10_routing_applied_with_fetched_network_witness :
  let w := Cluster.world (Scenario.holding (Scenario.stored "Public" [] ["10.0.0.1"])) [] None in
  let run := EnsureLoadBalancer MemStore.client Cluster.provider "shoot" Cluster.service
               [Cluster.node "m1"] w in
  let network := {| netName := "net"; netNamespace := "ns"; netUID := "uid-net" |} in
  fst (fst run) = (Some {| Ingress := [ {| ingIP := "10.0.0.1"; ingHostname := "" |} ] |}, None)
  /\ MemStore.networks (MemStore.store w) !! ("ns", "net") = Some network
  /\ (exists lbr stored,
        routingSteps (snd run)
        = [CGetNetwork (mkKey "ns" "net") (Ok network);
           CApplyLoadBalancerRouting lbr (Ok stored)]
        /\ lbrNetworkRef lbr = {| refName := "net"; refUID := "uid-net" |})
  /\ (routingSteps (snd run) = []
      \/ exists request applied,
           In (CApplyLoadBalancer request (Ok applied)) (snd run)
           /\ routingWrite MemStore.client (mkKey "ns" (lbNetworkRef (lbSpec applied)))
                (routingSteps (snd run)) None).
Proof.
  intros w run network.
  split; [reflexivity|]. split; [reflexivity|]. split; [do 2 eexists; split; reflexivity|].
  pose proof (C10_routing_applied_with_fetched_network MemStore.World MemStore.client
                Cluster.provider "shoot" Cluster.service [Cluster.node "m1"] w) as H.
  assert (E : snd (fst (fst run)) = None) by reflexivity.
  subst run.
  destruct (EnsureLoadBalancer MemStore.client Cluster.provider "shoot" Cluster.service
              [Cluster.node "m1"] w) as [[[status err] w'] j].
  simpl in E. subst err. exact (proj2 H).
Defined.

(* without the network nothing is applied and the call fails *)
Example missing_network_aborts :
  let st := MemStore.Build_Store ∅ ∅ (MemStore.machines Cluster.objects)
              (MemStore.networkInterfaces Cluster.objects) ∅ in
  let run := EnsureLoadBalancer MemStore.client Cluster.provider "shoot" Cluster.service
               [Cluster.node "m1"] (Cluster.world st [] None) in
  fst (fst run)
  = (None, Some (Errorf "failed to get Network net" (ErrNotFound "Network net not found")))
  /\ appliedDestinations (snd run) = []
  /\ MemStore.routings (MemStore.store (snd (fst run))) = ∅.
Proof. repeat split; reflexivity. Qed.

(* --------------------------------------------------------------------- *)
(* The activation wait: bounded                                           *)
(* --------------------------------------------------------------------- *)

Section ActivationWait.

Context {W : Type} (cl : Client W).

(* a run of the backoff loop over the activation condition in which no
   poll finds an address: it ends with an interruption error, the
   captured status untouched, after at most [steps] polls with the delays
   of the backoff in between; when the context is never found done the
   polls are exactly [steps] and the error is the wait timeout *)
Lemma activation_loop_without_address (existing : LoadBalancerType) (service : Service)
    (num den : Z) (steps : nat) :
  num <> 0%Z ->
  forall (duration : Z) (lb : LoadBalancer) (st : LoadBalancerStatus) (w : W),
    let '(lb', st', err, _, j) :=
      backoffLoop cl steps duration num den (activeCondition cl existing service) (lb, st) w in
    Forall pollFindsNoAddress j ->
    st' = st
    /\ (exists e, err = Some e /\ Interrupted e = true)
    /\ polls j <= steps
    /\ (exists rest, backoffDelays (pred steps) duration num den = sleeps j ++ rest)%list
    /\ (List.filter interrupts j = [] ->
        polls j = steps /\ sleeps j = backoffDelays (pred steps) duration num den)
    /\ Forall (fun c => match c with
                        | CContextDone _ | CSleep _ _ | CGetLoadBalancer _ _ => True
                        | _ => False
                        end) j.
Proof.
  intros Hnum. induction steps as [|n IH]; intros duration lb st w.
  - simpl. intros _.
    split; [reflexivity|]. split; [eauto|]. split; [reflexivity|].
    split; [exists []; reflexivity|]. split; [split; reflexivity|constructor].
  - cbn [backoffLoop]. unfold bind at 1. unfold contextDone, call.
    destruct (clContextDone cl w) as [[c|] w1].
    + finish_run. intros _.
      split; [reflexivity|].
      split; [eexists; split; [reflexivity|]; destruct c; reflexivity|].
      split; [unfold polls; simpl; lia|].
      split; [exists (backoffDelays n duration num den); reflexivity|].
      split; [discriminate | repeat constructor].
    + unfold bind at 1. unfold activeCondition at 1. unfold bind at 1.
      unfold getLoadBalancer, call.
      destruct (clGetLoadBalancer cl (loadBalancerKey lb) w1) as [[fetched|e] w2].
      2:{ finish_run. intros H. exfalso.
          inversion H as [|? ? _ H']; subst. inversion H' as [|? ? Hp _]; subst.
          destruct Hp as (? & D & _). discriminate. }
      destruct (lbStatusIPs fetched) as [|ip ips] eqn:Eips.
      2:{ cbn [length Nat.eqb].
          assert (Habs : forall k c j',
                     Forall pollFindsNoAddress (c :: CGetLoadBalancer k (Ok fetched) :: j') ->
                     False).
          { intros k c j' H. inversion H as [|? ? _ H']; subst.
            inversion H' as [|? ? Hp _]; subst.
            destruct Hp as (? & [= <-] & D). congruence. }
          destruct (negb _ && _); unfold ret at 1; cbv beta iota zeta.
          - destruct n as [|n'].
            + finish_run. intros H. exfalso. eapply Habs, H.
            + cbn [Step Steps Duration FactorNum FactorDen].
              unfold bind at 1. unfold sleep, call.
              destruct (clSleep cl duration w2) as [[c|] w3].
              * finish_run. intros H. exfalso. eapply Habs, H.
              * match goal with |- context [backoffLoop cl (S n') ?d num den ?c ?l w3] =>
                  destruct (backoffLoop cl (S n') d num den c l w3) as [[[[? ?] ?] ?] ?] end.
                finish_run. intros H. exfalso. eapply Habs, H.
          - finish_run. intros H. exfalso. eapply Habs, H. }
      cbn [length Nat.eqb]. unfold ret at 1. cbv beta iota zeta.
      destruct n as [|n'].
      * finish_run. intros _.
        split; [reflexivity|]. split; [eauto|]. split; [unfold polls; simpl; lia|].
        split; [exists []; reflexivity|]. split; [split; reflexivity | repeat constructor].
      * cbn [Step Steps Duration FactorNum FactorDen].
        destruct (num =? 0)%Z eqn:Ez; [apply Z.eqb_eq in Ez; contradiction|].
        unfold bind at 1. unfold sleep, call.
        destruct (clSleep cl duration w2) as [[c|] w3].
        -- finish_run. intros _.
           split; [reflexivity|].
           split; [eexists; split; [reflexivity|]; destruct c; reflexivity|].
           split; [unfold polls; simpl; lia|].
           split; [exists (backoffDelays n' (duration * num / den) num den); reflexivity|].
           split; [discriminate | repeat constructor].
        -- specialize (IH (duration * num / den)%Z fetched st w3).
           destruct (backoffLoop cl (S n') (duration * num / den) num den
                       (activeCondition cl existing service) (fetched, st) w3)
             as [[[[lb' st'] err] w4] j4].
           finish_run. intros H.
           inversion H as [|? ? _ H']; subst. inversion H' as [|? ? _ H'']; subst.
           inversion H'' as [|? ? _ H4]; subst.
           destruct (IH H4) as (Hst & Herr & Hpolls & [rest Hdel] & Hfull & Hkinds).
           split; [exact Hst|]. split; [exact Herr|].
           split; [unfold polls in *; simpl; lia|].
           split; [exists rest; simpl in *; now rewrite Hdel|].
           split; [|repeat constructor; exact Hkinds].
           simpl. intros Hq. destruct (Hfull Hq) as [Hp Hs].
           split; [unfold polls in *; simpl; lia | now rewrite Hs].
Qed.

End ActivationWait.

Section ActivationTimeout.

Context {W : Type} (cl : Client W) (o : onmetalLoadBalancer).

Lemma polls_app (j1 j2 : Journal) : polls (j1 ++ j2)%list = polls j1 + polls j2.
Proof. unfold polls. now rewrite List.filter_app, length_app. Qed.

Lemma sleeps_app (j1 j2 : Journal) : sleeps (j1 ++ j2)%list = (sleeps j1 ++ sleeps j2)%list.
Proof. apply flat_map_app. Qed.

Lemma routingCall_quiet (j : Journal) :
  Forall routingCall j -> polls j = 0 /\ sleeps j = [] /\ List.filter interrupts j = [].
Proof.
  induction 1 as [|c j Hc _ (IH1 & IH2 & IH3)]; [now repeat split|].
  destruct c; try contradiction; unfold polls in *; simpl; auto.
Qed.

Lemma afterApply_without (j j' : Journal) :
  without isApplyLoadBalancer j -> afterApply (j ++ j')%list = afterApply j'.
Proof.
  unfold without. induction j as [|c j IH]; [reflexivity|].
  destruct c; simpl; try discriminate; exact IH.
Qed.

Lemma applyLoadBalancerRoutingForLoadBalancer_calls (loadBalancer : LoadBalancer)
    (nodes : list Node) (w : W) :
  Forall routingCall (snd (applyLoadBalancerRoutingForLoadBalancer cl o loadBalancer nodes w)).
Proof.
  unfold applyLoadBalancerRoutingForLoadBalancer, bind.
  pose proof (nodesNetworkInterfaces_reads cl o (lbNetworkRef (lbSpec loadBalancer)) nodes [] w)
    as Hreads.
  unfold getNetworkInterfacesForNodes.
  destruct (nodesNetworkInterfaces cl o nodes (lbNetworkRef (lbSpec loadBalancer)) [] w)
    as [[r w1] j1].
  simpl in Hreads.
  assert (H1 : Forall routingCall j1).
  { eapply Forall_impl; [exact Hreads|]. intros []; simpl; tauto. }
  destruct r as [l|e]; finish_run; [|now rewrite app_nil_r].
  unfold getNetwork, call.
  destruct (clGetNetwork cl _ w1) as [[network|e] w2]; finish_run;
    [|apply Forall_app; split; [exact H1 | repeat constructor] ].
  destruct (SetOwnerReference loadBalancer _) as [lbr|e]; finish_run;
    [|apply Forall_app; split; [exact H1 | repeat constructor] ].
  unfold applyLoadBalancerRouting, call.
  destruct (clApplyLoadBalancerRouting cl lbr w2) as [[stored|e] w3]; finish_run;
    (apply Forall_app; split; [exact H1 | repeat constructor]).
Qed.

(* the activation wait when no poll finds an address *)
Lemma waitLoadBalancerActive_without_address (existing : LoadBalancerType)
    (service : Service) (loadBalancer : LoadBalancer) (w : W) :
  let '(status, err, _, j) := waitLoadBalancerActive cl existing service loadBalancer w in
  Forall pollFindsNoAddress j ->
  status = {| Ingress := [] |}
  /\ (exists e, err = Some e /\ activationTimeout e)
  /\ polls j <= waitLoadbalancerActiveSteps
  /\ (exists rest, waitDelays = sleeps j ++ rest)%list
  /\ (List.filter interrupts j = [] ->
      polls j = waitLoadbalancerActiveSteps /\ sleeps j = waitDelays).
Proof.
  unfold waitLoadBalancerActive, ExponentialBackoffWithContext. unfold bind at 1.
  pose proof (activation_loop_without_address cl existing service
                (FactorNum waitBackoff) (FactorDen waitBackoff) (Steps waitBackoff)
                ltac:(discriminate) (Duration waitBackoff) loadBalancer {| Ingress := [] |} w)
    as H.
  destruct (backoffLoop cl (Steps waitBackoff) (Duration waitBackoff) (FactorNum waitBackoff)
              (FactorDen waitBackoff) (activeCondition cl existing service)
              (loadBalancer, {| Ingress := [] |}) w) as [[[[lb st] err] w1] j1].
  cbv beta iota zeta.
  destruct err as [e|]; [destruct (Interrupted e) eqn:Eint|].
  - finish_run. rewrite app_nil_r. intros Hj.
    destruct (H Hj) as (-> & _ & Hp & Hd & Hfull & _).
    split; [reflexivity|]. split; [eexists; split; [reflexivity|]; now eexists|].
    split; [exact Hp|]. split; [exact Hd | exact Hfull].
  - match goal with |- context [bind ?m ?f w1] =>
      destruct (bind m f w1) as [[[st' err'] w2] j2] end.
    intros Hj. exfalso. apply Forall_app in Hj as [Hj1 _].
    destruct (H Hj1) as (_ & (e' & [= <-] & He') & _). congruence.
  - match goal with |- context [bind ?m ?f w1] =>
      destruct (bind m f w1) as [[[st' err'] w2] j2] end.
    intros Hj. exfalso. apply Forall_app in Hj as [Hj1 _].
    destruct (H Hj1) as (_ & (e' & D & _) & _). discriminate.
Qed.

End ActivationTimeout.

Section EnsureTimeout.

Context {W : Type} (cl : Client W) (o : onmetalLoadBalancer).

Lemma deletion_stage_applies_nothing (clusterName : string) (service : Service)
    (existing : result LoadBalancer) (w : W) :
  without isApplyLoadBalancer
    (snd (match existing with
          | Ok existingLoadBalancer =>
              if negb (String.eqb (lbType (lbSpec existingLoadBalancer)) (desiredTypeOf service))
              then e <- EnsureLoadBalancerDeleted cl o clusterName service ;;
                   ret (lbType (lbSpec existingLoadBalancer), e)
              else ret (lbType (lbSpec existingLoadBalancer), None)
          | Err _ => ret ("", None)
          end w)).
Proof.
  destruct existing as [lb|e]; [|apply without_ret].
  destruct (negb _); [|apply without_ret].
  apply without_bind; [|intros; apply without_ret].
  unfold EnsureLoadBalancerDeleted, deleteLoadBalancer, waitForDeletingLoadBalancer. calls.
  apply ExponentialBackoffWithContext_without; [reflexivity | reflexivity |].
  intros l w0. unfold deletedCondition, getLoadBalancer. calls.
Qed.

Lemma not_in_without (p : Call -> bool) (j : Journal) (c : Call) :
  without p j -> p c = true -> ~ In c j.
Proof.
  unfold without. intros Hw Hp Hin.
  assert (Hf : In c (List.filter p j)) by (apply List.filter_In; now split).
  rewrite Hw in Hf. exact Hf.
Qed.

(* a routing write that returns an error has not applied the routing
   object with success *)
Lemma routing_failure_applies_nothing (loadBalancer : LoadBalancer) (nodes : list Node)
    (w : W) :
  let '(err, _, j) := applyLoadBalancerRoutingForLoadBalancer cl o loadBalancer nodes w in
  err <> None -> ~ routingApplied j.
Proof.
  destruct (applyLoadBalancerRoutingForLoadBalancer cl o loadBalancer nodes w)
    as [[err w'] j] eqn:E.
  intros Herr (lbr & stored & Hin).
  unfold applyLoadBalancerRoutingForLoadBalancer in E.
  apply bind_inv in E as (rn & w1 & j1 & j1' & E1 & E & ->).
  pose proof (nodesNetworkInterfaces_reads cl o (lbNetworkRef (lbSpec loadBalancer)) nodes [] w)
    as Hreads.
  unfold getNetworkInterfacesForNodes in E1. rewrite E1 in Hreads. cbn [snd] in Hreads.
  apply in_app_or in Hin as [Hin | Hin].
  { rewrite List.Forall_forall in Hreads. exact (Hreads _ Hin). }
  destruct rn as [l|e]; [|apply ret_inv in E as (_ & _ & ->); contradiction].
  apply bind_inv in E as (rnet & w2 & j2 & j2' & E2 & E & ->).
  unfold getNetwork, call in E2.
  destruct (clGetNetwork cl _ w1) as [rnet' w2'']. injection E2 as -> -> <-.
  destruct Hin as [D | Hin]; [discriminate|].
  destruct rnet as [network|e]; [|apply ret_inv in E as (_ & _ & ->); contradiction].
  destruct (SetOwnerReference loadBalancer _) as [owned|e];
    [|apply ret_inv in E as (_ & _ & ->); contradiction].
  apply bind_inv in E as (ra & w3 & j3 & j3' & E3 & E & ->).
  unfold applyLoadBalancerRouting, call in E3.
  destruct (clApplyLoadBalancerRouting cl _ w2) as [ra' w3'']. injection E3 as -> -> <-.
  destruct ra as [applied|e]; apply ret_inv in E as (-> & _ & ->).
  - now apply Herr.
  - destruct Hin as [D | []]. discriminate.
Qed.

(* a run in which every fetch of the load balancer after the apply finds
   it with an empty status.ips returns no status and an error.  Either it
   ended before the activation wait (the routing object was not applied
   with success, and after the apply only calls of the routing write were
   made), or the error is the timeout of the activation wait, reached
   after at most 19 polls, with the delays slept between them a prefix of
   1s, 1.2s, 1.44s, ... (18 delays, each the one before times 6/5,
   truncated to nanoseconds); if the context was never found done, the
   polls are exactly 19 and all 18 delays were slept *)
Lemma EnsureLoadBalancer_without_address (clusterName : string) (service : Service)
    (nodes : list Node) (w : W) :
  let '(status, err, _, j) := EnsureLoadBalancer cl o clusterName service nodes w in
  Forall pollFindsNoAddress (afterApply j) ->
  status = None
  /\ exists e,
       err = Some e
       /\ ((~ routingApplied j /\ Forall routingCall (afterApply j))
           \/ (activationTimeout e
               /\ polls (afterApply j) <= waitLoadbalancerActiveSteps
               /\ (exists rest, waitDelays = sleeps (afterApply j) ++ rest)%list
               /\ (List.filter interrupts (afterApply j) = [] ->
                   polls (afterApply j) = waitLoadbalancerActiveSteps
                   /\ sleeps (afterApply j) = waitDelays))).
Proof.
  destruct (EnsureLoadBalancer cl o clusterName service nodes w) as [[[status err] w'] j] eqn:E.
  unfold EnsureLoadBalancer in E.
  apply bind_inv in E as (existing & w1 & j1 & j1' & E1 & E & ->).
  assert (H1 : without isApplyLoadBalancer j1).
  { pose proof (without_call isApplyLoadBalancer (clGetLoadBalancer cl
        (mkKey (onmetalNamespace o) (getLoadBalancerNameForService clusterName service)))
        (CGetLoadBalancer (mkKey (onmetalNamespace o)
           (getLoadBalancerNameForService clusterName service))) w (fun _ => eq_refl)) as H.
    unfold getLoadBalancer in E1. rewrite E1 in H. exact H. }
  assert (R1 : without routingStep j1).
  { pose proof (without_call routingStep (clGetLoadBalancer cl
        (mkKey (onmetalNamespace o) (getLoadBalancerNameForService clusterName service)))
        (CGetLoadBalancer (mkKey (onmetalNamespace o)
           (getLoadBalancerNameForService clusterName service))) w (fun _ => eq_refl)) as H.
    unfold getLoadBalancer in E1. rewrite E1 in H. exact H. }
  apply bind_inv in E as ([existingType deletionErr] & w2 & j2 & j2' & E2 & E & ->).
  assert (H2 : without isApplyLoadBalancer j2).
  { pose proof (deletion_stage_applies_nothing clusterName service existing w1) as H.
    rewrite E2 in H. exact H. }
  assert (R2 : without routingStep j2).
  { pose proof (deletion_stage_routingSteps cl o clusterName service existing w1) as H.
    rewrite E2 in H. exact H. }
  assert (R12 : forall rest, ~ routingApplied rest -> ~ routingApplied (j1 ++ j2 ++ rest)%list).
  { intros rest Hrest (lbr & stored & Hin).
    apply in_app_or in Hin as [Hin | Hin];
      [exact (not_in_without routingStep _ (CApplyLoadBalancerRouting lbr (Ok stored))
                R1 eq_refl Hin)|].
    apply in_app_or in Hin as [Hin | Hin];
      [exact (not_in_without routingStep _ (CApplyLoadBalancerRouting lbr (Ok stored))
                R2 eq_refl Hin)|].
    apply Hrest. now exists lbr, stored. }
  rewrite !afterApply_without by assumption.
  destruct deletionErr as [derr|].
  { apply ret_inv in E as ([= -> ->] & _ & ->). intros _.
    split; [reflexivity|]. eexists; split; [reflexivity|]. left.
    split; [|constructor]. apply R12. intros (? & ? & []). }
  destruct (String.eqb (desiredTypeOf service) LoadBalancerTypeInternal
            && String.eqb (PrefixName (cloudConfig o)) "").
  { apply ret_inv in E as ([= -> ->] & _ & ->). intros _.
    split; [reflexivity|]. eexists; split; [reflexivity|]. left.
    split; [|constructor]. apply R12. intros (? & ? & []). }
  apply bind_inv in E as (applied & w3 & j3 & j3' & E3 & E & ->).
  unfold applyLoadBalancer, call in E3.
  destruct (clApplyLoadBalancer cl _ w2) as [a3 w3'] eqn:Eapply. injection E3 as -> -> <-.
  cbn [app afterApply].
  destruct applied as [loadBalancer|e].
  2:{ apply ret_inv in E as ([= -> ->] & _ & ->). intros _.
      split; [reflexivity|]. eexists; split; [reflexivity|]. left.
      split; [|constructor]. apply R12. intros (? & ? & [D | []]). discriminate. }
  apply bind_inv in E as (routed & w4 & j4 & j4' & E4 & E & ->).
  pose proof (applyLoadBalancerRoutingForLoadBalancer_calls cl o loadBalancer nodes w3) as H4.
  pose proof (routing_failure_applies_nothing loadBalancer nodes w3) as F4.
  rewrite E4 in H4, F4. cbn [snd] in H4.
  destruct routed as [rerr|].
  { apply ret_inv in E as ([= -> ->] & _ & ->). intros _.
    split; [reflexivity|]. eexists; split; [reflexivity|]. left.
    rewrite app_nil_r. split; [|exact H4]. apply R12.
    intros (lbr & stored & [D | Hin]); [discriminate|].
    apply F4; [discriminate|]. now exists lbr, stored. }
  apply bind_inv in E as ([lbStatus werr] & w5 & j5 & j5' & E5 & E & ->).
  pose proof (waitLoadBalancerActive_without_address cl existingType service loadBalancer w4)
    as H5.
  rewrite E5 in H5.
  assert (Hj5' : j5' = []).
  { destruct werr; apply ret_inv in E as (_ & _ & ->); reflexivity. }
  subst j5'. rewrite app_nil_r. intros Hj.
  apply Forall_app in Hj as [_ Hj5].
  destruct (H5 Hj5) as (Hst & (e & -> & Hto) & Hp & Hd & Hfull).
  apply ret_inv in E as ([= -> ->] & _ & _).
  destruct (routingCall_quiet j4 H4) as (Q1 & Q2 & Q3).
  split; [reflexivity|]. exists e. split; [reflexivity|]. right.
  rewrite polls_app, sleeps_app, List.filter_app, Q1, Q2, Q3. cbn [app Nat.add].
  split; [exact Hto|]. split; [exact Hp|]. split; [exact Hd | exact Hfull].
Qed.

End EnsureTimeout.

Lemma findsNoAddress_sound (j : Journal) :
  forallb findsNoAddress j = true -> Forall pollFindsNoAddress j.
Proof.
  induction j as [|c j IH]; simpl; [constructor|].
  intros H. apply andb_true_iff in H as [Hc Hj]. constructor; [|auto].
  destruct c as [k [lb|e]| | | | | | | | | | | |]; simpl in *; try exact I; try discriminate.
  destruct (lbStatusIPs lb) eqn:E; [eauto | discriminate].
Qed.

(* a run in which every poll succeeds and finds no address: the wait is
   entered and ends in the timeout *)
Example run_without_address :
  let run := EnsureLoadBalancer MemStore.client Cluster.provider "shoot" Cluster.service
               [Cluster.node "m1"] (Cluster.world Cluster.objects [] None) in
  Forall pollFindsNoAddress (afterApply (snd run))
  /\ routingApplied (snd run)
  /\ fst (fst (fst run)) = None
  /\ exists e,
       snd (fst (fst run)) = Some e
       /\ activationTimeout e
       /\ polls (afterApply (snd run)) = waitLoadbalancerActiveSteps
       /\ sleeps (afterApply (snd run)) = waitDelays.
Proof.
  intros run.
  assert (Hh : Forall pollFindsNoAddress (afterApply (snd run))).
  { apply findsNoAddress_sound. vm_compute. reflexivity. }
  assert (Ha : routingApplied (snd run)).
  { assert (Hn : exists lbr stored,
               nth_error (snd run) 6 = Some (CApplyLoadBalancerRouting lbr (Ok stored)))
      by (eexists _, _; vm_compute; reflexivity).
    destruct Hn as (lbr & stored & Hn). exists lbr, stored. exact (nth_error_In _ _ Hn). }
  assert (Hq : List.filter interrupts (afterApply (snd run)) = []) by (vm_compute; reflexivity).
  pose proof (EnsureLoadBalancer_without_address MemStore.client Cluster.provider
                "shoot" Cluster.service [Cluster.node "m1"]
                (Cluster.world Cluster.objects [] None)) as H.
  subst run.
  destruct (EnsureLoadBalancer MemStore.client Cluster.provider "shoot" Cluster.service
              [Cluster.node "m1"] (Cluster.world Cluster.objects [] None))
    as [[[status err] w'] j].
  cbn [fst snd] in *.
  destruct (H Hh) as (Hs & e & He & [[Hn _] | (Hto & _ & _ & Hfull)]); [contradiction|].
  split; [exact Hh|]. split; [exact Ha|]. split; [exact Hs|].
  exists e. split; [exact He|]. split; [exact Hto|]. exact (Hfull Hq).
Qed.

(* what waitLoadBalancerActive does with the error of a poll: the loop
   stops with it, the error is not an interruption, and the function goes
   on to touch the routing object and returns the status gathered so far,
   here the empty one, without an error *)
Lemma waitLoadBalancerActive_drops_poll_error {W : Type} (cl : Client W)
    (existing : LoadBalancerType) (service : Service) (loadBalancer : LoadBalancer)
    (w w1 w2 w3 w4 w5 : W) (e : Error) (lbr stored : LoadBalancerRouting) (now : string) :
  clContextDone cl w = (None, w1) ->
  clGetLoadBalancer cl (loadBalancerKey loadBalancer) w1 = (Err e, w2) ->
  Interrupted e = false ->
  clGetLoadBalancerRouting cl (loadBalancerKey loadBalancer) w2 = (Ok lbr, w3) ->
  clTimeNow cl w3 = (now, w4) ->
  clUpdateLoadBalancerRouting cl (touched lbr now) w4 = (Ok stored, w5) ->
  waitLoadBalancerActive cl existing service loadBalancer w
  = ({| Ingress := [] |}, None, w5,
     [CContextDone None; CGetLoadBalancer (loadBalancerKey loadBalancer) (Err e);
      CGetLoadBalancerRouting (loadBalancerKey loadBalancer) (Ok lbr); CTimeNow now;
      CUpdateLoadBalancerRouting (touched lbr now) (Ok stored)]).
Proof.
  intros Hctx Hget Hint Hlbr Hnow Hupd.
  unfold waitLoadBalancerActive, ExponentialBackoffWithContext.
  unfold bind at 1.
  change (Steps waitBackoff) with (S (pred waitLoadbalancerActiveSteps)).
  cbn [backoffLoop]. unfold bind at 1. unfold contextDone, call. rewrite Hctx.
  unfold bind at 1. unfold activeCondition at 1. unfold bind at 1.
  unfold getLoadBalancer, call. rewrite Hget.
  unfold ret. cbv beta iota zeta. rewrite Hint.
  unfold bind, getLoadBalancerRouting, timeNow, updateLoadBalancerRouting, call.
  rewrite Hlbr, Hnow. fold (touchLabel now). fold (touched lbr now). rewrite Hupd.
  reflexivity.
Qed.

(** C4 fails on the code: no load balancer is stored, the service asks
    for a Public one, the load balancer and its routing object are
    applied, and the first poll of the activation wait fails with an
    error that is neither not-found nor an interruption.  The wait drops
    that error: no fetch of the load balancer ever found an address and
    the stored load balancer has none, yet after that one poll and
    without any delay the call returns an empty ingress status and no
    error, where the claim has the timeout error and no status. *)
Theorem C4_empty_status_after_poll_error :
  MemStore.loadBalancers (MemStore.store LostPoll.start) !! ("ns", "shoot-web-2f5a9c1e") = None
  /\ IsNotFound LostPoll.unavailable = false
  /\ Interrupted LostPoll.unavailable = false
  /\ List.filter isPoll (snd LostPoll.run)
     = [ CGetLoadBalancer Cluster.lbKey
           (Err (ErrNotFound "LoadBalancer shoot-web-2f5a9c1e not found"));
         CGetLoadBalancer Cluster.lbKey (Err LostPoll.unavailable) ]
  /\ polls (afterApply (snd LostPoll.run)) = 1
  /\ sleeps (snd LostPoll.run) = []
  /\ List.filter interrupts (snd LostPoll.run) = []
  /\ (lbStatusIPs <$> (MemStore.loadBalancers (MemStore.store (snd (fst LostPoll.run)))
                         !! ("ns", "shoot-web-2f5a9c1e"))) = Some []
  /\ fst (fst LostPoll.run) = (Some {| Ingress := [] |}, None).
Proof. repeat split; vm_compute; reflexivity. Qed.

(* the delays of the wait, in nanoseconds: 128.1 seconds in all *)
Example waitDelays_values :
  waitDelays
  = [1000000000; 1200000000; 1440000000; 1728000000; 2073600000; 2488320000;
     2985984000; 3583180800; 4299816960; 5159780352; 6191736422; 7430083706;
     8916100447; 10699320536; 12839184643; 15407021571; 18488425885;
     22186111062]%Z
  /\ fold_right Z.add 0%Z waitDelays = 128116666384%Z.
Proof. split; reflexivity. Qed.

(* without an address and without a deadline: 19 polls, all delays slept,
   the timeout and no status; the routing object was applied before *)
Example ensure_without_address_times_out :
  let run := EnsureLoadBalancer MemStore.client Cluster.provider "shoot" Cluster.service
               [Cluster.node "m1"] (Cluster.world Cluster.objects [] None) in
  fst (fst run)
  = (None, Some (ErrPlain
       "timeout waiting for the LoadBalancer ns/shoot-web-2f5a9c1e to become ready"))
  /\ polls (afterApply (snd run)) = 19
  /\ sleeps (afterApply (snd run)) = waitDelays
  /\ MemStore.clock (snd (fst run)) = 128116666384%Z.
Proof. repeat split; reflexivity. Qed.

(* with a deadline of one second, as in the tests of the provider: one
   poll, one interrupted sleep, the same timeout *)
Example ensure_without_address_deadline :
  let run := EnsureLoadBalancer MemStore.client Cluster.provider "shoot" Cluster.service
               [Cluster.node "m1"] (Cluster.world Cluster.objects [] (Some 1000000000%Z)) in
  fst (fst run)
  = (None, Some (ErrPlain
       "timeout waiting for the LoadBalancer ns/shoot-web-2f5a9c1e to become ready"))
  /\ polls (afterApply (snd run)) = 1
  /\ sleeps (afterApply (snd run)) = [1000000000%Z].
Proof. repeat split; reflexivity. Qed.

(* --------------------------------------------------------------------- *)
(* Type changes                                                           *)
(* --------------------------------------------------------------------- *)

(** C1 fails on the code: an Internal load balancer exists, the service
    asks for Public, the deletion is issued and the object stays behind
    its finalizer; the first poll of the deletion wait fails with an error
    that is neither not-found nor an interruption.  The wait drops that
    error, the deletion counts as done, and the Public spec is applied to
    the object that is still stored: same UID, deletion mark set, the
    Internal address still in its status, which the call then returns as
    the address of the Public load balancer. *)
Theorem C1_type_changed_in_place_after_poll_error :
  MemStore.loadBalancers (MemStore.store TypeFlip.start) !! ("ns", "shoot-web-2f5a9c1e")
  = Some TypeFlip.before
  /\ lbType (lbSpec TypeFlip.before) = LoadBalancerTypeInternal
  /\ desiredTypeOf Cluster.service = LoadBalancerTypePublic
  /\ (exists request,
        List.filter loadBalancerCall (snd TypeFlip.run)
        = [ CGetLoadBalancer Cluster.lbKey (Ok TypeFlip.before);
            CDeleteLoadBalancer Cluster.lbKey None;
            CGetLoadBalancer Cluster.lbKey (Err TypeFlip.unavailable);
            CApplyLoadBalancer request (Ok TypeFlip.after);
            CGetLoadBalancer Cluster.lbKey (Ok TypeFlip.after) ]
        /\ lbType (lbSpec request) = LoadBalancerTypePublic)
  /\ MemStore.loadBalancers (MemStore.store (snd (fst TypeFlip.run)))
       !! ("ns", "shoot-web-2f5a9c1e") = Some TypeFlip.after
  /\ lbUID TypeFlip.after = lbUID TypeFlip.before
  /\ lbDeleting TypeFlip.after = true
  /\ lbType (lbSpec TypeFlip.after) = LoadBalancerTypePublic
  /\ fst (fst TypeFlip.run)
     = (Some {| Ingress := [ {| ingIP := "100.0.0.10"; ingHostname := "" |} ] |}, None).
Proof.
  split; [reflexivity|]. split; [reflexivity|]. split; [reflexivity|].
  split.
  { exists (desiredLoadBalancer Cluster.provider "shoot" Cluster.service "Public" []).
    split; vm_compute; reflexivity. }
  repeat split; vm_compute; reflexivity.
Qed.

(* what waitForDeletingLoadBalancer does with the error of a poll: the
   loop stops with it, and the function returns nil *)
Lemma waitForDeletingLoadBalancer_drops_poll_error {W : Type} (cl : Client W)
    (service : Service) (loadBalancer : LoadBalancer) (w w1 w2 : W) (e : Error) :
  clContextDone cl w = (None, w1) ->
  clGetLoadBalancer cl (loadBalancerKey loadBalancer) w1 = (Err e, w2) ->
  IsNotFound e = false ->
  Interrupted e = false ->
  waitForDeletingLoadBalancer cl service loadBalancer w
  = (None, w2, [CContextDone None; CGetLoadBalancer (loadBalancerKey loadBalancer) (Err e)]).
Proof.
  intros Hctx Hget Hnf Hint.
  unfold waitForDeletingLoadBalancer, ExponentialBackoffWithContext.
  unfold bind at 1.
  change (Steps waitBackoff) with (S (pred waitLoadbalancerActiveSteps)).
  cbn [backoffLoop]. unfold bind at 1. unfold contextDone, call. rewrite Hctx.
  unfold bind at 1. unfold deletedCondition at 1. unfold bind at 1.
  unfold getLoadBalancer, call. rewrite Hget, Hnf. cbn [negb].
  unfold ret. cbv beta iota zeta. rewrite Hint. reflexivity.
Qed.

Section DeletionWait.

Context {W : Type} (cl : Client W) (o : onmetalLoadBalancer).

(* how the backoff loop over the deletion condition ends: without error
   right after a poll answered with not-found, or with an error that is
   an interruption, or with the error of its last poll *)
Lemma deletion_loop_end (num den : Z) (steps : nat) :
  forall (duration : Z) (lb : LoadBalancer) (w : W),
    let '(_, err, _, j) :=
      backoffLoop cl steps duration num den (deletedCondition cl) lb w in
    match err with
    | None => exists j0 k e, j = (j0 ++ [CGetLoadBalancer k (Err e)])%list
                             /\ IsNotFound e = true
    | Some e => Interrupted e = true
                \/ exists j0 k, j = (j0 ++ [CGetLoadBalancer k (Err e)])%list
    end.
Proof.
  induction steps as [|n IH]; intros duration lb w.
  - simpl. now left.
  - cbn [backoffLoop]. unfold bind at 1. unfold contextDone, call.
    destruct (clContextDone cl w) as [[c|] w1].
    + finish_run. left. destruct c; reflexivity.
    + unfold bind at 1. unfold deletedCondition at 1. unfold bind at 1.
      unfold getLoadBalancer, call.
      destruct (clGetLoadBalancer cl (loadBalancerKey lb) w1) as [[fetched|e] w2].
      * unfold ret at 1. cbv beta iota zeta.
        destruct n as [|n'].
        -- finish_run. now left.
        -- cbn [Step Steps Duration FactorNum FactorDen].
           unfold bind at 1. unfold sleep, call.
           match goal with |- context [clSleep cl ?d w2] =>
             destruct (clSleep cl d w2) as [[c|] w3] end.
           ++ finish_run. left. destruct c; reflexivity.
           ++ match goal with |- context [backoffLoop cl (S n') ?d num den ?c ?l w3] =>
                specialize (IH d l w3);
                destruct (backoffLoop cl (S n') d num den c l w3) as [[[lb' err] w4] j4] end.
              finish_run.
              destruct err as [e|].
              ** destruct IH as [IH | (j0 & k & ->)]; [now left|].
                 right. eexists (_ :: _ :: _ :: j0), k. reflexivity.
              ** destruct IH as (j0 & k & e & -> & He).
                 eexists (_ :: _ :: _ :: j0), k, e. split; [reflexivity | exact He].
      * destruct (IsNotFound e) eqn:Enf; cbn [negb]; finish_run.
        -- eexists [_], _, e. split; [reflexivity | exact Enf].
        -- right. eexists [_], _. reflexivity.
Qed.

Lemma EnsureLoadBalancerDeleted_success (clusterName : string) (service : Service) (w : W) :
  let '(err, _, j) := EnsureLoadBalancerDeleted cl o clusterName service w in
  err = None -> exists j0 c, j = (j0 ++ [c])%list /\ endsDeletion c.
Proof.
  unfold EnsureLoadBalancerDeleted. unfold bind at 1. unfold deleteLoadBalancer, call.
  destruct (clDeleteLoadBalancer cl _ w) as [[e|] w1].
  - destruct (IsNotFound e) eqn:Enf; finish_run; [|discriminate].
    intros _. eexists [], _. split; [reflexivity | exact Enf].
  - unfold bind at 1. unfold waitForDeletingLoadBalancer. unfold bind at 1.
    unfold ExponentialBackoffWithContext.
    match goal with |- context [backoffLoop cl ?s ?d ?n ?m ?c ?l w1] =>
      pose proof (deletion_loop_end n m s d l w1) as H;
      destruct (backoffLoop cl s d n m c l w1) as [[[lb' err] w2] j2] end.
    cbv beta iota zeta.
    destruct err as [e|].
    + destruct (Interrupted e) eqn:Eint; finish_run; [discriminate|].
      intros _. destruct H as [H | (j0 & k & ->)]; [congruence|].
      eexists (_ :: j0), _. split.
      * rewrite !app_nil_r. reflexivity.
      * simpl. now right.
    + finish_run. intros _. destruct H as (j0 & k & e & -> & He).
      eexists (_ :: j0), _. split.
      * rewrite !app_nil_r. reflexivity.
      * simpl. now left.
Qed.

Lemma waitLoadBalancerActive_applies_nothing (existingType : LoadBalancerType)
    (service : Service) (loadBalancer : LoadBalancer) (w : W) :
  without isApplyLoadBalancer
    (snd (waitLoadBalancerActive cl existingType service loadBalancer w)).
Proof.
  unfold waitLoadBalancerActive, getLoadBalancerRouting, timeNow, updateLoadBalancerRouting.
  apply without_bind.
  - apply ExponentialBackoffWithContext_without; [reflexivity | reflexivity |].
    intros [lb0 st0] w0. unfold activeCondition, getLoadBalancer. calls.
  - intros [[lb0 st0] err0] w0. calls.
Qed.

(* when EnsureLoadBalancer found a load balancer of another type and
   still applied its own, the call right before the apply is the one that
   ended the deletion: a not-found answer, or a failed poll whose error
   was dropped *)
Lemma apply_after_type_mismatch (clusterName : string) (service : Service)
    (nodes : list Node) (w w1 : W) (existing : LoadBalancer) :
  clGetLoadBalancer cl
    (mkKey (onmetalNamespace o) (getLoadBalancerNameForService clusterName service)) w
  = (Ok existing, w1) ->
  lbType (lbSpec existing) <> desiredTypeOf service ->
  forall request answer,
    In (CApplyLoadBalancer request answer)
       (snd (EnsureLoadBalancer cl o clusterName service nodes w)) ->
    exists j0 c rest,
      snd (EnsureLoadBalancer cl o clusterName service nodes w)
      = (j0 ++ c :: CApplyLoadBalancer request answer :: rest)%list
      /\ endsDeletion c.
Proof.
  intros Hget Htype request answer.
  destruct (EnsureLoadBalancer cl o clusterName service nodes w) as [[[status err] w'] j] eqn:E.
  cbn [snd]. unfold EnsureLoadBalancer in E.
  apply bind_inv in E as (r & u1 & j1 & j1' & E1 & E & ->).
  unfold getLoadBalancer, call in E1. rewrite Hget in E1. injection E1 as <- <- <-.
  apply bind_inv in E as ([existingType deletionErr] & w2 & j2 & j2' & E2 & E & ->).
  apply String.eqb_neq in Htype. rewrite Htype in E2. cbn [negb] in E2.
  apply bind_inv in E2 as (derr & u2 & jd & jd' & Ed & E2 & ->).
  apply ret_inv in E2 as ([= -> ->] & -> & ->).
  pose proof (EnsureLoadBalancerDeleted_success clusterName service w1) as Hd.
  rewrite Ed in Hd.
  pose proof (deletion_stage_applies_nothing cl o clusterName service (Ok existing) w1) as Hna.
  cbv beta iota in Hna. rewrite Htype in Hna. cbn [negb] in Hna.
  unfold bind in Hna. rewrite Ed in Hna. cbn [snd ret] in Hna.
  destruct derr as [e|].
  { apply ret_inv in E as (_ & _ & ->). rewrite !app_nil_r.
    intros [D | Hin]; [discriminate|]. exfalso.
    unfold without in Hna. rewrite app_nil_r in Hna.
    assert (Hf : In (CApplyLoadBalancer request answer) (List.filter isApplyLoadBalancer jd))
      by (apply List.filter_In; split; [exact Hin | reflexivity]).
    rewrite Hna in Hf. exact Hf. }
  destruct (Hd eq_refl) as (j0 & c & -> & Hc).
  destruct (String.eqb (desiredTypeOf service) LoadBalancerTypeInternal
            && String.eqb (PrefixName (cloudConfig o)) "").
  { apply ret_inv in E as (_ & _ & ->). rewrite !app_nil_r.
    intros [D | Hin]; [discriminate|]. exfalso.
    unfold without in Hna. rewrite app_nil_r in Hna.
    assert (Hf : In (CApplyLoadBalancer request answer)
                    (List.filter isApplyLoadBalancer (j0 ++ [c])))
      by (apply List.filter_In; split; [exact Hin | reflexivity]).
    rewrite Hna in Hf. exact Hf. }
  apply bind_inv in E as (applied & w3 & j3 & j3' & E3 & E & ->).
  unfold applyLoadBalancer, call in E3.
  destruct (clApplyLoadBalancer cl _ _) as [a3 w3'] eqn:Eapply. injection E3 as -> -> <-.
  intros Hin.
  assert (Hrest : forall c', In c' j3' -> isApplyLoadBalancer c' = false).
  { intros c' Hc'. destruct applied as [loadBalancer|e].
    - apply bind_inv in E as (routed & w4 & j4 & j4' & E4 & E & ->).
      pose proof (applyLoadBalancerRoutingForLoadBalancer_calls cl o loadBalancer nodes w3) as H4.
      rewrite E4 in H4. cbn [snd] in H4.
      apply in_app_or in Hc' as [Hc' | Hc'].
      + rewrite List.Forall_forall in H4. specialize (H4 _ Hc'). destruct c'; try contradiction; reflexivity.
      + destruct routed as [rerr|]; [apply ret_inv in E as (_ & _ & ->); contradiction|].
        apply bind_inv in E as ([lbStatus werr] & w5 & j5 & j5' & E5 & E & ->).
        assert (H5 : without isApplyLoadBalancer j5).
        { pose proof (waitLoadBalancerActive_applies_nothing (lbType (lbSpec existing))
                        service loadBalancer w4) as G.
          rewrite E5 in G. exact G. }
        assert (Hj5' : j5' = []) by (destruct werr; apply ret_inv in E as (_ & _ & ->); reflexivity).
        subst j5'. rewrite app_nil_r in Hc'.
        destruct (isApplyLoadBalancer c') eqn:Ec'; [|reflexivity]. exfalso.
        assert (Hf : In c' (List.filter isApplyLoadBalancer j5))
          by (apply List.filter_In; split; assumption).
        rewrite H5 in Hf. exact Hf.
    - apply ret_inv in E as (_ & _ & ->). contradiction. }
  unfold without in Hna. rewrite app_nil_r in Hna.
  rewrite (app_nil_r (j0 ++ [c])) in Hin |- *. cbn [app] in Hin |- *.
  destruct Hin as [D | Hin]; [discriminate|].
  apply in_app_or in Hin as [Hin | [Hin | Hin] ].
  - exfalso.
    assert (Hf : In (CApplyLoadBalancer request answer)
                    (List.filter isApplyLoadBalancer (j0 ++ [c])))
      by (apply List.filter_In; split; [exact Hin | reflexivity]).
    rewrite Hna in Hf. exact Hf.
  - injection Hin as <- <-.
    exists (CGetLoadBalancer
              (mkKey (onmetalNamespace o) (getLoadBalancerNameForService clusterName service))
              (Ok existing) :: j0), c, j3'.
    split; [|exact Hc].
    cbn [app]. rewrite <- !app_assoc. reflexivity.
  - specialize (Hrest _ Hin). discriminate.
Qed.

End DeletionWait.

(** X1 (EnsureLoadBalancer): when the first fetch finds a load balancer
    whose type is not the desired one and the run nevertheless applies a
    load balancer, the call made right before that apply is the one that
    ended the deletion: the deletion or a poll of the deletion wait
    answered with not-found, or a poll that failed with an error that is
    not an interruption. *)
Theorem X1_apply_after_type_mismatch :
  forall (W : Type) (onmetalClient : Client W) (o : onmetalLoadBalancer)
         (clusterName : string) (service : Service) (nodes : list Node)
         (w w1 : W) (existing : LoadBalancer),
    clGetLoadBalancer onmetalClient
      (mkKey (onmetalNamespace o) (getLoadBalancerNameForService clusterName service)) w
    = (Ok existing, w1) ->
    lbType (lbSpec existing) <> desiredTypeOf service ->
    forall request answer,
      In (CApplyLoadBalancer request answer)
         (snd (EnsureLoadBalancer onmetalClient o clusterName service nodes w)) ->
      exists j0 c rest,
        snd (EnsureLoadBalancer onmetalClient o clusterName service nodes w)
        = (j0 ++ c :: CApplyLoadBalancer request answer :: rest)%list
        /\ endsDeletion c.
Proof. intros W cl o. exact (apply_after_type_mismatch cl o). Qed.

Lemma X1_apply_after_type_mismatch_witness :
  let existing := Scenario.stored "Internal" [] ["100.0.0.10"] in
  let w := Cluster.world (Scenario.holding existing) [] None in
  let run := EnsureLoadBalancer MemStore.client Cluster.provider "shoot" Cluster.service
               [Cluster.node "m1"] w in
  clGetLoadBalancer MemStore.client Cluster.lbKey w = (Ok existing, w)
  /\ lbType (lbSpec existing) <> desiredTypeOf Cluster.service
  /\ exists request answer,
       In (CApplyLoadBalancer request answer) (snd run)
       /\ exists j0 c rest,
            snd run = (j0 ++ c :: CApplyLoadBalancer request answer :: rest)%list
            /\ endsDeletion c.
Proof.
  intros existing w run.
  assert (Hget : clGetLoadBalancer MemStore.client Cluster.lbKey w = (Ok existing, w))
    by reflexivity.
  assert (Htype : lbType (lbSpec existing) <> desiredTypeOf Cluster.service)
    by discriminate.
  assert (Hj : exists pre request answer post,
             snd run = (pre ++ CApplyLoadBalancer request answer :: post)%list).
  { vm_compute. eexists [_; _; _; _], _, _, _. reflexivity. }
  destruct Hj as (pre & request & answer & post & Hj).
  split; [exact Hget|]. split; [exact Htype|].
  exists request, answer.
  assert (Hin : In (CApplyLoadBalancer request answer) (snd run))
    by (rewrite Hj; apply in_elt).
  split; [exact Hin|].
  exact (X1_apply_after_type_mismatch MemStore.World MemStore.client Cluster.provider
           "shoot" Cluster.service [Cluster.node "m1"] w w existing Hget Htype
           request answer Hin).
Defined.

(* --------------------------------------------------------------------- *)
(* The deletion wait                                                      *)
(* --------------------------------------------------------------------- *)

Section DeletionBound.

Context {W : Type} (cl : Client W) (o : onmetalLoadBalancer).

Lemma findsObject_sound (j : Journal) :
  forallb findsObject j = true -> Forall pollFindsObject j.
Proof.
  induction j as [|c j IH]; simpl; [constructor|].
  intros H. apply andb_true_iff in H as [Hc Hj]. constructor; [|auto].
  destruct c as [k [lb|e]| | | | | | | | | | | |]; simpl in *; try exact I; try discriminate.
  eauto.
Qed.

(* a run of the backoff loop over the deletion condition in which every
   poll still finds the object *)
Lemma deletion_loop_object_stays (num den : Z) (steps : nat) :
  num <> 0%Z ->
  forall (duration : Z) (lb : LoadBalancer) (w : W),
    let '(_, err, _, j) :=
      backoffLoop cl steps duration num den (deletedCondition cl) lb w in
    Forall pollFindsObject j ->
    (exists e, err = Some e /\ Interrupted e = true)
    /\ polls j <= steps
    /\ (exists rest, backoffDelays (pred steps) duration num den = sleeps j ++ rest)%list
    /\ (List.filter interrupts j = [] ->
        polls j = steps /\ sleeps j = backoffDelays (pred steps) duration num den).
Proof.
  intros Hnum. induction steps as [|n IH]; intros duration lb w.
  - simpl. intros _. split; [eauto|]. split; [reflexivity|].
    split; [exists []; reflexivity | split; reflexivity].
  - cbn [backoffLoop]. unfold bind at 1. unfold contextDone, call.
    destruct (clContextDone cl w) as [[c|] w1].
    + finish_run. intros _.
      split; [eexists; split; [reflexivity|]; destruct c; reflexivity|].
      split; [unfold polls; simpl; lia|].
      split; [exists (backoffDelays n duration num den); reflexivity | discriminate].
    + unfold bind at 1. unfold deletedCondition at 1. unfold bind at 1.
      unfold getLoadBalancer, call.
      destruct (clGetLoadBalancer cl (loadBalancerKey lb) w1) as [[fetched|e] w2].
      2:{ assert (Habs : forall c j', ~ Forall pollFindsObject
                           (c :: CGetLoadBalancer (loadBalancerKey lb) (Err e) :: j')).
          { intros c j' H. inversion H as [|? ? _ H']; subst.
            inversion H' as [|? ? Hp _]; subst. destruct Hp as (? & D). discriminate. }
          destruct (IsNotFound e); cbn [negb]; finish_run; intros H; exfalso;
            eapply Habs, H. }
      unfold ret at 1. cbv beta iota zeta.
      destruct n as [|n'].
      * finish_run. intros _. split; [eauto|]. split; [unfold polls; simpl; lia|].
        split; [exists []; reflexivity | split; reflexivity].
      * cbn [Step Steps Duration FactorNum FactorDen].
        destruct (num =? 0)%Z eqn:Ez; [apply Z.eqb_eq in Ez; contradiction|].
        unfold bind at 1. unfold sleep, call.
        destruct (clSleep cl duration w2) as [[c|] w3].
        -- finish_run. intros _.
           split; [eexists; split; [reflexivity|]; destruct c; reflexivity|].
           split; [unfold polls; simpl; lia|].
           split; [exists (backoffDelays n' (duration * num / den) num den); reflexivity|].
           discriminate.
        -- specialize (IH (duration * num / den)%Z fetched w3).
           destruct (backoffLoop cl (S n') (duration * num / den) num den
                       (deletedCondition cl) fetched w3) as [[[lb' err] w4] j4].
           finish_run. intros H.
           inversion H as [|? ? _ H']; subst. inversion H' as [|? ? _ H'']; subst.
           inversion H'' as [|? ? _ H4]; subst.
           destruct (IH H4) as (Herr & Hpolls & [rest Hdel] & Hfull).
           split; [exact Herr|].
           split; [unfold polls in *; simpl; lia|].
           split; [exists rest; simpl in *; now rewrite Hdel|].
           simpl. intros Hq. destruct (Hfull Hq) as [Hp Hs].
           split; [unfold polls in *; simpl; lia | now rewrite Hs].
Qed.

(* EnsureLoadBalancerDeleted when the deletion is accepted and every poll
   still finds the object *)
Lemma EnsureLoadBalancerDeleted_object_stays (clusterName : string) (service : Service)
    (w w1 : W) :
  clDeleteLoadBalancer cl
    (mkKey (onmetalNamespace o) (getLoadBalancerNameForService clusterName service)) w
  = (None, w1) ->
  let '(err, _, j) := EnsureLoadBalancerDeleted cl o clusterName service w in
  Forall pollFindsObject j ->
  (exists e, err = Some e /\ deletionTimeout e)
  /\ polls j <= waitLoadbalancerActiveSteps
  /\ (exists rest, waitDelays = sleeps j ++ rest)%list
  /\ (List.filter interrupts j = [] ->
      polls j = waitLoadbalancerActiveSteps /\ sleeps j = waitDelays)
  /\ without isApplyLoadBalancer j.
Proof.
  intros Hdel.
  pose proof (deletion_stage_applies_nothing cl o clusterName service
                (Ok (withName emptyLoadBalancer "" "")) w) as Hna0.
  unfold EnsureLoadBalancerDeleted. unfold bind at 1. unfold deleteLoadBalancer, call.
  change (loadBalancerKey (withName emptyLoadBalancer (onmetalNamespace o)
            (GetLoadBalancerName clusterName service)))
    with (mkKey (onmetalNamespace o) (getLoadBalancerNameForService clusterName service)).
  rewrite Hdel. unfold bind at 1. unfold waitForDeletingLoadBalancer. unfold bind at 1.
  unfold ExponentialBackoffWithContext.
  match goal with |- context [backoffLoop cl ?s ?d ?n ?m ?c ?l w1] =>
    pose proof (deletion_loop_object_stays n m s ltac:(discriminate) d l w1) as H;
    pose proof (backoffLoop_without cl isApplyLoadBalancer c (fun _ => eq_refl)
                  (fun _ _ => eq_refl)
                  ltac:(intros l0 w0; unfold deletedCondition, getLoadBalancer; calls)
                  s d n m l w1) as Hna;
    destruct (backoffLoop cl s d n m c l w1) as [[[lb' err] w2] j2] end.
  clear Hna0. cbn [snd] in Hna. cbv beta iota zeta.
  assert (Hgoal : Forall pollFindsObject j2 ->
            exists e, err = Some e /\ Interrupted e = true).
  { intros Hj. now destruct (H Hj). }
  destruct err as [e|].
  - destruct (Interrupted e) eqn:Eint; finish_run; rewrite !app_nil_r; intros Hj;
      inversion Hj as [|? ? _ Hj2]; subst.
    + destruct (H Hj2) as (_ & Hp & Hd & Hfull).
      split; [eexists; split; [reflexivity|]; now eexists|].
      split; [exact Hp|]. split; [exact Hd|]. split; [exact Hfull|].
      exact Hna.
    + destruct (Hgoal Hj2) as (e' & [= <-] & He'). congruence.
  - finish_run. rewrite !app_nil_r. intros Hj. inversion Hj as [|? ? _ Hj2]; subst.
    destruct (Hgoal Hj2) as (e' & D & _). discriminate.
Qed.

End DeletionBound.

(** X2 (EnsureLoadBalancer, EnsureLoadBalancerDeleted,
    waitForDeletingLoadBalancer): when the load balancer found has
    another type than the desired one, its deletion is accepted and every
    later fetch still finds the object, EnsureLoadBalancer returns no
    status and the error "failed deleting existing loadbalancer" around
    the timeout of the deletion wait, and applies nothing; the wait makes
    at most 19 polls (20 fetches with the first one), exactly 19 with all
    18 delays slept when the context is never found done. *)
Theorem X2_object_that_stays_is_not_overwritten :
  forall (W : Type) (onmetalClient : Client W) (o : onmetalLoadBalancer)
         (clusterName : string) (service : Service) (nodes : list Node)
         (w w1 w2 : W) (existing : LoadBalancer),
    let name := getLoadBalancerNameForService clusterName service in
    clGetLoadBalancer onmetalClient (mkKey (onmetalNamespace o) name) w = (Ok existing, w1) ->
    lbType (lbSpec existing) <> desiredTypeOf service ->
    clDeleteLoadBalancer onmetalClient (mkKey (onmetalNamespace o) name) w1 = (None, w2) ->
    let '(status, err, _, j) :=
      EnsureLoadBalancer onmetalClient o clusterName service nodes w in
    Forall pollFindsObject j ->
    status = None
    /\ (exists e, err = Some (Errorf ("failed deleting existing loadbalancer " ++ name) e)
                  /\ deletionTimeout e)
    /\ without isApplyLoadBalancer j
    /\ without routingStep j
    /\ polls j <= S waitLoadbalancerActiveSteps
    /\ (List.filter interrupts j = [] ->
        polls j = S waitLoadbalancerActiveSteps /\ sleeps j = waitDelays).
Proof.
  intros W cl o clusterName service nodes w w1 w2 existing name Hget Htype Hdel.
  destruct (EnsureLoadBalancer cl o clusterName service nodes w) as [[[status err] w'] j] eqn:E.
  unfold EnsureLoadBalancer in E.
  apply bind_inv in E as (r & u1 & j1 & j1' & E1 & E & ->).
  unfold getLoadBalancer, call in E1. fold name in E1. rewrite Hget in E1.
  injection E1 as <- <- <-.
  apply bind_inv in E as ([existingType deletionErr] & u2 & j2 & j2' & E2 & E & ->).
  apply String.eqb_neq in Htype. rewrite Htype in E2. cbn [negb] in E2.
  apply bind_inv in E2 as (derr & u3 & jd & jd' & Ed & E2 & ->).
  apply ret_inv in E2 as ([= -> ->] & -> & ->).
  pose proof (EnsureLoadBalancerDeleted_object_stays cl o clusterName service w1 w2 Hdel)
    as Hd.
  pose proof (EnsureLoadBalancerDeleted_routingSteps cl o clusterName service w1) as Hrs.
  rewrite Ed in Hd, Hrs. cbn [snd] in Hrs.
  rewrite app_nil_r. cbn [app]. intros Hj.
  inversion Hj as [|? ? _ Hj']; subst.
  apply Forall_app in Hj' as [Hjd _].
  destruct (Hd Hjd) as ((e & -> & Hto) & Hp & _ & Hfull & Hna).
  apply ret_inv in E as ([= -> ->] & _ & ->). rewrite app_nil_r.
  split; [reflexivity|]. split; [exists e; split; [reflexivity | exact Hto]|].
  split; [exact Hna|]. split; [exact Hrs|].
  split; [unfold polls in *; simpl; lia|].
  simpl. intros Hq. destruct (Hfull Hq) as [Hp' Hs].
  split; [unfold polls in *; simpl; lia | exact Hs].
Qed.

Lemma X2_object_that_stays_is_not_overwritten_witness :
  let existing := Scenario.stored "Internal" ["networking.api.onmetal.de/loadbalancer"]
                    ["100.0.0.10"] in
  let w := Cluster.world (Scenario.holding existing) [] None in
  let run := EnsureLoadBalancer MemStore.client Cluster.provider "shoot" Cluster.service
               [Cluster.node "m1"] w in
  clGetLoadBalancer MemStore.client Cluster.lbKey w = (Ok existing, w)
  /\ lbType (lbSpec existing) <> desiredTypeOf Cluster.service
  /\ fst (clDeleteLoadBalancer MemStore.client Cluster.lbKey w) = None
  /\ Forall pollFindsObject (snd run)
  /\ fst (fst (fst run)) = None
  /\ (exists e, snd (fst (fst run))
                = Some (Errorf "failed deleting existing loadbalancer shoot-web-2f5a9c1e" e)
                /\ deletionTimeout e)
  /\ without isApplyLoadBalancer (snd run)
  /\ polls (snd run) = 20.
Proof.
  intros existing w run.
  assert (Hget : clGetLoadBalancer MemStore.client Cluster.lbKey w = (Ok existing, w))
    by reflexivity.
  assert (Htype : lbType (lbSpec existing) <> desiredTypeOf Cluster.service) by discriminate.
  assert (Hdel : clDeleteLoadBalancer MemStore.client Cluster.lbKey w
                 = (None, snd (clDeleteLoadBalancer MemStore.client Cluster.lbKey w)))
    by reflexivity.
  assert (Hj : Forall pollFindsObject (snd run))
    by (apply findsObject_sound; vm_compute; reflexivity).
  assert (Hq : List.filter interrupts (snd run) = []) by (vm_compute; reflexivity).
  pose proof (X2_object_that_stays_is_not_overwritten MemStore.World MemStore.client
                Cluster.provider "shoot" Cluster.service [Cluster.node "m1"] w w _ existing
                Hget Htype Hdel) as H.
  subst run.
  destruct (EnsureLoadBalancer MemStore.client Cluster.provider "shoot" Cluster.service
              [Cluster.node "m1"] w) as [[[status err] w'] j].
  cbn [fst snd] in *.
  destruct (H Hj) as (Hs & He & Hna & _ & _ & Hfull).
  split; [exact Hget|]. split; [exact Htype|]. split; [reflexivity|].
  split; [exact Hj|]. split; [exact Hs|]. split; [exact He|]. split; [exact Hna|].
  exact (proj1 (Hfull Hq)).
Defined.

(** X3 (EnsureLoadBalancerDeleted, waitForDeletingLoadBalancer): the ways
    EnsureLoadBalancerDeleted ends.  It returns nil only right after a
    call that ended the deletion: the deletion or a poll answered with
    not-found, or a poll that failed with an error that is not an
    interruption.  It returns an error either when the deletion failed
    with something else than not-found, which is then its only call and
    the error it wraps, or when the wait was interrupted or ran out of
    steps, and then the error is the deletion timeout. *)
Theorem X3_deletion_outcomes :
  forall (W : Type) (onmetalClient : Client W) (o : onmetalLoadBalancer)
         (clusterName : string) (service : Service) (w : W),
    let '(err, _, j) := EnsureLoadBalancerDeleted onmetalClient o clusterName service w in
    match err with
    | None => exists j0 c, j = (j0 ++ [c])%list /\ endsDeletion c
    | Some e' =>
        (exists k e msg, j = [CDeleteLoadBalancer k (Some e)]
                         /\ IsNotFound e = false /\ e' = Errorf msg e)
        \/ (deletionTimeout e' /\ exists k rest, j = CDeleteLoadBalancer k None :: rest)
    end.
Proof.
  intros W cl o clusterName service w.
  pose proof (EnsureLoadBalancerDeleted_success cl o clusterName service w) as Hok.
  destruct (EnsureLoadBalancerDeleted cl o clusterName service w) as [[err w'] j] eqn:E.
  destruct err as [e'|]; [|now apply Hok].
  clear Hok. unfold EnsureLoadBalancerDeleted in E.
  apply bind_inv in E as (d & w1 & j1 & j1' & E1 & E & ->).
  unfold deleteLoadBalancer, call in E1.
  destruct (clDeleteLoadBalancer cl _ w) as [d' w1'] eqn:Edel. injection E1 as -> -> <-.
  destruct d as [e|].
  - destruct (IsNotFound e) eqn:Enf; apply ret_inv in E as (D & _ & ->); [discriminate|].
    injection D as ->. left. eexists _, e, _. repeat split. exact Enf.
  - apply bind_inv in E as (r & w2 & j2 & j2' & E2 & E & ->).
    right. split; [|eexists _, _; reflexivity].
    destruct r as [e|]; apply ret_inv in E as (D & _ & _); [|discriminate].
    injection D as ->.
    unfold waitForDeletingLoadBalancer in E2.
    apply bind_inv in E2 as ([lb' err] & w3 & j3 & j3' & E3 & E2 & ->).
    destruct (match err with Some e0 => Interrupted e0 | None => false end);
      apply ret_inv in E2 as (D & _ & _); [|discriminate].
    injection D as ->. now eexists.
Qed.

(* --------------------------------------------------------------------- *)
(* What EnsureLoadBalancer writes                                         *)
(* --------------------------------------------------------------------- *)

Section EnsureWrites.

Context {W : Type} (cl : Client W) (o : onmetalLoadBalancer).

Lemma writes_app (j1 j2 : Journal) : writes (j1 ++ j2)%list = (writes j1 ++ writes j2)%list.
Proof. apply List.filter_app. Qed.

Lemma waitForDeletingLoadBalancer_without (p : Call -> bool) (service : Service)
    (loadBalancer : LoadBalancer) (w : W) :
  (forall r, p (CContextDone r) = false) ->
  (forall d r, p (CSleep d r) = false) ->
  (forall k r, p (CGetLoadBalancer k r) = false) ->
  without p (snd (waitForDeletingLoadBalancer cl service loadBalancer w)).
Proof.
  intros Hctx Hsleep Hget. unfold waitForDeletingLoadBalancer.
  apply without_bind.
  - apply ExponentialBackoffWithContext_without; [exact Hctx | exact Hsleep |].
    intros l w0. unfold deletedCondition, getLoadBalancer.
    apply without_bind; [apply without_call; apply Hget|].
    intros a w1. calls.
  - intros [lb err] w1. calls.
Qed.

Lemma writes_deletion (clusterName : string) (service : Service) (w : W) :
  exists rd,
    writes (snd (EnsureLoadBalancerDeleted cl o clusterName service w))
    = [CDeleteLoadBalancer
         (mkKey (onmetalNamespace o) (getLoadBalancerNameForService clusterName service)) rd].
Proof.
  destruct (EnsureLoadBalancerDeleted cl o clusterName service w) as [[err w'] j] eqn:E.
  unfold EnsureLoadBalancerDeleted in E.
  apply bind_inv in E as (d & w1 & j1 & j1' & E1 & E & ->).
  unfold deleteLoadBalancer, call in E1.
  change (loadBalancerKey (withName emptyLoadBalancer (onmetalNamespace o)
            (GetLoadBalancerName clusterName service)))
    with (mkKey (onmetalNamespace o) (getLoadBalancerNameForService clusterName service))
    in E1.
  destruct (clDeleteLoadBalancer cl _ w) as [rd w1'] eqn:Edel. injection E1 as -> -> <-.
  exists d. cbn [snd]. rewrite writes_app.
  assert (Hq : writes j1' = []).
  { destruct d as [e|].
    - destruct (IsNotFound e); apply ret_inv in E as (_ & _ & ->); reflexivity.
    - apply bind_inv in E as (r & w2 & j2 & j2' & E2 & E & ->).
      pose proof (waitForDeletingLoadBalancer_without isWrite service
                    (withName emptyLoadBalancer (onmetalNamespace o)
                       (GetLoadBalancerName clusterName service)) w1
                    (fun _ => eq_refl) (fun _ _ => eq_refl) (fun _ _ => eq_refl)) as H2.
      rewrite E2 in H2. cbn [snd] in H2. unfold without in H2.
      rewrite writes_app. unfold writes at 1. rewrite H2.
      destruct r; apply ret_inv in E as (_ & _ & ->); reflexivity. }
  rewrite Hq. reflexivity.
Qed.

Lemma writes_routing (loadBalancer : LoadBalancer) (nodes : list Node) (w : W) :
  let '(err, _, j) := applyLoadBalancerRoutingForLoadBalancer cl o loadBalancer nodes w in
  (writes j = [] /\ err <> None)
  \/ exists lbr rr, writes j = [CApplyLoadBalancerRouting lbr rr]
                    /\ (err = None <-> exists stored, rr = Ok stored).
Proof.
  unfold applyLoadBalancerRoutingForLoadBalancer, bind.
  pose proof (nodesNetworkInterfaces_reads cl o (lbNetworkRef (lbSpec loadBalancer)) nodes [] w)
    as Hreads.
  unfold getNetworkInterfacesForNodes.
  destruct (nodesNetworkInterfaces cl o nodes (lbNetworkRef (lbSpec loadBalancer)) [] w)
    as [[r w1] j1].
  simpl in Hreads.
  assert (Hnone : writes j1 = []).
  { apply (without_Forall isWrite resolverCall); [|exact Hreads].
    intros []; simpl; intros; try contradiction; reflexivity. }
  destruct r as [l|e]; finish_run.
  2:{ left. rewrite app_nil_r. split; [exact Hnone | discriminate]. }
  unfold getNetwork, call.
  destruct (clGetNetwork cl _ w1) as [[network|e] w2]; finish_run.
  2:{ left. rewrite writes_app, Hnone. split; [reflexivity | discriminate]. }
  destruct (SetOwnerReference loadBalancer _) as [lbr|e]; finish_run.
  2:{ left. rewrite writes_app, Hnone. split; [reflexivity | discriminate]. }
  unfold applyLoadBalancerRouting, call.
  destruct (clApplyLoadBalancerRouting cl lbr w2) as [[stored|e] w3]; finish_run;
    right; eexists lbr, _; rewrite writes_app, Hnone; (split; [reflexivity|]).
  - split; [eauto | reflexivity].
  - split; [discriminate | intros [? D]; discriminate].
Qed.

Lemma writes_wait (existing : LoadBalancerType) (service : Service)
    (loadBalancer : LoadBalancer) (w : W) :
  let '(_, err, _, j) := waitLoadBalancerActive cl existing service loadBalancer w in
  (writes j = [] /\ err <> None)
  \/ exists lbr ru, writes j = [CUpdateLoadBalancerRouting lbr ru]
                    /\ (err = None <-> exists stored, ru = Ok stored).
Proof.
  unfold waitLoadBalancerActive. unfold bind at 1.
  pose proof (ExponentialBackoffWithContext_without cl isWrite
                (activeCondition cl existing service) waitBackoff
                (loadBalancer, {| Ingress := [] |}) w (fun _ => eq_refl) (fun _ _ => eq_refl)
                ltac:(intros [lb0 st0] w0; unfold activeCondition, getLoadBalancer; calls))
    as Hq.
  destruct (ExponentialBackoffWithContext cl waitBackoff (activeCondition cl existing service)
              (loadBalancer, {| Ingress := [] |}) w) as [[[[lb st] err] w1] j1].
  cbn [snd] in Hq. change (writes j1 = []) in Hq. cbv beta iota zeta.
  destruct (match err with Some e => Interrupted e | None => false end); finish_run.
  { left. rewrite app_nil_r. split; [exact Hq | discriminate]. }
  unfold bind at 1. unfold getLoadBalancerRouting, call.
  destruct (clGetLoadBalancerRouting cl _ w1) as [[lbr|e] w2]; finish_run.
  2:{ left. rewrite writes_app, Hq. split; [reflexivity | discriminate]. }
  unfold bind at 1. unfold timeNow, call. destruct (clTimeNow cl w2) as [now w3].
  unfold bind at 1. unfold updateLoadBalancerRouting, call.
  match goal with |- context [clUpdateLoadBalancerRouting cl ?x w3] =>
    destruct (clUpdateLoadBalancerRouting cl x w3) as [[u|e] w4] end; finish_run;
    right; eexists _, _; rewrite writes_app, Hq; (split; [reflexivity|]).
  - split; [eauto | reflexivity].
  - split; [discriminate | intros [? D]; discriminate].
Qed.

End EnsureWrites.

(** X4 (EnsureLoadBalancer): the store-changing calls of a run are, in
    this order and each at most once: the deletion of the load balancer
    (only when the first fetch found one of another type), the apply of
    the desired load balancer, the apply of the routing object (only
    after the load balancer was applied with success) and the update of
    the routing object (only after the routing object was applied with
    success).  There is never a merge patch, and a status is returned
    exactly when all of them were made and the update succeeded. *)
Theorem X4_ensure_writes_in_order :
  forall (W : Type) (onmetalClient : Client W) (o : onmetalLoadBalancer)
         (clusterName : string) (service : Service) (nodes : list Node) (w : W),
    let key := mkKey (onmetalNamespace o) (getLoadBalancerNameForService clusterName service) in
    let request := desiredLoadBalancer o clusterName service (desiredTypeOf service)
                     (desiredIPs o service) in
    let '(status, err, _, j) :=
      EnsureLoadBalancer onmetalClient o clusterName service nodes w in
    exists first rest deletion,
      j = CGetLoadBalancer key first :: rest
      /\ (deletion = []
          \/ exists existing rd,
               deletion = [CDeleteLoadBalancer key rd]
               /\ first = Ok existing
               /\ lbType (lbSpec existing) <> desiredTypeOf service)
      /\ ((writes j = deletion /\ status = None)
          \/ (exists ra, writes j = (deletion ++ [CApplyLoadBalancer request ra])%list
                         /\ status = None)
          \/ (exists applied lbr rr,
                writes j = (deletion ++ [CApplyLoadBalancer request (Ok applied);
                                         CApplyLoadBalancerRouting lbr rr])%list
                /\ status = None)
          \/ (exists applied lbr stored lbr' ru,
                writes j = (deletion ++ [CApplyLoadBalancer request (Ok applied);
                                         CApplyLoadBalancerRouting lbr (Ok stored);
                                         CUpdateLoadBalancerRouting lbr' ru])%list
                /\ (status <> None <-> exists updated, ru = Ok updated))).
Proof.
  intros W cl o clusterName service nodes w key request.
  destruct (EnsureLoadBalancer cl o clusterName service nodes w) as [[[status err] w'] j] eqn:E.
  unfold EnsureLoadBalancer in E.
  apply bind_inv in E as (first & w1 & j1 & j1' & E1 & E & ->).
  unfold getLoadBalancer, call in E1. fold key in E1.
  destruct (clGetLoadBalancer cl key w) as [first' w1'] eqn:Eget. injection E1 as -> -> <-.
  apply bind_inv in E as ([existingType deletionErr] & w2 & j2 & j2' & E2 & E & ->).
  exists first, (j2 ++ j2')%list, (writes j2).
  split; [reflexivity|].
  assert (Hdel : (j2 = [] /\ deletionErr = None)
                 \/ exists existing rd,
                      writes j2 = [CDeleteLoadBalancer key rd]
                      /\ first = Ok existing
                      /\ lbType (lbSpec existing) <> desiredTypeOf service).
  { destruct first as [existing|e].
    - destruct (String.eqb (lbType (lbSpec existing)) (desiredTypeOf service)) eqn:Et;
        cbn [negb] in E2.
      + apply ret_inv in E2 as ([= _ ->] & _ & ->). now left.
      + apply bind_inv in E2 as (derr & u & jd & jd' & Ed & E2 & ->).
        apply ret_inv in E2 as (_ & _ & ->). rewrite app_nil_r.
        destruct (writes_deletion cl o clusterName service w1) as [rd Hw].
        rewrite Ed in Hw. right. exists existing, rd.
        split; [exact Hw|]. split; [reflexivity|]. now apply String.eqb_neq.
    - apply ret_inv in E2 as ([= _ ->] & _ & ->). now left. }
  split.
  { destruct Hdel as [[-> _] | (existing & rd & Hw & Hf & Ht)]; [now left|].
    right. exists existing, rd. now rewrite Hw. }
  rewrite (writes_app [_]), writes_app.
  change (writes [CGetLoadBalancer key first]) with (@nil Call). cbn [app].
  clear Hdel E2.
  destruct deletionErr as [derr|].
  { apply ret_inv in E as ([= -> _] & _ & ->). left.
    change (writes []) with (@nil Call). now rewrite app_nil_r. }
  fold (desiredIPs o service) in E. fold request in E.
  destruct (String.eqb (desiredTypeOf service) LoadBalancerTypeInternal
            && String.eqb (PrefixName (cloudConfig o)) "").
  { apply ret_inv in E as ([= -> _] & _ & ->). left.
    change (writes []) with (@nil Call). now rewrite app_nil_r. }
  apply bind_inv in E as (applied & w3 & j3 & j3' & E3 & E & ->).
  unfold applyLoadBalancer, call in E3.
  destruct (clApplyLoadBalancer cl request w2) as [a3 w3'] eqn:Eapply.
  injection E3 as -> -> <-.
  rewrite (writes_app [_]).
  change (writes [CApplyLoadBalancer request applied])
    with [CApplyLoadBalancer request applied].
  destruct applied as [loadBalancer|e].
  2:{ apply ret_inv in E as ([= -> _] & _ & ->). right; left. eexists.
      change (writes []) with (@nil Call). rewrite app_nil_r. now split. }
  apply bind_inv in E as (routed & w4 & j4 & j4' & E4 & E & ->).
  pose proof (writes_routing cl o loadBalancer nodes w3) as H4. rewrite E4 in H4.
  rewrite writes_app.
  destruct routed as [rerr|].
  { apply ret_inv in E as ([= -> _] & _ & ->).
    change (writes []) with (@nil Call). rewrite app_nil_r.
    destruct H4 as [[-> _] | (lbr & rr & -> & _)].
    - right; left. eexists. rewrite app_nil_r. now split.
    - right; right; left. eexists _, lbr, rr. now split. }
  destruct H4 as [[_ D] | (lbr & rr & -> & Hrr)]; [congruence|].
  destruct (proj1 Hrr eq_refl) as [stored ->].
  apply bind_inv in E as ([lbStatus werr] & w5 & j5 & j5' & E5 & E & ->).
  pose proof (writes_wait cl existingType service loadBalancer w4) as H5. rewrite E5 in H5.
  rewrite writes_app.
  assert (Hend : j5' = [] /\ (status <> None <-> werr = None)).
  { destruct werr; apply ret_inv in E as ([= -> _] & _ & ->);
      (split; [reflexivity|]); split; congruence. }
  destruct Hend as [-> Hst]. change (writes []) with (@nil Call). rewrite app_nil_r.
  destruct H5 as [[-> Hne] | (lbr' & ru & -> & Hru)].
  - right; right; left. eexists _, lbr, _. rewrite app_nil_r. split; [reflexivity|].
    destruct status; [|reflexivity]. exfalso. apply Hne, Hst. discriminate.
  - right; right; right. eexists _, lbr, stored, lbr', ru. split; [reflexivity|].
    rewrite Hst. exact Hru.
Qed.

(** X5 (EnsureLoadBalancer): for a service that asks for an Internal load
    balancer while the configuration names no prefix, the call returns no
    status and an error, and applies neither a load balancer nor a routing
    object.  The error is "prefixName is not defined in config", unless
    the deletion of an existing load balancer of another type, which comes
    first, failed. *)
Theorem X5_internal_without_prefix :
  forall (W : Type) (onmetalClient : Client W) (o : onmetalLoadBalancer)
         (clusterName : string) (service : Service) (nodes : list Node) (w : W),
    desiredTypeOf service = LoadBalancerTypeInternal ->
    PrefixName (cloudConfig o) = "" ->
    let '(status, err, _, j) :=
      EnsureLoadBalancer onmetalClient o clusterName service nodes w in
    status = None
    /\ (exists e,
          err = Some e
          /\ (e = ErrPlain "prefixName is not defined in config"
              \/ exists e',
                   e = Errorf ("failed deleting existing loadbalancer "
                               ++ getLoadBalancerNameForService clusterName service) e'))
    /\ without isApplyLoadBalancer j
    /\ without routingStep j.
Proof.
  intros W cl o clusterName service nodes w Hint Hpfx.
  destruct (EnsureLoadBalancer cl o clusterName service nodes w) as [[[status err] w'] j] eqn:E.
  unfold EnsureLoadBalancer in E.
  apply bind_inv in E as (first & w1 & j1 & j1' & E1 & E & ->).
  unfold getLoadBalancer, call in E1.
  destruct (clGetLoadBalancer cl _ w) as [first' w1'] eqn:Eget. injection E1 as -> -> <-.
  apply bind_inv in E as ([existingType deletionErr] & w2 & j2 & j2' & E2 & E & ->).
  pose proof (deletion_stage_applies_nothing cl o clusterName service first w1) as Hna.
  pose proof (deletion_stage_routingSteps cl o clusterName service first w1) as Hrs.
  rewrite E2 in Hna, Hrs. cbn [snd] in Hna, Hrs.
  assert (Hj2' : j2' = [] /\ status = None
                 /\ exists e, err = Some e
                    /\ (e = ErrPlain "prefixName is not defined in config"
                        \/ exists e',
                             e = Errorf ("failed deleting existing loadbalancer "
                                         ++ getLoadBalancerNameForService clusterName service)
                                   e')).
  { destruct deletionErr as [derr|].
    - apply ret_inv in E as ([= -> ->] & _ & ->). repeat split. eauto.
    - rewrite Hint, Hpfx in E. cbn [String.eqb Ascii.eqb Bool.eqb andb] in E.
      apply ret_inv in E as ([= -> ->] & _ & ->). repeat split. eauto. }
  destruct Hj2' as (-> & -> & He). rewrite app_nil_r.
  split; [reflexivity|]. split; [exact He|].
  split; apply (without_app _ [_]); auto; reflexivity.
Qed.

Lemma X5_internal_without_prefix_witness :
  let run := EnsureLoadBalancer MemStore.client Internal.unconfigured "shoot" Internal.service
               [Cluster.node "m1"] (Cluster.world Cluster.objects [] None) in
  desiredTypeOf Internal.service = LoadBalancerTypeInternal
  /\ PrefixName (cloudConfig Internal.unconfigured) = ""
  /\ fst (fst (fst run)) = None
  /\ (exists e,
        snd (fst (fst run)) = Some e
        /\ (e = ErrPlain "prefixName is not defined in config"
            \/ exists e',
                 e = Errorf ("failed deleting existing loadbalancer "
                             ++ getLoadBalancerNameForService "shoot" Internal.service) e'))
  /\ without isApplyLoadBalancer (snd run)
  /\ without routingStep (snd run).
Proof.
  intros run.
  assert (Hint : desiredTypeOf Internal.service = LoadBalancerTypeInternal) by reflexivity.
  assert (Hpfx : PrefixName (cloudConfig Internal.unconfigured) = "") by reflexivity.
  pose proof (X5_internal_without_prefix MemStore.World MemStore.client Internal.unconfigured
                "shoot" Internal.service [Cluster.node "m1"]
                (Cluster.world Cluster.objects [] None) Hint Hpfx) as H.
  subst run.
  destruct (EnsureLoadBalancer MemStore.client Internal.unconfigured "shoot" Internal.service
              [Cluster.node "m1"] (Cluster.world Cluster.objects [] None))
    as [[[status err] w'] j].
  split; [exact Hint|]. split; [exact Hpfx|]. exact H.
Defined.

(* the deletion comes before the check of the configuration: a Public
   load balancer is deleted, then the call fails and nothing replaces it *)
Example internal_without_prefix_deletes_first :
  let w := Cluster.world (Scenario.holding (Scenario.stored "Public" [] ["10.0.0.1"])) [] None in
  let run := EnsureLoadBalancer MemStore.client Internal.unconfigured "shoot" Internal.service
               [Cluster.node "m1"] w in
  fst (fst run) = (None, Some (ErrPlain "prefixName is not defined in config"))
  /\ writes (snd run) = [CDeleteLoadBalancer Cluster.lbKey None]
  /\ MemStore.loadBalancers (MemStore.store (snd (fst run))) !! ("ns", "shoot-web-2f5a9c1e")
     = None.
Proof. repeat split; vm_compute; reflexivity. Qed.

(* --------------------------------------------------------------------- *)
(* The activation wait: how it ends                                       *)
(* --------------------------------------------------------------------- *)

Section ActivationEnd.

Context {W : Type} (cl : Client W) (o : onmetalLoadBalancer).

Lemma activeCondition_fetched (existing : LoadBalancerType) (service : Service)
    (lb fetched : LoadBalancer) (st : LoadBalancerStatus) (w1 w2 : W) :
  clGetLoadBalancer cl (loadBalancerKey lb) w1 = (Ok fetched, w2) ->
  activeCondition cl existing service (lb, st) w1
  = (fetched, fst (pollResult existing service st fetched),
     snd (pollResult existing service st fetched), None, w2,
     [CGetLoadBalancer (loadBalancerKey lb) (Ok fetched)]).
Proof.
  intros Hget. unfold activeCondition, bind, getLoadBalancer, call, pollResult.
  rewrite Hget. destruct (length (lbStatusIPs fetched) =? 0)%nat; [reflexivity|].
  destruct (negb _ && _); reflexivity.
Qed.

Lemma pollResult_ready (existing : LoadBalancerType) (service : Service)
    (st st1 : LoadBalancerStatus) (fetched : LoadBalancer) (k : ObjectKey) :
  pollResult existing service st fetched = (st1, true) ->
  endsActivation existing service st1 (CGetLoadBalancer k (Ok fetched)).
Proof.
  unfold pollResult. destruct (length (lbStatusIPs fetched) =? 0)%nat eqn:El; [discriminate|].
  destruct (negb _ && _) eqn:G; [discriminate|]. intros [= <-].
  cbn [endsActivation]. split; [intros E0; rewrite E0 in El; discriminate|].
  split; [reflexivity|].
  intros [G1 G2]. apply String.eqb_neq in G1.
  apply LoadBalancerStatusEqual_eq in G2. rewrite G1, G2 in G. discriminate.
Qed.

Lemma activation_loop_end (existing : LoadBalancerType) (service : Service)
    (num den : Z) (steps : nat) :
  forall (duration : Z) (lb : LoadBalancer) (st : LoadBalancerStatus) (w : W),
    let '(_, st', err, _, j) :=
      backoffLoop cl steps duration num den (activeCondition cl existing service) (lb, st) w in
    match err with
    | Some e => Interrupted e = true
                \/ exists j0 k, j = (j0 ++ [CGetLoadBalancer k (Err e)])%list
    | None => exists j0 k fetched,
                j = (j0 ++ [CGetLoadBalancer k (Ok fetched)])%list
                /\ endsActivation existing service st' (CGetLoadBalancer k (Ok fetched))
    end.
Proof.
  induction steps as [|n IH]; intros duration lb st w.
  - simpl. now left.
  - cbn [backoffLoop]. unfold bind at 1. unfold contextDone, call.
    destruct (clContextDone cl w) as [[c|] w1].
    + finish_run. left. destruct c; reflexivity.
    + unfold bind at 1.
      destruct (clGetLoadBalancer cl (loadBalancerKey lb) w1) as [[fetched|e] w2] eqn:Hget.
      2:{ unfold activeCondition at 1. unfold bind at 1. unfold getLoadBalancer, call.
          rewrite Hget. finish_run. right. eexists [_], _. reflexivity. }
      rewrite (activeCondition_fetched existing service lb fetched st w1 w2 Hget).
      destruct (pollResult existing service st fetched) as [st1 ok] eqn:Epr.
      cbn [fst snd]. cbv beta iota zeta.
      destruct ok.
      * finish_run. eexists [_], _, fetched. split; [reflexivity|].
        eapply pollResult_ready, Epr.
      * destruct n as [|n'].
        -- finish_run. now left.
        -- cbn [Step Steps Duration FactorNum FactorDen].
           unfold bind at 1. unfold sleep, call.
           match goal with |- context [clSleep cl ?d w2] =>
             destruct (clSleep cl d w2) as [[c|] w3] end.
           ++ finish_run. left. destruct c; reflexivity.
           ++ match goal with |- context [backoffLoop cl (S n') ?d num den ?c ?l w3] =>
                specialize (IH d fetched st1 w3);
                destruct (backoffLoop cl (S n') d num den c l w3)
                  as [[[[lb' st'] err] w4] j4] end.
              finish_run. destruct err as [e|].
              ** destruct IH as [IH | (j0 & k & ->)]; [now left|].
                 right. eexists (_ :: _ :: _ :: j0), k. reflexivity.
              ** destruct IH as (j0 & k & f0 & -> & He).
                 eexists (_ :: _ :: _ :: j0), k, f0. split; [reflexivity | exact He].
Qed.

End ActivationEnd.

Section ActivationSuccess.

Context {W : Type} (cl : Client W) (o : onmetalLoadBalancer).

Lemma waitLoadBalancerActive_success (existing : LoadBalancerType) (service : Service)
    (loadBalancer : LoadBalancer) (w : W) :
  let '(st, err, _, j) := waitLoadBalancerActive cl existing service loadBalancer w in
  err = None ->
  exists j0 c k lbr now stored,
    j = (j0 ++ [c; CGetLoadBalancerRouting k (Ok lbr); CTimeNow now;
                CUpdateLoadBalancerRouting (touched lbr now) (Ok stored)])%list
    /\ endsActivation existing service st c.
Proof.
  destruct (waitLoadBalancerActive cl existing service loadBalancer w)
    as [[[st err] w'] j] eqn:E.
  intros ->. unfold waitLoadBalancerActive in E.
  apply bind_inv in E as ([[lb st1] lerr] & w1 & j1 & j1' & E1 & E & ->).
  unfold ExponentialBackoffWithContext in E1.
  pose proof (activation_loop_end cl existing service (FactorNum waitBackoff)
                (FactorDen waitBackoff) (Steps waitBackoff) (Duration waitBackoff)
                loadBalancer {| Ingress := [] |} w) as H.
  rewrite E1 in H. clear E1.
  assert (Hc : exists j0 c, j1 = (j0 ++ [c])%list /\ endsActivation existing service st1 c
                            /\ (match lerr with Some e => Interrupted e | None => false end)
                               = false).
  { destruct lerr as [e|].
    - destruct (Interrupted e) eqn:Eint.
      + apply ret_inv in E as (D & _ & _). discriminate.
      + destruct H as [H | (j0 & k & ->)]; [congruence|].
        eexists j0, _. split; [reflexivity|]. split; [exact Eint | reflexivity].
    - destruct H as (j0 & k & fetched & -> & He). eexists j0, _. now split. }
  destruct Hc as (j0 & c & -> & Hc & Hni). rewrite Hni in E.
  apply bind_inv in E as (r & w2 & j2 & j2' & E2 & E & ->).
  unfold getLoadBalancerRouting, call in E2.
  destruct (clGetLoadBalancerRouting cl _ w1) as [r' w2'] eqn:Eget. injection E2 as -> -> <-.
  destruct r as [lbr|e]; [|apply ret_inv in E as (D & _ & _); discriminate].
  apply bind_inv in E as (now & w3 & j3 & j3' & E3 & E & ->).
  unfold timeNow, call in E3.
  destruct (clTimeNow cl w2) as [now' w3'] eqn:Enow. injection E3 as -> -> <-.
  apply bind_inv in E as (u & w4 & j4 & j4' & E4 & E & ->).
  unfold updateLoadBalancerRouting, call in E4.
  fold (touchLabel now) in E4. fold (touched lbr now) in E4.
  destruct (clUpdateLoadBalancerRouting cl (touched lbr now) w3) as [u' w4'] eqn:Eupd.
  injection E4 as -> -> <-.
  destruct u as [stored|e]; apply ret_inv in E as (D & _ & ->); [|discriminate].
  injection D as ->.
  exists j0, c, (loadBalancerKey lb), lbr, now, stored. split; [|exact Hc].
  rewrite <- app_assoc. reflexivity.
Qed.

End ActivationSuccess.

Section ActivationStatus.

Context {W : Type} (cl : Client W) (o : onmetalLoadBalancer).

Lemma gatheredStatus_app (st : LoadBalancerStatus) (j1 j2 : Journal) :
  gatheredStatus st (j1 ++ j2)%list = gatheredStatus (gatheredStatus st j1) j2.
Proof. apply List.fold_left_app. Qed.

Lemma gatheredStatus_routing (st : LoadBalancerStatus) (j : Journal) :
  Forall routingCall j -> gatheredStatus st j = st.
Proof.
  induction 1 as [|c j Hc _ IH]; [reflexivity|].
  destruct c; try contradiction; exact IH.
Qed.

Lemma fst_pollResult (existing : LoadBalancerType) (service : Service)
    (st : LoadBalancerStatus) (fetched : LoadBalancer) (k : ObjectKey) :
  fst (pollResult existing service st fetched)
  = gatheredStatus st [CGetLoadBalancer k (Ok fetched)].
Proof.
  unfold pollResult, gatheredStatus. cbn [List.fold_left].
  destruct (length (lbStatusIPs fetched) =? 0)%nat; [reflexivity|].
  destruct (negb _ && _); reflexivity.
Qed.

(* the status the loop of the activation wait ends with is the one its
   polls gathered, however it ends *)
Lemma activation_loop_gathers (existing : LoadBalancerType) (service : Service)
    (num den : Z) (steps : nat) :
  forall (duration : Z) (lb : LoadBalancer) (st : LoadBalancerStatus) (w : W),
    let '(_, st', _, _, j) :=
      backoffLoop cl steps duration num den (activeCondition cl existing service) (lb, st) w in
    st' = gatheredStatus st j.
Proof.
  induction steps as [|n IH]; intros duration lb st w.
  - reflexivity.
  - cbn [backoffLoop]. unfold bind at 1. unfold contextDone, call.
    destruct (clContextDone cl w) as [[c|] w1]; [finish_run; reflexivity|].
    unfold bind at 1.
    destruct (clGetLoadBalancer cl (loadBalancerKey lb) w1) as [[fetched|e] w2] eqn:Hget.
    2:{ unfold activeCondition at 1. unfold bind at 1. unfold getLoadBalancer, call.
        rewrite Hget. finish_run. reflexivity. }
    rewrite (activeCondition_fetched cl existing service lb fetched st w1 w2 Hget).
    pose proof (fst_pollResult existing service st fetched (loadBalancerKey lb)) as Hst.
    destruct (pollResult existing service st fetched) as [st1 ok].
    cbn [fst] in Hst. cbn [fst snd]. cbv beta iota zeta.
    destruct ok; [finish_run; exact Hst|].
    destruct n as [|n']; [finish_run; exact Hst|].
    cbn [Step Steps Duration FactorNum FactorDen].
    unfold bind at 1. unfold sleep, call.
    match goal with |- context [clSleep cl ?d w2] =>
      destruct (clSleep cl d w2) as [[c|] w3] end; [finish_run; exact Hst|].
    match goal with |- context [backoffLoop cl (S n') ?d num den ?c ?l w3] =>
      specialize (IH d fetched st1 w3);
      destruct (backoffLoop cl (S n') d num den c l w3) as [[[[lb' st'] err] w4] j4] end.
    finish_run. rewrite IH, Hst. reflexivity.
Qed.

Lemma waitLoadBalancerActive_gathers (existing : LoadBalancerType) (service : Service)
    (loadBalancer : LoadBalancer) (w : W) :
  let '(st, _, _, j) := waitLoadBalancerActive cl existing service loadBalancer w in
  st = gatheredStatus {| Ingress := [] |} j.
Proof.
  destruct (waitLoadBalancerActive cl existing service loadBalancer w)
    as [[[st err] w'] j] eqn:E.
  unfold waitLoadBalancerActive in E.
  apply bind_inv in E as ([[lb st1] lerr] & w1 & j1 & j1' & E1 & E & ->).
  unfold ExponentialBackoffWithContext in E1.
  pose proof (activation_loop_gathers existing service (FactorNum waitBackoff)
                (FactorDen waitBackoff) (Steps waitBackoff) (Duration waitBackoff)
                loadBalancer {| Ingress := [] |} w) as H.
  rewrite E1 in H. clear E1. rewrite gatheredStatus_app, <- H. clear H.
  destruct (match lerr with Some e => Interrupted e | None => false end).
  { now apply ret_inv in E as ([= -> _] & _ & ->). }
  apply bind_inv in E as (r & w2 & j2 & j2' & E2 & E & ->).
  unfold getLoadBalancerRouting, call in E2.
  destruct (clGetLoadBalancerRouting cl _ w1) as [r' w2']. injection E2 as -> -> <-.
  destruct r as [lbr|e]; [|now apply ret_inv in E as ([= -> _] & _ & ->)].
  apply bind_inv in E as (now & w3 & j3 & j3' & E3 & E & ->).
  unfold timeNow, call in E3.
  destruct (clTimeNow cl w2) as [now' w3']. injection E3 as -> -> <-.
  apply bind_inv in E as (u & w4 & j4 & j4' & E4 & E & ->).
  unfold updateLoadBalancerRouting, call in E4.
  match type of E4 with context [clUpdateLoadBalancerRouting cl ?x w3] =>
    destruct (clUpdateLoadBalancerRouting cl x w3) as [u' w4'] end.
  injection E4 as -> -> <-.
  destruct u; now apply ret_inv in E as ([= -> _] & _ & ->).
Qed.

End ActivationStatus.

(** X6 (EnsureLoadBalancer, waitLoadBalancerActive): when EnsureLoadBalancer
    returns a status, it returns no error, and its last four calls are a
    poll of the load balancer, the fetch of the routing object, the
    reading of the clock and the successful update of the routing object
    with the label "updated".  The status is the one gathered by the
    polls made after the apply: the addresses of the last of them that
    found any, and empty when none did.  Either the last poll found
    addresses and was not deferred, and the status consists of exactly
    those addresses; or the last poll failed with an error that is not an
    interruption (not-found for instance) and the error was dropped. *)
Theorem X6_returned_status :
  forall (W : Type) (onmetalClient : Client W) (o : onmetalLoadBalancer)
         (clusterName : string) (service : Service) (nodes : list Node) (w : W),
    let '(status, err, _, j) :=
      EnsureLoadBalancer onmetalClient o clusterName service nodes w in
    forall st,
      status = Some st ->
      err = None
      /\ st = gatheredStatus {| Ingress := [] |} (afterApply j)
      /\ exists first j0 c k lbr now stored,
           j = (CGetLoadBalancer
                  (mkKey (onmetalNamespace o)
                     (getLoadBalancerNameForService clusterName service)) first
                :: j0 ++ [c; CGetLoadBalancerRouting k (Ok lbr); CTimeNow now;
                          CUpdateLoadBalancerRouting (touched lbr now) (Ok stored)])%list
           /\ endsActivation (recordedType first) service st c.
Proof.
  intros W cl o clusterName service nodes w.
  destruct (EnsureLoadBalancer cl o clusterName service nodes w) as [[[status err] w'] j] eqn:E.
  intros st ->. unfold EnsureLoadBalancer in E.
  apply bind_inv in E as (first & w1 & j1 & j1' & E1 & E & ->).
  unfold getLoadBalancer, call in E1.
  destruct (clGetLoadBalancer cl _ w) as [first' w1'] eqn:Eget. injection E1 as -> -> <-.
  apply bind_inv in E as ([existingType deletionErr] & w2 & j2 & j2' & E2 & E & ->).
  pose proof (deletion_stage_applies_nothing cl o clusterName service first w1) as Hna.
  rewrite E2 in Hna. cbn [snd] in Hna.
  assert (Hrec : existingType = recordedType first).
  { destruct first as [existing|e]; cbn [recordedType].
    - destruct (negb _).
      + apply bind_inv in E2 as (derr & u & jd & jd' & Ed & E2 & ->).
        apply ret_inv in E2 as ([= -> _] & _ & _). reflexivity.
      + apply ret_inv in E2 as ([= -> _] & _ & _). reflexivity.
    - apply ret_inv in E2 as ([= -> _] & _ & _). reflexivity. }
  destruct deletionErr as [derr|]; [apply ret_inv in E as (D & _ & _); discriminate|].
  destruct (String.eqb (desiredTypeOf service) LoadBalancerTypeInternal
            && String.eqb (PrefixName (cloudConfig o)) "");
    [apply ret_inv in E as (D & _ & _); discriminate|].
  apply bind_inv in E as (applied & w3 & j3 & j3' & E3 & E & ->).
  unfold applyLoadBalancer, call in E3.
  destruct (clApplyLoadBalancer cl _ w2) as [applied' w3'']. injection E3 as -> -> <-.
  destruct applied as [loadBalancer|e]; [|apply ret_inv in E as (D & _ & _); discriminate].
  apply bind_inv in E as (routed & w4 & j4 & j4' & E4 & E & ->).
  pose proof (applyLoadBalancerRoutingForLoadBalancer_calls cl o loadBalancer nodes w3) as H4.
  rewrite E4 in H4. cbn [snd] in H4.
  destruct routed as [rerr|]; [apply ret_inv in E as (D & _ & _); discriminate|].
  apply bind_inv in E as ([lbStatus werr] & w5 & j5 & j5' & E5 & E & ->).
  pose proof (waitLoadBalancerActive_success cl existingType service loadBalancer w4) as H5.
  pose proof (waitLoadBalancerActive_gathers cl existingType service loadBalancer w4) as G5.
  rewrite E5 in H5, G5.
  destruct werr as [e|]; apply ret_inv in E as (D & _ & ->); [discriminate|].
  injection D as -> ->. split; [reflexivity|]. split.
  - change (CGetLoadBalancer ?k first :: ?l)%list with ([CGetLoadBalancer k first] ++ l)%list.
    rewrite app_assoc, afterApply_without.
    2:{ unfold without in *. rewrite List.filter_app, Hna. reflexivity. }
    cbn [app afterApply]. rewrite app_nil_r, gatheredStatus_app.
    now rewrite (gatheredStatus_routing _ _ H4).
  - destruct (H5 eq_refl) as (j0 & c & k & lbr & now & stored & -> & Hc).
    eexists first, (j2 ++ [_] ++ j4 ++ j0)%list, c, k, lbr, now, stored.
    split; [|now rewrite <- Hrec].
    cbn [app]. rewrite app_nil_r. repeat (rewrite <- app_assoc; cbn [app]). reflexivity.
Qed.

Lemma X6_returned_status_witness :
  let w := Cluster.world (Scenario.holding (Scenario.stored "Public" [] ["10.0.0.1"])) [] None in
  let run := EnsureLoadBalancer MemStore.client Cluster.provider "shoot" Cluster.service
               [Cluster.node "m1"] w in
  let st := {| Ingress := [ {| ingIP := "10.0.0.1"; ingHostname := "" |} ] |} in
  fst (fst (fst run)) = Some st
  /\ snd (fst (fst run)) = None
  /\ st = gatheredStatus {| Ingress := [] |} (afterApply (snd run))
  /\ exists first j0 c k lbr now stored,
       snd run = (CGetLoadBalancer Cluster.lbKey first
                  :: j0 ++ [c; CGetLoadBalancerRouting k (Ok lbr); CTimeNow now;
                            CUpdateLoadBalancerRouting (touched lbr now) (Ok stored)])%list
       /\ endsActivation (recordedType first) Cluster.service st c.
Proof.
  intros w run st.
  assert (Hs : fst (fst (fst run)) = Some st) by reflexivity.
  pose proof (X6_returned_status MemStore.World MemStore.client Cluster.provider "shoot"
                Cluster.service [Cluster.node "m1"] w) as H.
  subst run.
  destruct (EnsureLoadBalancer MemStore.client Cluster.provider "shoot" Cluster.service
              [Cluster.node "m1"] w) as [[[status err] w'] j].
  cbn [fst snd] in *. split; [exact Hs|]. exact (H st Hs).
Defined.

(* a poll answered with not-found right after the apply (the object is
   not visible yet): the error is dropped and an empty status is returned
   as a success *)
Example lost_poll_gives_empty_status :
  let gone := ErrNotFound "LoadBalancer shoot-web-2f5a9c1e not found" in
  let w := Cluster.world Cluster.objects
             [MemStore.quiet; MemStore.quiet; MemStore.quiet; MemStore.quiet;
              MemStore.quiet; MemStore.quiet; MemStore.quiet; MemStore.failing gone]
             None in
  let run := EnsureLoadBalancer MemStore.client Cluster.provider "shoot" Cluster.service
               [Cluster.node "m1"] w in
  fst (fst run) = (Some {| Ingress := [] |}, None)
  /\ polls (afterApply (snd run)) = 1.
Proof. split; vm_compute; reflexivity. Qed.

(** X7 (extractMachineNameFromProviderID): the machine name taken from a
    provider ID never contains "/"; and a provider ID that ends in "/"
    followed by a name without "/" gives exactly that name, whatever
    stands before, so a trailing "/" gives the empty name. *)
Theorem X7_machine_name_of_provider_id :
  forall providerID : string,
    GoStrings.contains (extractMachineNameFromProviderID providerID) slash = false
    /\ forall prefix name : string,
         providerID = prefix ++ "/" ++ name ->
         GoStrings.contains name slash = false ->
         extractMachineNameFromProviderID providerID = name.
Proof.
  intros providerID. split.
  - unfold extractMachineNameFromProviderID.
    destruct (GoStrings.LastIndex providerID slash) as [i|] eqn:E; [|reflexivity].
    destruct (String.length providerID <=? i + 1)%nat; [reflexivity|].
    replace (i + 1)%nat with (S i) by lia.
    now apply LastIndex_tail in E as [_ E].
  - intros prefix name -> Hname. now apply machine_name_after_last_slash.
Qed.

Lemma X7_machine_name_of_provider_id_witness :
  GoStrings.contains "machine-1" slash = false
  /\ extractMachineNameFromProviderID "onmetal://shoot--dev/machine-1" = "machine-1".
Proof.
  split; [reflexivity|].
  apply (proj2 (X7_machine_name_of_provider_id "onmetal://shoot--dev/machine-1")
           "onmetal://shoot--dev" "machine-1"); reflexivity.
Defined.

Section UpdateOutcome.

Context {W : Type} (cl : Client W) (o : onmetalLoadBalancer).

Lemma resolver_changes_nothing (j : Journal) : Forall resolverCall j -> writes j = [].
Proof.
  induction 1 as [|c j Hc _ IH]; [reflexivity|].
  destruct c; try contradiction; exact IH.
Qed.

End UpdateOutcome.

(** X8 (UpdateLoadBalancer): the ways UpdateLoadBalancer ends.  It returns
    nil only after it fetched the load balancer and the routing object
    under the derived name, resolved the nodes against the network named
    in the fetched load balancer, and, as its last call and only write,
    got a merge patch accepted whose object is the fetched routing object
    with the resolved references as destinations, in the resolver's order,
    and whose base is the fetched routing object itself.  When it returns
    an error it either wrote nothing at all, or that same merge patch was
    its last call, was refused, and the error wraps the refusal.  It never
    deletes, applies or updates anything. *)
Theorem X8_update_outcomes :
  forall (W : Type) (onmetalClient : Client W) (o : onmetalLoadBalancer)
         (clusterName : string) (service : Service) (nodes : list Node) (w : W),
    let key := mkKey (onmetalNamespace o) (getLoadBalancerNameForService clusterName service) in
    let '(err, _, j) := UpdateLoadBalancer onmetalClient o clusterName service nodes w in
    (err <> None /\ writes j = [])
    \/ exists loadBalancer loadBalancerRouting w2 destinations answer j0,
         let patched :=
           {| lbrName := lbrName loadBalancerRouting;
              lbrNamespace := lbrNamespace loadBalancerRouting;
              lbrLabels := lbrLabels loadBalancerRouting;
              lbrOwnerReferences := lbrOwnerReferences loadBalancerRouting;
              lbrNetworkRef := lbrNetworkRef loadBalancerRouting;
              lbrDestinations := destinations |} in
         nodes <> []
         /\ j = (CGetLoadBalancer key (Ok loadBalancer)
                 :: CGetLoadBalancerRouting key (Ok loadBalancerRouting)
                 :: j0 ++ [CMergePatchLoadBalancerRouting patched loadBalancerRouting answer])%list
         /\ getNetworkInterfacesForNodes onmetalClient o nodes
              (lbNetworkRef (lbSpec loadBalancer)) w2
            = (Ok destinations, snd (fst (getNetworkInterfacesForNodes onmetalClient o nodes
                                            (lbNetworkRef (lbSpec loadBalancer)) w2)), j0)
         /\ writes j = [CMergePatchLoadBalancerRouting patched loadBalancerRouting answer]
         /\ match answer with
            | Ok _ => err = None
            | Err e => exists msg, err = Some (Errorf msg e)
            end.
Proof.
  intros W cl o clusterName service nodes w key.
  unfold UpdateLoadBalancer.
  destruct (length nodes =? 0)%nat eqn:El;
    [finish_run; left; split; [discriminate | reflexivity]|].
  assert (Hne : nodes <> []) by (intros ->; discriminate). clear El.
  unfold bind, getLoadBalancer, getLoadBalancerRouting, call.
  unfold GetLoadBalancerName.
  fold key.
  destruct (clGetLoadBalancer cl key w) as [[lb|e] w1];
    [|finish_run; left; split; [discriminate | reflexivity]].
  destruct (clGetLoadBalancerRouting cl key w1) as [[lbr|e] w2];
    [|finish_run; left; split; [discriminate | reflexivity]].
  pose proof (nodesNetworkInterfaces_reads cl o (lbNetworkRef (lbSpec lb)) nodes [] w2) as Hreads.
  unfold getNetworkInterfacesForNodes.
  destruct (nodesNetworkInterfaces cl o nodes (lbNetworkRef (lbSpec lb)) [] w2)
    as [[r w3] j3] eqn:Eres.
  cbn [snd] in Hreads. apply resolver_changes_nothing in Hreads.
  destruct r as [l|e]; cbn [snd fst].
  - unfold mergePatchLoadBalancerRouting, call.
    destruct (clMergePatchLoadBalancerRouting cl _ _ w3) as [answer w4] eqn:Ep.
    destruct answer as [stored|e]; finish_run; rewrite !app_nil_r;
      right; eexists lb, lbr, w2, l, _, j3;
      (split; [exact Hne|]); rewrite Eres; cbn [fst snd];
      (split; [reflexivity|]); (split; [reflexivity|]);
      (split; [rewrite (writes_app [_]), (writes_app [_]), writes_app, Hreads; reflexivity|]).
    + reflexivity.
    + eauto.
  - finish_run. left. split; [discriminate|].
    rewrite !app_nil_r. rewrite (writes_app [_]), (writes_app [_]), Hreads. reflexivity.
Qed.

Section InstanceLookups.

Context {W : Type} (cl : InstancesV2.Client W) (ProviderName : string)
        (o : InstancesV2.onmetalInstancesV2).

Ltac finish_instances :=
  unfold InstancesV2.ret; cbv beta iota zeta; cbn [fst snd].

(* the loop over the attachments: it ends without an error after the two
   calls of every attachment succeeded, or with the wrapped error of the
   first call that failed, which is then its last call *)
Lemma labelNetworkInterfaces_outcome (node : Node) (machine : InstancesV2.MachineObject)
    (networkInterfaces : list MachineNIC) (w : W) :
  let '(err, _, j) :=
    InstancesV2.labelNetworkInterfaces cl o node machine networkInterfaces w in
  match err with
  | None =>
      exists answers,
        length answers = length networkInterfaces
        /\ j = labelSteps o (mName (InstancesV2.moMachine machine)) networkInterfaces answers
  | Some e =>
      exists j0 c cause msg,
        j = (j0 ++ [c])%list /\ Forall answered j0 /\ refusal c = Some cause
        /\ e = Errorf msg cause
  end.
Proof.
  revert w. induction networkInterfaces as [|networkInterface rest IH]; intros w.
  - exists []. split; reflexivity.
  - cbn [InstancesV2.labelNetworkInterfaces].
    unfold InstancesV2.bind at 1. unfold InstancesV2.getNetworkInterface, InstancesV2.call.
    destruct (InstancesV2.clGetNetworkInterface cl _ w) as [[nic|e] w1].
    2:{ finish_instances. eexists [], _, e, _. repeat split. constructor. }
    unfold InstancesV2.bind at 1.
    unfold InstancesV2.mergePatchNetworkInterface, InstancesV2.call.
    destruct (InstancesV2.clMergePatchNetworkInterface cl _ _ w1) as [[stored|e] w2].
    2:{ finish_instances. eexists [_], _, e, _. split; [reflexivity|].
        split; [repeat constructor|]. split; reflexivity. }
    specialize (IH w2).
    destruct (InstancesV2.labelNetworkInterfaces cl o node machine rest w2)
      as [[err w3] j3].
    cbn [app]. destruct err as [e|].
    + destruct IH as (j0 & c & cause & msg & -> & Hj0 & Hc & ->).
      eexists (_ :: _ :: j0)%list, c, cause, msg. split; [reflexivity|].
      split; [repeat constructor; exact Hj0|]. split; [exact Hc | reflexivity].
    + destruct IH as (answers & Hlen & ->).
      exists ((nic, stored) :: answers). split; [cbn; now rewrite Hlen | reflexivity].
Qed.

Lemma labelSteps_answered (machineName : string) (networkInterfaces : list MachineNIC) :
  forall answers, Forall answered (labelSteps o machineName networkInterfaces answers).
Proof.
  induction networkInterfaces as [|n rest IH]; intros [|a answers]; cbn; try constructor.
  - exact I.
  - constructor; [exact I | apply IH].
Qed.

(* a run of InstanceMetadata that gives metadata *)
Lemma InstanceMetadata_success (node : Node) (w : W) :
  let '(meta, err, _, j) :=
    InstancesV2.InstanceMetadata cl ProviderName o (Some node) w in
  forall m,
    meta = Some m ->
    err = None
    /\ exists fetched patched answers,
         j = (InstancesV2.CGetMachine
                (mkKey (InstancesV2.onmetalNamespace o) (nodeName node)) (Ok fetched)
              :: InstancesV2.CMergePatchMachine
                   (InstancesV2.labelMachine (InstancesV2.clusterName o) fetched) fetched
                   (Ok patched)
              :: labelSteps o (mName (InstancesV2.moMachine patched))
                   (mNetworkInterfaces (InstancesV2.moMachine patched)) answers)%list
         /\ length answers = length (mNetworkInterfaces (InstancesV2.moMachine patched))
         /\ m = metadataOf ProviderName o node patched.
Proof.
  unfold InstancesV2.InstanceMetadata.
  unfold InstancesV2.bind at 1. unfold InstancesV2.getMachine, InstancesV2.call.
  destruct (InstancesV2.clGetMachine cl _ w) as [[fetched|e] w1];
    [|finish_instances; intros m D; discriminate].
  unfold InstancesV2.bind at 1. unfold InstancesV2.mergePatchMachine, InstancesV2.call.
  destruct (InstancesV2.clMergePatchMachine cl _ _ w1) as [[patched|e] w2];
    [|finish_instances; intros m D; discriminate].
  unfold InstancesV2.bind at 1.
  pose proof (labelNetworkInterfaces_outcome node patched
                (mNetworkInterfaces (InstancesV2.moMachine patched)) w2) as Hl.
  destruct (InstancesV2.labelNetworkInterfaces cl o node patched _ w2) as [[err w3] j3].
  destruct err as [e|]; finish_instances; intros m D; [discriminate|].
  injection D as <-. split; [reflexivity|].
  destruct Hl as (answers & Hlen & ->).
  exists fetched, patched, answers. rewrite app_nil_r. cbn [app].
  split; [reflexivity|]. split; [exact Hlen|].
  unfold metadataOf. destruct (InstancesV2.moMachinePoolRef patched); reflexivity.
Qed.

(* a run of InstanceMetadata, by its error *)
Lemma InstanceMetadata_outcome (node : Node) (w : W) :
  let '(meta, err, _, j) :=
    InstancesV2.InstanceMetadata cl ProviderName o (Some node) w in
  match err with
  | None => meta <> None /\ Forall answered j
  | Some e =>
      meta = None
      /\ exists j0 c cause,
           j = (j0 ++ [c])%list /\ Forall answered j0 /\ refusal c = Some cause
           /\ ((j0 = [] /\ IsNotFound cause = true /\ e = InstancesV2.InstanceNotFound)
               \/ ((j0 = [] -> IsNotFound cause = false) /\ exists msg, e = Errorf msg cause))
  end.
Proof.
  unfold InstancesV2.InstanceMetadata.
  unfold InstancesV2.bind at 1. unfold InstancesV2.getMachine, InstancesV2.call.
  destruct (InstancesV2.clGetMachine cl _ w) as [[fetched|e] w1].
  2:{ finish_instances. split; [reflexivity|]. eexists [], _, e.
      split; [reflexivity|]. split; [constructor|]. split; [reflexivity|].
      unfold InstancesV2.lookupError. destruct (IsNotFound e) eqn:En.
      - left. now repeat split.
      - right. split; [reflexivity | eauto]. }
  unfold InstancesV2.bind at 1. unfold InstancesV2.mergePatchMachine, InstancesV2.call.
  destruct (InstancesV2.clMergePatchMachine cl _ _ w1) as [[patched|e] w2].
  2:{ finish_instances. split; [reflexivity|]. eexists [_], _, e.
      split; [reflexivity|]. split; [repeat constructor|]. split; [reflexivity|].
      right. split; [discriminate | eauto]. }
  unfold InstancesV2.bind at 1.
  pose proof (labelNetworkInterfaces_outcome node patched
                (mNetworkInterfaces (InstancesV2.moMachine patched)) w2) as Hl.
  destruct (InstancesV2.labelNetworkInterfaces cl o node patched _ w2) as [[err w3] j3].
  destruct err as [e|]; finish_instances.
  - split; [reflexivity|].
    destruct Hl as (j0 & c & cause & msg & -> & Hj0 & Hc & ->).
    eexists (_ :: _ :: j0)%list, c, cause. rewrite app_nil_r.
    split; [reflexivity|]. split; [repeat constructor; exact Hj0|]. split; [exact Hc|].
    right. split; [discriminate | eauto].
  - split; [discriminate|]. destruct Hl as (answers & _ & ->). rewrite app_nil_r.
    repeat constructor. apply labelSteps_answered.
Qed.

End InstanceLookups.

(** X9 (InstanceMetadata): a run of InstanceMetadata on a node that gives
    metadata gives no error and consists of exactly these calls: the fetch
    of the machine under the provider's namespace and the node's name; the
    merge patch of that machine with the cluster label added, against the
    fetched machine as base; then, for each attachment of the machine as
    the patch answered it, in order, the fetch of the network interface
    named by the machine's name, a dash and the attachment's name (an
    explicit interface reference is not looked at) and its merge patch
    with the cluster label added.  The metadata is built from the machine
    as the patch answered it, not as first fetched. *)
Theorem X9_metadata_run :
  forall (W : Type) (onmetalClient : InstancesV2.Client W) (ProviderName : string)
         (o : InstancesV2.onmetalInstancesV2) (node : Node) (w : W),
    let '(meta, err, _, j) :=
      InstancesV2.InstanceMetadata onmetalClient ProviderName o (Some node) w in
    forall m,
      meta = Some m ->
      err = None
      /\ exists fetched patched answers,
           j = (InstancesV2.CGetMachine
                  (mkKey (InstancesV2.onmetalNamespace o) (nodeName node)) (Ok fetched)
                :: InstancesV2.CMergePatchMachine
                     (InstancesV2.labelMachine (InstancesV2.clusterName o) fetched) fetched
                     (Ok patched)
                :: labelSteps o (mName (InstancesV2.moMachine patched))
                     (mNetworkInterfaces (InstancesV2.moMachine patched)) answers)%list
           /\ length answers = length (mNetworkInterfaces (InstancesV2.moMachine patched))
           /\ m = metadataOf ProviderName o node patched.
Proof. intros W cl ProviderName o node w. apply InstanceMetadata_success. Qed.

Lemma X9_metadata_run_witness :
  let run := InstancesV2.InstanceMetadata MemInstances.client "onmetal" MemInstances.provider
               (Some MemInstances.node) (MemInstances.world []) in
  let m := {| InstancesV2.ProviderID := "onmetal://ns/m1";
              InstancesV2.InstanceType := "x3-small";
              InstancesV2.NodeAddresses :=
                [ {| InstancesV2.naType := "ExternalIP"; InstancesV2.naAddress := "45.86.152.88" |};
                  {| InstancesV2.naType := "InternalIP"; InstancesV2.naAddress := "10.0.0.1" |};
                  {| InstancesV2.naType := "InternalIP"; InstancesV2.naAddress := "fd00::1" |};
                  {| InstancesV2.naType := "InternalIP"; InstancesV2.naAddress := "10.0.1.1" |} ];
              InstancesV2.Zone := "zone-a";
              InstancesV2.Region := "" |} in
  fst (fst (fst run)) = Some m
  /\ snd (fst (fst run)) = None
  /\ exists fetched patched answers,
       snd run
       = (InstancesV2.CGetMachine (mkKey "ns" "m1") (Ok fetched)
          :: InstancesV2.CMergePatchMachine (InstancesV2.labelMachine "shoot" fetched) fetched
               (Ok patched)
          :: labelSteps MemInstances.provider (mName (InstancesV2.moMachine patched))
               (mNetworkInterfaces (InstancesV2.moMachine patched)) answers)%list
       /\ length answers = length (mNetworkInterfaces (InstancesV2.moMachine patched))
       /\ m = metadataOf "onmetal" MemInstances.provider MemInstances.node patched.
Proof.
  intros run m.
  assert (Hm : fst (fst (fst run)) = Some m) by (vm_compute; reflexivity).
  pose proof (X9_metadata_run MemInstances.World MemInstances.client "onmetal"
                MemInstances.provider MemInstances.node (MemInstances.world [])) as H.
  subst run.
  destruct (InstancesV2.InstanceMetadata MemInstances.client "onmetal" MemInstances.provider
              (Some MemInstances.node) (MemInstances.world [])) as [[[meta err] w'] j].
  cbn [fst snd] in *. split; [exact Hm|]. exact (H m Hm).
Defined.

(** X10 (InstanceMetadata): a run of InstanceMetadata on a node never gives
    both metadata and an error, and gives one of them.  Without an error
    every call was answered without one.  With an error, the last call is
    the first one that failed and nothing is called after it, so the
    labels patched before stay; the error is InstanceNotFound when the
    fetch of the machine, the first call, was answered with not-found, and
    otherwise wraps the error of the failed call. *)
Theorem X10_metadata_outcomes :
  forall (W : Type) (onmetalClient : InstancesV2.Client W) (ProviderName : string)
         (o : InstancesV2.onmetalInstancesV2) (node : Node) (w : W),
    let '(meta, err, _, j) :=
      InstancesV2.InstanceMetadata onmetalClient ProviderName o (Some node) w in
    match err with
    | None => meta <> None /\ Forall answered j
    | Some e =>
        meta = None
        /\ exists j0 c cause,
             j = (j0 ++ [c])%list /\ Forall answered j0 /\ refusal c = Some cause
             /\ ((j0 = [] /\ IsNotFound cause = true /\ e = InstancesV2.InstanceNotFound)
                 \/ ((j0 = [] -> IsNotFound cause = false)
                     /\ exists msg, e = Errorf msg cause))
    end.
Proof. intros W cl ProviderName o node w. apply InstanceMetadata_outcome. Qed.

(* the second attachment's interface cannot be fetched: the machine and
   the first interface keep the label they were given *)
Example metadata_failure_leaves_labels :
  let gone := ErrPlain "connection refused" in
  let run := InstancesV2.InstanceMetadata MemInstances.client "onmetal" MemInstances.provider
               (Some MemInstances.node)
               (MemInstances.world [None; None; None; None; Some gone]) in
  fst (fst (fst run)) = None
  /\ snd (fst (fst run))
     = Some (Errorf "failed to get network interface / for machine m1" gone)
  /\ length (snd run) = 5
  /\ InstancesV2.moLabels <$> (MemInstances.machines (snd (fst run)) !! ("ns", "m1"))
     = Some ({[ "kubernetes.io/cluster" := "shoot"; "team" := "a" ]} : gmap string string)
  /\ InstancesV2.nioLabels <$> (MemInstances.networkInterfaces (snd (fst run))
                                  !! ("ns", "m1-primary"))
     = Some ({[ "kubernetes.io/cluster" := "shoot" ]} : gmap string string)
  /\ InstancesV2.nioLabels <$> (MemInstances.networkInterfaces (snd (fst run))
                                  !! ("ns", "m1-storage"))
     = Some (∅ : gmap string string).
Proof. repeat split; vm_compute; reflexivity. Qed.

Section NodeAddresses.

Lemma appendInternal_map (addresses : list InstancesV2.NodeAddress) (ips : list string) :
  InstancesV2.appendInternal addresses ips
  = (addresses ++ map (fun ip => {| InstancesV2.naType := InstancesV2.NodeInternalIP;
                                    InstancesV2.naAddress := ip |}) ips)%list.
Proof.
  revert addresses. induction ips as [|ip ips IH]; intros addresses; cbn.
  - now rewrite app_nil_r.
  - rewrite IH, <- app_assoc. reflexivity.
Qed.

Lemma appendAddresses_flat_map (addresses : list InstancesV2.NodeAddress)
    (ifaces : list InstancesV2.NetworkInterfaceStatus) :
  InstancesV2.appendAddresses addresses ifaces
  = (addresses ++ flat_map interfaceAddresses ifaces)%list.
Proof.
  revert addresses. induction ifaces as [|iface ifaces IH]; intros addresses; cbn.
  - now rewrite app_nil_r.
  - rewrite IH, appendInternal_map. unfold interfaceAddresses.
    destruct (InstancesV2.nisVirtualIP iface); cbn [app]; now rewrite <- !app_assoc.
Qed.

Lemma addressesOfType_app (type : string) (a b : list InstancesV2.NodeAddress) :
  addressesOfType type (a ++ b)%list
  = (addressesOfType type a ++ addressesOfType type b)%list.
Proof. unfold addressesOfType. now rewrite List.filter_app, map_app. Qed.

Lemma addressesOfType_internal (type : string) (ips : list string) :
  addressesOfType type
    (map (fun ip => {| InstancesV2.naType := InstancesV2.NodeInternalIP;
                       InstancesV2.naAddress := ip |}) ips)
  = if String.eqb InstancesV2.NodeInternalIP type then ips else [].
Proof.
  unfold addressesOfType.
  induction ips as [|ip ips IH]; cbn [map List.filter InstancesV2.naType].
  - now destruct (String.eqb _ _).
  - destruct (String.eqb InstancesV2.NodeInternalIP type) eqn:E; [|exact IH].
    cbn [map InstancesV2.naAddress]. now rewrite IH.
Qed.

End NodeAddresses.

(** X11 (InstanceMetadata): the node addresses are gathered interface by
    interface in the order the machine reports them, per interface the
    virtual IP first, as an external address, then the interface's IPs in
    their order, as internal addresses.  So the external addresses are
    exactly the virtual IPs of the interfaces that have one, the internal
    addresses exactly the IPs of all interfaces, nothing is dropped or
    deduplicated, and there is no address of any other type. *)
Theorem X11_node_addresses :
  forall ifaces : list InstancesV2.NetworkInterfaceStatus,
    let addresses := InstancesV2.appendAddresses [] ifaces in
    addresses = flat_map interfaceAddresses ifaces
    /\ addressesOfType InstancesV2.NodeExternalIP addresses
       = omap InstancesV2.nisVirtualIP ifaces
    /\ addressesOfType InstancesV2.NodeInternalIP addresses
       = concat (map InstancesV2.nisIPs ifaces)
    /\ length addresses
       = (length (omap InstancesV2.nisVirtualIP ifaces)
          + length (concat (map InstancesV2.nisIPs ifaces)))%nat
    /\ Forall (fun a => InstancesV2.naType a = InstancesV2.NodeExternalIP
                        \/ InstancesV2.naType a = InstancesV2.NodeInternalIP) addresses.
Proof.
  intros ifaces addresses. subst addresses.
  rewrite appendAddresses_flat_map. cbn [app]. split; [reflexivity|].
  induction ifaces as [|iface ifaces (IHe & IHi & IHl & IHt)];
    [repeat split; constructor|].
  cbn [flat_map map concat].
  rewrite !addressesOfType_app, IHe, IHi, !length_app, IHl.
  unfold interfaceAddresses at 1 2 3 4.
  rewrite !addressesOfType_app, !addressesOfType_internal, !length_app, length_map.
  change (omap InstancesV2.nisVirtualIP (iface :: ifaces))
    with (match InstancesV2.nisVirtualIP iface with
          | Some v => v :: omap InstancesV2.nisVirtualIP ifaces
          | None => omap InstancesV2.nisVirtualIP ifaces
          end).
  destruct (InstancesV2.nisVirtualIP iface) as [v|]; cbn.
  - repeat split; try reflexivity; [lia|].
    constructor; [now left|]. apply Forall_app. split; [|exact IHt].
    apply List.Forall_forall. intros a Ha. apply in_map_iff in Ha as (ip & <- & _). now right.
  - repeat split; try reflexivity; [lia|].
    apply Forall_app. split; [|exact IHt].
    apply List.Forall_forall. intros a Ha. apply in_map_iff in Ha as (ip & <- & _). now right.
Qed.

Section LookupsAgree.

Context {W : Type} (cl : InstancesV2.Client W) (ProviderName : string)
        (o : InstancesV2.onmetalInstancesV2).

Lemma lookups_agree (node : option Node) (w : W) :
  let '(found, e1, w1, j1) := InstancesV2.InstanceExists cl o node w in
  let '(shutdown, e2, w2, j2) := InstancesV2.InstanceShutdown cl o node w in
  let '(meta, e3, _, j3) := InstancesV2.InstanceMetadata cl ProviderName o node w in
  (e2 = e1 /\ w2 = w1 /\ j2 = j1)
  /\ (found = false -> meta = None /\ e3 = e1 /\ j3 = j1)
  /\ (node = None -> found = false /\ e1 = None /\ j1 = [])
  /\ (found = true <->
      exists n machine,
        node = Some n
        /\ j1 = [InstancesV2.CGetMachine
                   (mkKey (InstancesV2.onmetalNamespace o) (nodeName n)) (Ok machine)])
  /\ (shutdown = true <->
      exists n machine,
        node = Some n
        /\ j1 = [InstancesV2.CGetMachine
                   (mkKey (InstancesV2.onmetalNamespace o) (nodeName n)) (Ok machine)]
        /\ InstancesV2.moState machine = InstancesV2.MachineStateShutdown)
  /\ (forall e, e1 = Some e ->
        exists n cause,
          node = Some n
          /\ j1 = [InstancesV2.CGetMachine
                     (mkKey (InstancesV2.onmetalNamespace o) (nodeName n)) (Err cause)]
          /\ e = (if IsNotFound cause then InstancesV2.InstanceNotFound
                  else Errorf ("failed to get machine object for node " ++ nodeName n) cause)).
Proof.
  destruct node as [n|].
  2:{ cbn. repeat split; try discriminate; try reflexivity.
      - intros (n & machine & D & _). discriminate.
      - intros (n & machine & D & _). discriminate. }
  unfold InstancesV2.InstanceExists, InstancesV2.InstanceShutdown, InstancesV2.InstanceMetadata.
  unfold InstancesV2.bind at 1 2 3. unfold InstancesV2.getMachine, InstancesV2.call.
  destruct (InstancesV2.clGetMachine cl _ w) as [[machine|cause] w1].
  - unfold InstancesV2.ret at 1 2. cbv beta iota zeta. cbn [fst snd app].
    match goal with |- context [InstancesV2.bind ?m ?f w1] =>
      destruct (InstancesV2.bind m f w1) as [[[meta e3] w3] j3] end.
    split; [now repeat split|]. split; [discriminate|]. split; [discriminate|].
    split; [split; [intros _; now exists n, machine | reflexivity]|].
    split; [|discriminate].
    split.
    + intros Hs. exists n, machine. repeat split. now apply String.eqb_eq.
    + intros (n' & machine' & [= <-] & [= <-] & Hs). now apply String.eqb_eq.
  - unfold InstancesV2.ret. cbv beta iota zeta. cbn [fst snd app].
    split; [now repeat split|]. split; [now repeat split|]. split; [discriminate|].
    split; [split; [discriminate | intros (n' & machine' & _ & D); discriminate]|].
    split; [split; [discriminate | intros (n' & machine' & _ & D & _); discriminate]|].
    intros e [= <-]. exists n, cause. repeat split.
Qed.

End LookupsAgree.

(** X12 (InstanceExists, InstanceShutdown, InstanceMetadata): started in
    the same state, InstanceExists and InstanceShutdown make the same
    calls, leave the same state and return the same error, and whenever
    InstanceExists answers false, InstanceMetadata makes those same calls,
    returns that same error and no metadata.  For a nil node nothing is
    called and no error is returned.  Otherwise the only call of the two
    is the fetch of the machine under the provider's namespace and the
    node's name: the instance exists exactly when that fetch succeeded, is
    shut down exactly when the fetched machine's state is Shutdown, and
    an error is InstanceNotFound when the fetch was answered with
    not-found and the wrapped cause otherwise. *)
Theorem X12_lookups_agree :
  forall (W : Type) (onmetalClient : InstancesV2.Client W) (ProviderName : string)
         (o : InstancesV2.onmetalInstancesV2) (node : option Node) (w : W),
    let '(found, e1, w1, j1) := InstancesV2.InstanceExists onmetalClient o node w in
    let '(shutdown, e2, w2, j2) := InstancesV2.InstanceShutdown onmetalClient o node w in
    let '(meta, e3, _, j3) :=
      InstancesV2.InstanceMetadata onmetalClient ProviderName o node w in
    (e2 = e1 /\ w2 = w1 /\ j2 = j1)
    /\ (found = false -> meta = None /\ e3 = e1 /\ j3 = j1)
    /\ (node = None -> found = false /\ e1 = None /\ j1 = [])
    /\ (found = true <->
        exists n machine,
          node = Some n
          /\ j1 = [InstancesV2.CGetMachine
                     (mkKey (InstancesV2.onmetalNamespace o) (nodeName n)) (Ok machine)])
    /\ (shutdown = true <->
        exists n machine,
          node = Some n
          /\ j1 = [InstancesV2.CGetMachine
                     (mkKey (InstancesV2.onmetalNamespace o) (nodeName n)) (Ok machine)]
          /\ InstancesV2.moState machine = InstancesV2.MachineStateShutdown)
    /\ (forall e, e1 = Some e ->
          exists n cause,
            node = Some n
            /\ j1 = [InstancesV2.CGetMachine
                       (mkKey (InstancesV2.onmetalNamespace o) (nodeName n)) (Err cause)]
            /\ e = (if IsNotFound cause then InstancesV2.InstanceNotFound
                    else Errorf ("failed to get machine object for node " ++ nodeName n)
                           cause)).
Proof. intros W cl ProviderName o node w. apply lookups_agree. Qed.

(* a node without a machine: all three methods answer InstanceNotFound
   after one fetch *)
Example lookups_of_unknown_node :
  let node := Some {| nodeName := "m9"; nodeProviderID := "" |} in
  let w := MemInstances.world [] in
  fst (fst (InstancesV2.InstanceExists MemInstances.client MemInstances.provider node w))
  = (false, Some InstancesV2.InstanceNotFound)
  /\ fst (fst (InstancesV2.InstanceShutdown MemInstances.client MemInstances.provider node w))
     = (false, Some InstancesV2.InstanceNotFound)
  /\ fst (fst (InstancesV2.InstanceMetadata MemInstances.client "onmetal"
                 MemInstances.provider node w))
     = (None, Some InstancesV2.InstanceNotFound).
Proof. repeat split; vm_compute; reflexivity. Qed.

(* a computation that starts with a call on the client has that call
   first in its journal *)
Lemma journal_bind_call {W A B : Type} (op : W -> A * W) (entry : A -> Call)
    (f : A -> M W B) (w : W) :
  snd (bind (call op entry) f w)
  = entry (fst (op w)) :: snd (f (fst (op w)) (snd (op w))).
Proof.
  unfold bind, call. destruct (op w) as [a w1]. cbn [fst snd].
  destruct (f a w1) as [[b w2] j2]. reflexivity.
Qed.

(** X13 (InstanceMetadata, extractMachineNameFromProviderID,
    getNetworkInterfacesForNodes): the provider ID in the metadata is the
    node's own when that is not empty.  When it is empty, the ID is built
    from the provider name, the namespace and the name of the machine as
    the patch answered it, and, that name holding no "/", the load
    balancer's resolver takes exactly that machine name back out of the
    ID: for a node carrying it, the resolver's first call is the fetch of
    the machine of that name. *)
Theorem X13_provider_id_names_the_machine :
  forall (W : Type) (onmetalClient : InstancesV2.Client W) (ProviderName : string)
         (o : InstancesV2.onmetalInstancesV2) (node : Node) (w : W),
    let '(meta, _, _, j) :=
      InstancesV2.InstanceMetadata onmetalClient ProviderName o (Some node) w in
    forall m,
      meta = Some m ->
      (nodeProviderID node <> "" -> InstancesV2.ProviderID m = nodeProviderID node)
      /\ exists labelled base patched,
           nth_error j 1 = Some (InstancesV2.CMergePatchMachine labelled base (Ok patched))
           /\ (nodeProviderID node = "" ->
               GoStrings.contains (mName (InstancesV2.moMachine patched)) slash = false ->
               InstancesV2.ProviderID m
               = ProviderName ++ "://" ++ InstancesV2.onmetalNamespace o ++ "/"
                 ++ mName (InstancesV2.moMachine patched)
               /\ extractMachineNameFromProviderID (InstancesV2.ProviderID m)
                  = mName (InstancesV2.moMachine patched)
               /\ forall (W' : Type) (loadBalancerClient : Client W')
                         (lb : onmetalLoadBalancer) (name networkName : string) (w' : W'),
                    exists r rest,
                      snd (getNetworkInterfacesForNodes loadBalancerClient lb
                             [ {| nodeName := name;
                                  nodeProviderID := InstancesV2.ProviderID m |} ]
                             networkName w')
                      = CGetMachine
                          (mkKey (onmetalNamespace lb) (mName (InstancesV2.moMachine patched)))
                          r :: rest).
Proof.
  intros W cl ProviderName o node w.
  pose proof (InstanceMetadata_success cl ProviderName o node w) as H.
  destruct (InstancesV2.InstanceMetadata cl ProviderName o (Some node) w)
    as [[[meta err] w'] j].
  intros m Hm. destruct (H m Hm) as (_ & fetched & patched & answers & -> & _ & ->).
  unfold metadataOf. cbn [InstancesV2.ProviderID]. split.
  - intros Hne. apply String.eqb_neq in Hne. now rewrite Hne.
  - eexists _, fetched, patched. split; [reflexivity|].
    intros -> Hname. cbn [String.eqb].
    assert (Hx : extractMachineNameFromProviderID
                   (ProviderName ++ "://" ++ InstancesV2.onmetalNamespace o ++ "/"
                    ++ mName (InstancesV2.moMachine patched))
                 = mName (InstancesV2.moMachine patched)).
    { replace (ProviderName ++ "://" ++ InstancesV2.onmetalNamespace o ++ "/"
                ++ mName (InstancesV2.moMachine patched))
        with ((ProviderName ++ "://" ++ InstancesV2.onmetalNamespace o) ++ "/"
              ++ mName (InstancesV2.moMachine patched))
        by (now rewrite !append_assoc).
      now apply machine_name_after_last_slash. }
    split; [reflexivity|]. split; [exact Hx|].
    intros W' lbcl lb name networkName w0.
    unfold getNetworkInterfacesForNodes. cbn [nodesNetworkInterfaces nodeProviderID].
    rewrite Hx. unfold getMachine. rewrite journal_bind_call. eauto.
Qed.

Lemma X13_provider_id_names_the_machine_witness :
  let run := InstancesV2.InstanceMetadata MemInstances.client "onmetal" MemInstances.provider
               (Some MemInstances.node) (MemInstances.world []) in
  exists m,
    fst (fst (fst run)) = Some m
    /\ nodeProviderID MemInstances.node = ""
    /\ InstancesV2.ProviderID m = "onmetal://ns/m1"
    /\ extractMachineNameFromProviderID (InstancesV2.ProviderID m) = "m1"
    /\ exists r rest,
         snd (getNetworkInterfacesForNodes MemStore.client Cluster.provider
                [ {| nodeName := "m1"; nodeProviderID := InstancesV2.ProviderID m |} ]
                "net" (Cluster.world Cluster.objects [] None))
         = CGetMachine (mkKey "ns" "m1") r :: rest.
Proof.
  intros run.
  assert (Hm : exists m, fst (fst (fst run)) = Some m) by (eexists; vm_compute; reflexivity).
  destruct Hm as [m Hm]. exists m.
  assert (Hj : exists labelled base patched,
             nth_error (snd run) 1
             = Some (InstancesV2.CMergePatchMachine labelled base (Ok patched))
             /\ mName (InstancesV2.moMachine patched) = "m1").
  { eexists _, _, _. split; [vm_compute; reflexivity | reflexivity]. }
  pose proof (X13_provider_id_names_the_machine MemInstances.World MemInstances.client
                "onmetal" MemInstances.provider MemInstances.node (MemInstances.world [])) as H.
  subst run.
  destruct (InstancesV2.InstanceMetadata MemInstances.client "onmetal" MemInstances.provider
              (Some MemInstances.node) (MemInstances.world [])) as [[[meta err] w'] j].
  cbn [fst snd] in *.
  destruct (H m Hm) as (_ & labelled & base & patched & Hn & Hid).
  destruct Hj as (labelled' & base' & patched' & Hn' & Hname).
  rewrite Hn in Hn'. injection Hn' as _ _ <-.
  assert (Hslash : GoStrings.contains (mName (InstancesV2.moMachine patched)) slash = false)
    by (rewrite Hname; reflexivity).
  destruct (Hid eq_refl Hslash) as (Hp & Hx & Hr).
  rewrite Hname in Hp, Hx, Hr.
  split; [exact Hm|]. split; [reflexivity|]. split; [exact Hp|]. split; [exact Hx|].
  exact (Hr MemStore.World MemStore.client Cluster.provider "m1" "net"
            (Cluster.world Cluster.objects [] None)).
Defined.

Section ResolverReferences.

Context {W : Type} (cl : Client W) (o : onmetalLoadBalancer) (networkName : string).

Lemma machineNetworkInterfaces_references (machine : Machine) (machineNICs : list MachineNIC) :
  forall (acc : list LocalUIDReference) (w : W),
    let '(r, _, j) := machineNetworkInterfaces cl o machine machineNICs networkName acc w in
    Forall (fun c => readNamespace c = Some (onmetalNamespace o)) j
    /\ forall l, r = Ok l -> l = (acc ++ fetchedReferences networkName j)%list.
Proof.
  induction machineNICs as [|machineNIC rest IH]; intros acc w.
  - cbn. split; [constructor|]. intros l [= <-]. now rewrite app_nil_r.
  - cbn [machineNetworkInterfaces]. unfold bind at 1. unfold getNetworkInterface, call.
    destruct (clGetNetworkInterface cl _ w) as [[networkInterface|e] w1].
    + match goal with |- context [machineNetworkInterfaces cl o machine rest networkName ?a w1] =>
        specialize (IH a w1);
        destruct (machineNetworkInterfaces cl o machine rest networkName a w1)
          as [[r w2] j2] end.
      destruct IH as [Hns Hl]. split; [constructor; [reflexivity | exact Hns]|].
      intros l Hr. rewrite (Hl l Hr). cbn [app].
      unfold fetchedReferences. cbn [flat_map].
      destruct (String.eqb (nicNetworkRef networkInterface) networkName);
        [now rewrite <- app_assoc | reflexivity].
    + finish_run. split; [repeat constructor | discriminate].
Qed.

Lemma nodesNetworkInterfaces_references (nodes : list Node) :
  forall (acc : list LocalUIDReference) (w : W),
    let '(r, _, j) := nodesNetworkInterfaces cl o nodes networkName acc w in
    Forall (fun c => readNamespace c = Some (onmetalNamespace o)) j
    /\ forall l, r = Ok l -> l = (acc ++ fetchedReferences networkName j)%list.
Proof.
  induction nodes as [|node rest IH]; intros acc w.
  - cbn. split; [constructor|]. intros l [= <-]. now rewrite app_nil_r.
  - cbn [nodesNetworkInterfaces]. unfold bind at 1. unfold getMachine, call.
    destruct (clGetMachine cl _ w) as [rm w1].
    destruct (IgnoreNotFound (errOf rm)); [finish_run; split; [repeat constructor | discriminate]|].
    unfold bind at 1.
    match goal with |- context [machineNetworkInterfaces cl o ?m ?ns networkName acc w1] =>
      pose proof (machineNetworkInterfaces_references m ns acc w1) as Hin;
      destruct (machineNetworkInterfaces cl o m ns networkName acc w1) as [[ri w2] ji] end.
    destruct Hin as [Hns Hl].
    destruct ri as [l1|e].
    + specialize (IH l1 w2).
      destruct (nodesNetworkInterfaces cl o rest networkName l1 w2) as [[r w3] j3].
      destruct IH as [Hns3 Hl3]. cbn [app]. split.
      * constructor; [reflexivity|]. apply Forall_app. split; assumption.
      * intros l Hr. rewrite (Hl3 l Hr), (Hl l1 eq_refl).
        unfold fetchedReferences. cbn [flat_map app].
        now rewrite flat_map_app, <- app_assoc.
    + finish_run. rewrite app_nil_r. split; [|discriminate].
      constructor; [reflexivity | exact Hns].
Qed.

End ResolverReferences.

(** X14 (getNetworkInterfacesForNodes): every read of the resolver, of a
    machine or of a network interface, is made in the provider's
    namespace; and when the resolver returns references, they are exactly
    the network interfaces it fetched that sit on the given network, each
    with the name and UID of the fetched object, in the order of the
    fetches: nothing is added that was not fetched, nothing on the network
    is left out, and an interface fetched twice is listed twice. *)
Theorem X14_references_are_the_fetched_interfaces :
  forall (W : Type) (onmetalClient : Client W) (o : onmetalLoadBalancer)
         (nodes : list Node) (networkName : string) (w : W),
    let '(r, _, j) := getNetworkInterfacesForNodes onmetalClient o nodes networkName w in
    Forall (fun c => readNamespace c = Some (onmetalNamespace o)) j
    /\ forall networkInterfaces,
         r = Ok networkInterfaces ->
         networkInterfaces = fetchedReferences networkName j.
Proof.
  intros W cl o nodes networkName w. unfold getNetworkInterfacesForNodes.
  pose proof (nodesNetworkInterfaces_references cl o networkName nodes [] w) as H.
  destruct (nodesNetworkInterfaces cl o nodes networkName [] w) as [[r w'] j].
  destruct H as [Hns Hl]. split; [exact Hns|]. intros l Hr. exact (Hl l Hr).
Qed.

Lemma X14_references_are_the_fetched_interfaces_witness :
  let run := getNetworkInterfacesForNodes MemStore.client Cluster.provider
               [Cluster.node "m1"; Cluster.node "m2"] "net"
               (Cluster.world Cluster.objects [] None) in
  let l := [ {| refName := "m1-nic"; refUID := "uid-b" |};
             {| refName := "m2-nic"; refUID := "uid-a" |} ] in
  fst (fst run) = Ok l
  /\ l = fetchedReferences "net" (snd run)
  /\ length (snd run) = 5.
Proof.
  intros run l.
  assert (Hr : fst (fst run) = Ok l) by (vm_compute; reflexivity).
  assert (Hn : length (snd run) = 5) by (vm_compute; reflexivity).
  pose proof (X14_references_are_the_fetched_interfaces MemStore.World MemStore.client
                Cluster.provider [Cluster.node "m1"; Cluster.node "m2"] "net"
                (Cluster.world Cluster.objects [] None)) as H.
  subst run.
  destruct (getNetworkInterfacesForNodes MemStore.client Cluster.provider
              [Cluster.node "m1"; Cluster.node "m2"] "net"
              (Cluster.world Cluster.objects [] None)) as [[r w'] j].
  cbn [fst snd] in *. split; [exact Hr|]. split; [exact (proj2 H l Hr) | exact Hn].
Defined.

Section TouchLabel.

Lemma contains_ReplaceAll_old (s : string) (old new : ascii) :
  old <> new -> GoStrings.contains (GoStrings.ReplaceAll s old new) old = false.
Proof.
  intros Hne. induction s as [|c s IH]; [reflexivity|].
  cbn [GoStrings.ReplaceAll GoStrings.contains]. rewrite IH, orb_false_r.
  destruct (Ascii.eqb c old) eqn:E; [|exact E].
  apply Ascii.eqb_neq. congruence.
Qed.

Lemma contains_ReplaceAll_other (s : string) (old new c : ascii) :
  c <> old -> c <> new ->
  GoStrings.contains (GoStrings.ReplaceAll s old new) c = GoStrings.contains s c.
Proof.
  intros Ho Hn. induction s as [|d s IH]; [reflexivity|].
  cbn [GoStrings.ReplaceAll GoStrings.contains]. rewrite IH. f_equal.
  destruct (Ascii.eqb d old) eqn:E; [|reflexivity].
  apply Ascii.eqb_eq in E as ->.
  transitivity false; [|symmetry]; apply Ascii.eqb_neq; congruence.
Qed.

Lemma contains_TrimSuffix (s : string) (suffix c : ascii) :
  c <> suffix ->
  GoStrings.contains (GoStrings.TrimSuffix s suffix) c = GoStrings.contains s c.
Proof.
  intros Hne. induction s as [|d s IH]; [reflexivity|].
  destruct s as [|d' s].
  - cbn. destruct (Ascii.eqb d suffix) eqn:E; [|reflexivity].
    apply Ascii.eqb_eq in E as ->. cbn.
    rewrite orb_false_r. symmetry. apply Ascii.eqb_neq. congruence.
  - change (GoStrings.TrimSuffix (String d (String d' s)) suffix)
      with (String d (GoStrings.TrimSuffix (String d' s) suffix)).
    cbn [GoStrings.contains] in *. now rewrite IH.
Qed.

Lemma length_ReplaceAll (s : string) (old new : ascii) :
  String.length (GoStrings.ReplaceAll s old new) = String.length s.
Proof. induction s as [|c s IH]; cbn; [reflexivity | now rewrite IH]. Qed.

Lemma length_TrimSuffix (s : string) (suffix : ascii) :
  (String.length (GoStrings.TrimSuffix s suffix) <= String.length s
   <= S (String.length (GoStrings.TrimSuffix s suffix)))%nat.
Proof.
  induction s as [|d s IH]; [cbn; lia|].
  destruct s as [|d' s].
  - cbn. destruct (Ascii.eqb d suffix); cbn; lia.
  - change (GoStrings.TrimSuffix (String d (String d' s)) suffix)
      with (String d (GoStrings.TrimSuffix (String d' s) suffix)).
    cbn [String.length] in *. lia.
Qed.

End TouchLabel.

(** X15 (waitLoadBalancerActive): the routing object written back after
    the wait differs from the fetched one in the label "updated" only:
    every other label, the name, the owner references, the network
    reference and the destinations are kept.  The label's value is the
    formatted time with every ":" replaced and at most one character, a
    final "Z", cut off: it holds no ":", and any character other than ":",
    "-" and "Z" occurs in it exactly when it occurs in the formatted time
    (so the "+" of a time zone offset stays). *)
Theorem X15_touch_changes_one_label :
  forall (lbr : LoadBalancerRouting) (now : string),
    lbrLabels (touched lbr now) !! "updated" = Some (touchLabel now)
    /\ (forall key : string,
          key <> "updated" -> lbrLabels (touched lbr now) !! key = lbrLabels lbr !! key)
    /\ routingKey (touched lbr now) = routingKey lbr
    /\ lbrOwnerReferences (touched lbr now) = lbrOwnerReferences lbr
    /\ lbrNetworkRef (touched lbr now) = lbrNetworkRef lbr
    /\ lbrDestinations (touched lbr now) = lbrDestinations lbr
    /\ GoStrings.contains (touchLabel now) ":"%char = false
    /\ (forall c : ascii,
          c <> ":"%char -> c <> "-"%char -> c <> "Z"%char ->
          GoStrings.contains (touchLabel now) c = GoStrings.contains now c)
    /\ (String.length (touchLabel now) <= String.length now
        <= S (String.length (touchLabel now)))%nat.
Proof.
  intros lbr now. unfold touched, touchLabel. cbn [lbrLabels lbrOwnerReferences lbrNetworkRef
    lbrDestinations routingKey lbrName lbrNamespace].
  split; [apply lookup_insert_eq|].
  split; [intros key Hk; apply lookup_insert_ne; congruence|].
  do 4 (split; [reflexivity|]).
  split.
  - rewrite contains_TrimSuffix by discriminate.
    apply contains_ReplaceAll_old. discriminate.
  - split.
    + intros c H1 H2 H3. rewrite contains_TrimSuffix by exact H3.
      now apply contains_ReplaceAll_other.
    + pose proof (length_TrimSuffix (GoStrings.ReplaceAll now ":"%char "-"%char) "Z"%char) as H.
      now rewrite length_ReplaceAll in H.
Qed.

Lemma X15_touch_changes_one_label_witness :
  let now := "2023-06-01T12:00:00+02:00" in
  touchLabel now = "2023-06-01T12-00-00+02-00"
  /\ GoStrings.contains (touchLabel now) "+"%char = true
  /\ touchLabel "2023-06-01T10:00:00Z" = "2023-06-01T10-00-00".
Proof.
  intros now. split; [reflexivity|]. split; [|reflexivity].
  rewrite (proj1 (proj2 (proj2 (proj2 (proj2 (proj2 (proj2 (proj2
             (X15_touch_changes_one_label
                {| lbrName := "lb"; lbrNamespace := "ns"; lbrLabels := ∅;
                   lbrOwnerReferences := []; lbrNetworkRef := mkRef "net" "uid-net";
                   lbrDestinations := [] |} now)))))))) "+"%char);
    [reflexivity | discriminate | discriminate | discriminate].
Defined.

(** X16 (GetLoadBalancer, EnsureLoadBalancer, UpdateLoadBalancer,
    EnsureLoadBalancerDeleted): GetLoadBalancer makes one call, the fetch
    of the load balancer under the provider's namespace and the derived
    name, and from the same state EnsureLoadBalancer and, given nodes,
    UpdateLoadBalancer start with that same call and answer, while
    EnsureLoadBalancerDeleted starts with the deletion under that same
    key.  When the fetch succeeds GetLoadBalancer reports the load
    balancer as existing, whatever its type, deletion mark or addresses,
    with one ingress entry per status address, in order and without host
    name (none when no address is allocated yet); when it fails it
    reports no status, not existing, and an error. *)
Theorem X16_entry_points_share_the_key :
  forall (W : Type) (onmetalClient : Client W) (o : onmetalLoadBalancer)
         (clusterName : string) (service : Service) (nodes : list Node) (w : W),
    let key := mkKey (onmetalNamespace o) (getLoadBalancerNameForService clusterName service) in
    let '(status, found, err, _, j) :=
      GetLoadBalancer onmetalClient o clusterName service w in
    exists r,
      j = [CGetLoadBalancer key r]
      /\ hd_error (snd (EnsureLoadBalancer onmetalClient o clusterName service nodes w))
         = Some (CGetLoadBalancer key r)
      /\ (nodes <> [] ->
          hd_error (snd (UpdateLoadBalancer onmetalClient o clusterName service nodes w))
          = Some (CGetLoadBalancer key r))
      /\ (exists d,
            hd_error (snd (EnsureLoadBalancerDeleted onmetalClient o clusterName service w))
            = Some (CDeleteLoadBalancer key d))
      /\ match r with
         | Ok loadBalancer =>
             found = true /\ err = None
             /\ exists st,
                  status = Some st
                  /\ map ingIP (Ingress st) = lbStatusIPs loadBalancer
                  /\ Forall (fun i => ingHostname i = "") (Ingress st)
         | Err _ => found = false /\ err <> None /\ status = None
         end.
Proof.
  intros W cl o clusterName service nodes w key.
  assert (He : hd_error (snd (EnsureLoadBalancer cl o clusterName service nodes w))
               = Some (CGetLoadBalancer key (fst (clGetLoadBalancer cl key w)))).
  { unfold EnsureLoadBalancer, getLoadBalancer. cbv zeta. fold key.
    rewrite journal_bind_call. reflexivity. }
  assert (Hu : nodes <> [] ->
               hd_error (snd (UpdateLoadBalancer cl o clusterName service nodes w))
               = Some (CGetLoadBalancer key (fst (clGetLoadBalancer cl key w)))).
  { intros Hne. unfold UpdateLoadBalancer, getLoadBalancer, GetLoadBalancerName.
    destruct nodes as [|n nodes]; [contradiction|]. cbn [length Nat.eqb]. cbv zeta. fold key.
    rewrite journal_bind_call. reflexivity. }
  assert (Hd : exists d,
               hd_error (snd (EnsureLoadBalancerDeleted cl o clusterName service w))
               = Some (CDeleteLoadBalancer key d)).
  { unfold EnsureLoadBalancerDeleted, deleteLoadBalancer, GetLoadBalancerName. cbv zeta.
    rewrite journal_bind_call. eexists. reflexivity. }
  revert He Hu Hd.
  unfold GetLoadBalancer, bind, getLoadBalancer, call, GetLoadBalancerName. fold key.
  destruct (clGetLoadBalancer cl key w) as [[loadBalancer|e] w1]; finish_run;
    intros He Hu Hd; eexists; (split; [reflexivity|]);
    (split; [exact He|]); (split; [exact Hu|]); (split; [exact Hd|]).
  - split; [reflexivity|]. split; [reflexivity|]. eexists. split; [reflexivity|].
    cbn [Ingress]. unfold ingressOf. split.
    + rewrite map_map. cbn [ingIP]. apply map_id.
    + induction (lbStatusIPs loadBalancer); constructor; [reflexivity | assumption].
  - split; [reflexivity|]. split; [discriminate | reflexivity].
Qed.

(** X17 (applyLoadBalancerRoutingForLoadBalancer): a routing object is
    applied at most once, as the last call, after reads only.  The object
    applied carries the load balancer's name and the provider's
    namespace, has no labels, and has exactly one owner reference, to the
    load balancer by kind, name and UID. *)
Theorem X17_routing_object_identity :
  forall (W : Type) (onmetalClient : Client W) (o : onmetalLoadBalancer)
         (loadBalancer : LoadBalancer) (nodes : list Node) (w : W)
         (lbr : LoadBalancerRouting) (r : result LoadBalancerRouting),
    In (CApplyLoadBalancerRouting lbr r)
       (snd (applyLoadBalancerRoutingForLoadBalancer onmetalClient o loadBalancer nodes w)) ->
    routingKey lbr = mkKey (onmetalNamespace o) (lbName loadBalancer)
    /\ lbrLabels lbr = ∅
    /\ lbrOwnerReferences lbr
       = [ {| orAPIVersion := networkingAPIVersion; orKind := "LoadBalancer";
              orName := lbName loadBalancer; orUID := lbUID loadBalancer |} ]
    /\ exists reads,
         snd (applyLoadBalancerRoutingForLoadBalancer onmetalClient o loadBalancer nodes w)
         = (reads ++ [CApplyLoadBalancerRouting lbr r])%list
         /\ writes reads = [].
Proof.
  intros W cl o loadBalancer nodes w lbr r.
  destruct (applyLoadBalancerRoutingForLoadBalancer cl o loadBalancer nodes w)
    as [[err w'] j] eqn:E.
  cbn [snd]. unfold applyLoadBalancerRoutingForLoadBalancer in E.
  apply bind_inv in E as (rn & w1 & j1 & j1' & E1 & E & ->).
  pose proof (nodesNetworkInterfaces_reads cl o (lbNetworkRef (lbSpec loadBalancer)) nodes [] w)
    as Hreads.
  unfold getNetworkInterfacesForNodes in E1. rewrite E1 in Hreads. cbn [snd] in Hreads.
  assert (Hno : ~ In (CApplyLoadBalancerRouting lbr r) j1).
  { intros Hin. rewrite List.Forall_forall in Hreads. exact (Hreads _ Hin). }
  apply resolver_changes_nothing in Hreads.
  destruct rn as [l|e].
  2:{ apply ret_inv in E as (_ & _ & ->). rewrite app_nil_r. intros Hin. contradiction. }
  apply bind_inv in E as (rnet & w2 & j2 & j2' & E2 & E & ->).
  unfold getNetwork, call in E2.
  destruct (clGetNetwork cl _ w1) as [rnet' w2'']. injection E2 as -> -> <-.
  destruct rnet as [network|e].
  2:{ apply ret_inv in E as (_ & _ & ->). rewrite app_nil_r. intros Hin.
      apply in_app_or in Hin as [Hin | [D | []]]; [contradiction | discriminate]. }
  unfold SetOwnerReference in E.
  destruct (validateOwner loadBalancer _) as [refused|].
  { apply ret_inv in E as (_ & _ & ->). rewrite app_nil_r. intros Hin.
    apply in_app_or in Hin as [Hin | [D | []]]; [contradiction | discriminate]. }
  cbv zeta in E.
  apply bind_inv in E as (ra & w3 & j3 & j3' & E3 & E & ->).
  unfold applyLoadBalancerRouting, call in E3.
  destruct (clApplyLoadBalancerRouting cl _ w2) as [ra' w3'']. injection E3 as -> -> <-.
  assert (Hj : j3' = []) by (destruct ra; now apply ret_inv in E as (_ & _ & ->)).
  subst j3'. rewrite app_nil_r. intros Hin.
  apply in_app_or in Hin as [Hin | [D | [D | []]]]; [contradiction | discriminate |].
  injection D as <- <-.
  cbn [lbrLabels lbrOwnerReferences lbrName lbrNamespace upsertOwnerRef].
  split; [reflexivity|]. split; [reflexivity|]. split; [reflexivity|].
  eexists (j1 ++ [_])%list. split; [now rewrite <- app_assoc|].
  rewrite writes_app, Hreads. reflexivity.
Qed.

Lemma X17_routing_object_identity_witness :
  let loadBalancer := Scenario.stored "Public" [] [] in
  let run := applyLoadBalancerRoutingForLoadBalancer MemStore.client Cluster.provider
               loadBalancer [Cluster.node "m1"] (Cluster.world Cluster.objects [] None) in
  exists lbr r,
    In (CApplyLoadBalancerRouting lbr r) (snd run)
    /\ routingKey lbr = mkKey "ns" "shoot-web-2f5a9c1e"
    /\ lbrOwnerReferences lbr
       = [ {| orAPIVersion := "networking.api.onmetal.de/v1alpha1"; orKind := "LoadBalancer";
              orName := "shoot-web-2f5a9c1e"; orUID := "uid-lb" |} ].
Proof.
  intros loadBalancer run.
  assert (Hin : exists lbr r, nth_error (snd run) 4 = Some (CApplyLoadBalancerRouting lbr r))
    by (eexists _, _; vm_compute; reflexivity).
  destruct Hin as (lbr & r & Hin). apply nth_error_In in Hin.
  exists lbr, r. split; [exact Hin|].
  destruct (X17_routing_object_identity MemStore.World MemStore.client Cluster.provider
              loadBalancer [Cluster.node "m1"] (Cluster.world Cluster.objects [] None)
              lbr r Hin) as (Hk & _ & Ho & _).
  split; [exact Hk | exact Ho].
Defined.

Section AppliedObject.

Context {W : Type} (cl : Client W) (o : onmetalLoadBalancer).

Lemma not_applied (j : Journal) (request : LoadBalancer) (answer : result LoadBalancer) :
  without isApplyLoadBalancer j -> ~ In (CApplyLoadBalancer request answer) j.
Proof.
  unfold without. intros Hna Hin.
  assert (Hf : In (CApplyLoadBalancer request answer) (List.filter isApplyLoadBalancer j))
    by (apply List.filter_In; split; [exact Hin | reflexivity]).
  rewrite Hna in Hf. exact Hf.
Qed.

(* whatever EnsureLoadBalancer applies is the object it builds from the
   cluster name, the service and the configuration *)
Lemma ensure_applies_the_desired_object (clusterName : string) (service : Service)
    (nodes : list Node) (w : W) (request : LoadBalancer) (answer : result LoadBalancer) :
  In (CApplyLoadBalancer request answer)
     (snd (EnsureLoadBalancer cl o clusterName service nodes w)) ->
  request = desiredLoadBalancer o clusterName service (desiredTypeOf service)
              (desiredIPs o service).
Proof.
  destruct (EnsureLoadBalancer cl o clusterName service nodes w) as [[[status err] w'] j] eqn:E.
  cbn [snd]. unfold EnsureLoadBalancer in E.
  apply bind_inv in E as (first & w1 & j1 & j1' & E1 & E & ->).
  unfold getLoadBalancer, call in E1.
  destruct (clGetLoadBalancer cl _ w) as [first' w1''] eqn:Eget. injection E1 as -> -> <-.
  apply bind_inv in E as ([existingType deletionErr] & w2 & j2 & j2' & E2 & E & ->).
  pose proof (deletion_stage_applies_nothing cl o clusterName service first w1) as Hna.
  rewrite E2 in Hna. cbn [snd] in Hna.
  intros Hin. cbn [app] in Hin. destruct Hin as [D | Hin]; [discriminate|].
  apply in_app_or in Hin as [Hin | Hin]; [now apply not_applied in Hin|].
  destruct deletionErr as [derr|]; [apply ret_inv in E as (_ & _ & ->); contradiction|].
  destruct (String.eqb (desiredTypeOf service) LoadBalancerTypeInternal
            && String.eqb (PrefixName (cloudConfig o)) "");
    [apply ret_inv in E as (_ & _ & ->); contradiction|].
  apply bind_inv in E as (applied & w3 & j3 & j3' & E3 & E & ->).
  unfold applyLoadBalancer, call in E3.
  destruct (clApplyLoadBalancer cl _ _) as [a3 w3'] eqn:Eapply. injection E3 as -> -> <-.
  cbn [app] in Hin. destruct Hin as [D | Hin]; [injection D as <- _; reflexivity|].
  exfalso. destruct applied as [loadBalancer|e];
    [|apply ret_inv in E as (_ & _ & ->); contradiction].
  apply bind_inv in E as (routed & w4 & j4 & j4' & E4 & E & ->).
  pose proof (applyLoadBalancerRoutingForLoadBalancer_calls cl o loadBalancer nodes w3) as H4.
  rewrite E4 in H4. cbn [snd] in H4.
  apply in_app_or in Hin as [Hin | Hin].
  { rewrite List.Forall_forall in H4. exact (H4 _ Hin). }
  destruct routed as [rerr|]; [apply ret_inv in E as (_ & _ & ->); contradiction|].
  apply bind_inv in E as ([lbStatus werr] & w5 & j5 & j5' & E5 & E & ->).
  pose proof (waitLoadBalancerActive_applies_nothing cl existingType service loadBalancer w4)
    as H5.
  rewrite E5 in H5. cbn [snd] in H5.
  assert (Hj5' : j5' = []) by (destruct werr; apply ret_inv in E as (_ & _ & ->); reflexivity).
  subst j5'. rewrite app_nil_r in Hin. now apply not_applied in Hin.
Qed.

Lemma desired_annotations (clusterName : string) (service : Service)
    (type : LoadBalancerType) (ips : list IPSource) :
  let annotations := lbAnnotations (desiredLoadBalancer o clusterName service type ips) in
  annotations !! AnnotationKeyClusterName = Some clusterName
  /\ annotations !! AnnotationKeyServiceName = Some (svcName service)
  /\ annotations !! AnnotationKeyServiceNamespace = Some (svcNamespace service)
  /\ annotations !! AnnotationKeyServiceUID = Some (svcUID service).
Proof.
  cbn [desiredLoadBalancer lbAnnotations].
  repeat split; repeat (rewrite lookup_insert_ne by discriminate); apply lookup_insert_eq.
Qed.

End AppliedObject.

(** X18 (EnsureLoadBalancer, getLoadBalancerNameForService): whatever
    EnsureLoadBalancer applies is the load balancer built from the cluster
    name, the service and the configuration alone (not from the object
    found or the nodes), and its four annotations give back the cluster
    name and the service's name, namespace and UID.  So when two services
    that differ in one of these get the same derived name, their runs
    apply two different objects under one and the same key: each run
    overwrites the other's load balancer. *)
Theorem X18_colliding_services_share_one_object :
  forall (W : Type) (onmetalClient : Client W) (o : onmetalLoadBalancer)
         (c1 c2 : string) (s1 s2 : Service) (nodes1 nodes2 : list Node) (w1 w2 : W)
         (request1 request2 : LoadBalancer) (answer1 answer2 : result LoadBalancer),
    In (CApplyLoadBalancer request1 answer1)
       (snd (EnsureLoadBalancer onmetalClient o c1 s1 nodes1 w1)) ->
    In (CApplyLoadBalancer request2 answer2)
       (snd (EnsureLoadBalancer onmetalClient o c2 s2 nodes2 w2)) ->
    (request1 = desiredLoadBalancer o c1 s1 (desiredTypeOf s1) (desiredIPs o s1)
     /\ lbAnnotations request1 !! AnnotationKeyClusterName = Some c1
     /\ lbAnnotations request1 !! AnnotationKeyServiceName = Some (svcName s1)
     /\ lbAnnotations request1 !! AnnotationKeyServiceNamespace = Some (svcNamespace s1)
     /\ lbAnnotations request1 !! AnnotationKeyServiceUID = Some (svcUID s1))
    /\ (getLoadBalancerNameForService c1 s1 = getLoadBalancerNameForService c2 s2 ->
        (c1, svcName s1, svcNamespace s1, svcUID s1)
        <> (c2, svcName s2, svcNamespace s2, svcUID s2) ->
        loadBalancerKey request1 = loadBalancerKey request2
        /\ lbAnnotations request1 <> lbAnnotations request2).
Proof.
  intros W cl o c1 c2 s1 s2 nodes1 nodes2 w1 w2 request1 request2 answer1 answer2 H1 H2.
  apply ensure_applies_the_desired_object in H1, H2. subst request1 request2.
  pose proof (desired_annotations o c1 s1 (desiredTypeOf s1) (desiredIPs o s1)) as A1.
  pose proof (desired_annotations o c2 s2 (desiredTypeOf s2) (desiredIPs o s2)) as A2.
  cbv zeta in A1, A2. destruct A1 as (A1c & A1n & A1s & A1u).
  destruct A2 as (A2c & A2n & A2s & A2u).
  split; [now repeat split|].
  intros Hname Hdiff. split.
  - unfold loadBalancerKey. cbn [desiredLoadBalancer lbName lbNamespace]. now rewrite Hname.
  - intros Heq. apply Hdiff. rewrite Heq in A1c, A1n, A1s, A1u. congruence.
Qed.

Lemma X18_colliding_services_share_one_object_witness :
  let s1 := namedService "web" "2f5a9c1e-77aa" in
  let s2 := namedService "web" "2f5a9c1e-88bb" in
  let w := Cluster.world Cluster.objects [] None in
  exists request1 answer1 request2 answer2,
    In (CApplyLoadBalancer request1 answer1)
       (snd (EnsureLoadBalancer MemStore.client Cluster.provider "shoot" s1 [Cluster.node "m1"] w))
    /\ In (CApplyLoadBalancer request2 answer2)
          (snd (EnsureLoadBalancer MemStore.client Cluster.provider "shoot" s2
                  [Cluster.node "m1"] w))
    /\ loadBalancerKey request1 = loadBalancerKey request2
    /\ lbAnnotations request1 <> lbAnnotations request2.
Proof.
  intros s1 s2 w.
  assert (H1 : exists request answer,
             nth_error (snd (EnsureLoadBalancer MemStore.client Cluster.provider "shoot" s1
                               [Cluster.node "m1"] w)) 1
             = Some (CApplyLoadBalancer request answer))
    by (eexists _, _; vm_compute; reflexivity).
  assert (H2 : exists request answer,
             nth_error (snd (EnsureLoadBalancer MemStore.client Cluster.provider "shoot" s2
                               [Cluster.node "m1"] w)) 1
             = Some (CApplyLoadBalancer request answer))
    by (eexists _, _; vm_compute; reflexivity).
  destruct H1 as (request1 & answer1 & H1). destruct H2 as (request2 & answer2 & H2).
  apply nth_error_In in H1, H2.
  exists request1, answer1, request2, answer2.
  split; [exact H1|]. split; [exact H2|].
  apply (proj2 (X18_colliding_services_share_one_object MemStore.World MemStore.client
                  Cluster.provider "shoot" "shoot" s1 s2 [Cluster.node "m1"] [Cluster.node "m1"]
                  w w request1 request2 answer1 answer2 H1 H2));
    [reflexivity | discriminate].
Defined.
